(** * Shapefile ingestion pipeline of the Tanzania land-plot backend

    A shallow embedding of [backend/enhanced_seed.py] and
    [backend/seed_import.py]: the component validator, the two geometry
    source readers, the SQL statements that normalise the staging table
    into [land_plots], and the import ledger; besides these the command
    line built for the converter, the parser of the [ogrinfo] report and
    the loading step of the first script.

    PostgreSQL, PostGIS, shapely and the external [ogr2ogr] tool are not
    part of the repository.  Their operations are taken as parameters
    (classes [Postgres] and [Shapely]) or, for built-in SQL functions
    whose behaviour is fixed by the PostgreSQL manual ([LPAD], [NULLIF],
    [ROUND], the integer-to-text cast, the order in which COALESCE
    evaluates its arguments), written out.  SQL [double precision] and
    [numeric] values are rationals: floating-point rounding of
    [ST_Area(geography(..)) / 10000] is not modelled.

    Effects are explicit.  A database value [db] holds [land_plots],
    [shapefile_imports], the staging table and the log; a Python call
    that may raise returns an [outcome], which carries the database it
    leaves behind in either case.  [NOW()] is a clock value passed to
    the run.  What a run reads outside the database (the files, whether
    GDAL is installed, what the external tool does, what fiona finds)
    is an input, the record [world]. *)

From Stdlib Require Import List String Ascii Bool Arith ZArith QArith Qabs Lia.
From Stdlib Require Import DecimalString.
From Stdlib Require DecimalNat.
Import ListNotations.

Local Open Scope string_scope.
Local Open Scope list_scope.

(** ** Outcomes of fallible code *)

(** Errors PostgreSQL raises inside a statement, and the Python exceptions
    the pipeline raises itself. *)
Inductive error : Type :=
| InvalidTextRepresentation   (* invalid input syntax for type numeric *)
| NumericValueOutOfRange      (* numeric field overflow *)
| NotNullViolation
| CheckViolation
| UniqueViolation
| CardinalityViolation        (* ON CONFLICT DO UPDATE command cannot affect row a second time *)
| SyntaxError
| ValidationFailed (missing : list string)  (* "Shapefile validation failed: [...]" *)
| BothImportMethodsFailed     (* "Both ogr2ogr and Python fallback import methods failed" *)
| TempTableMissing            (* "Temporary table ... does not exist" *)
| NoDataInTempTable           (* "No data found in temporary table" *)
| FormatTypeError             (* a None aggregate formatted with :.4f *)
| GeometryColumnNotDetected   (* seed_import: RuntimeError *)
| FallbackRaised.             (* seed_import: fallback_python_import raised *)

Inductive result (A : Type) : Type :=
| Ok (a : A)
| Err (e : error).
Arguments Ok {A} a.
Arguments Err {A} e.

Definition bind {A B : Type} (r : result A) (k : A -> result B) : result B :=
  match r with
  | Ok a => k a
  | Err e => Err e
  end.

Notation "x <- r ;; k" := (bind r (fun x => k))
  (at level 61, r at next level, right associativity).

Definition is_ok {A : Type} (r : result A) : bool :=
  match r with Ok _ => true | Err _ => false end.

(** ** Built-in SQL functions *)
Module Sql.

(** SQL text values; [None] is NULL. *)
Definition text := option string.

(** [NULLIF(a, '')]. *)
Definition NULLIF_empty (a : text) : text :=
  match a with
  | Some s => if String.eqb s "" then None else Some s
  | None => None
  end.

(** The first [n] characters of [fill] repeated cyclically; [cur] is what
    is left of the current copy. *)
Fixpoint cycle (n : nat) (fill cur : string) : string :=
  match n with
  | O => ""
  | S n' =>
      match cur with
      | String c rest => String c (cycle n' fill rest)
      | EmptyString =>
          match fill with
          | String c rest => String c (cycle n' fill rest)
          | EmptyString => ""
          end
      end
  end.

(** [LPAD(s, len, fill)]: "Fill up the string to length [len] by prepending
    the characters [fill].  If the string is already longer than [len] then
    it is truncated (on the right)." *)
Definition LPAD (s : string) (len : nat) (fill : string) : string :=
  if Nat.leb len (String.length s)
  then substring 0 len s
  else cycle (len - String.length s) fill fill ++ s.

(** [n::text] for a non-negative integer. *)
Definition int_text (n : nat) : string :=
  NilEmpty.string_of_uint (Nat.to_uint n).

(** Ten to the power [s]. *)
Fixpoint pow10 (s : nat) : positive :=
  match s with
  | O => 1%positive
  | S k => (10 * pow10 k)%positive
  end.

(** Nearest integer, ties away from zero (PostgreSQL's rounding of
    [numeric]). *)
Definition round_half_away (q : Q) : Z :=
  let n := Qnum q in
  let d := Zpos (Qden q) in
  if (0 <=? n)%Z then ((2 * n + d) / (2 * d))%Z
  else (- ((2 * (- n) + d) / (2 * d)))%Z.

(** [ROUND(q, s)] on [numeric]. *)
Definition ROUND (q : Q) (s : nat) : Q :=
  Qmake (round_half_away (q * inject_Z (Zpos (pow10 s)))) (pow10 s).

(** Assignment to a column of type [numeric(12,4)]: the value is rounded
    to 4 decimals and must then be below 10^8 in absolute value. *)
Definition numeric_12_4 (q : Q) : result Q :=
  let r := ROUND q 4 in
  if Qle_bool (inject_Z (Zpos (pow10 8))) (Qabs r)
  then Err NumericValueOutOfRange
  else Ok r.

(** Python's [str.lower()] on ASCII letters. *)
Definition lower_ascii (c : ascii) : ascii :=
  let n := nat_of_ascii c in
  if andb (Nat.leb 65 n) (Nat.leb n 90) then ascii_of_nat (n + 32) else c.

Fixpoint lower (s : string) : string :=
  match s with
  | EmptyString => EmptyString
  | String c rest => String (lower_ascii c) (lower rest)
  end.

Definition mem (s : string) (l : list string) : bool :=
  existsb (String.eqb s) l.

End Sql.


(** ** JSON documents *)

(** JSON scalars, as [json.dumps] writes shapefile properties and as
    [jsonb_build_object] writes its arguments.  A number is kept by its
    lexeme, which is what [->>] returns. *)
Inductive json : Type :=
| JNull
| JString (s : string)
| JNumber (lexeme : string)
| JBool (b : bool).

(** A [jsonb] object. *)
Definition jsonb := list (string * json).

Fixpoint jsonb_lookup (o : jsonb) (k : string) : option json :=
  match o with
  | [] => None
  | (k', v) :: rest => if String.eqb k k' then Some v else jsonb_lookup rest k
  end.

(** [o ->> k]. *)
Definition get_text (o : jsonb) (k : string) : Sql.text :=
  match jsonb_lookup o k with
  | Some (JString s) => Some s
  | Some (JNumber l) => Some l
  | Some (JBool b) => Some (if b then "true" else "false")
  | Some JNull => None
  | None => None
  end.

(** [a || b] on objects: the keys of [b] win. *)
Definition jsonb_concat (a b : jsonb) : jsonb :=
  filter (fun kv => negb (Sql.mem (fst kv) (map fst b))) a ++ b.

(** ** The external collaborators *)

(** What the pipeline asks of PostgreSQL and PostGIS. *)
Class Postgres : Type := {
  geometry : Type;
  ST_IsValid : geometry -> bool;
  (** planar area, in the units of the SRID (square degrees) *)
  ST_Area : geometry -> Q;
  (** [ST_Area(geography(g))]: spheroidal area in square metres *)
  ST_Area_geography : geometry -> Q;
  (** [ST_Multi(ST_Force2D(g))::geometry(MultiPolygon,4326)] *)
  ST_Multi_Force2D : geometry -> geometry;
  (** [CAST(s AS NUMERIC)]; [None] is "invalid input syntax" *)
  numeric_in : string -> option Q;
  (** the text of a [timestamptz] *)
  timestamptz_out : Z -> string
}.

Inductive geom_kind : Type :=
| Polygon
| MultiPolygon
| OtherGeometry (name : string).

(** What the fallback reader asks of fiona, shapely and pyproj.  [None]
    stands for a raised exception. *)
Class Shapely (pg : Postgres) : Type := {
  (** [feature['geometry']] *)
  raw_geometry : Type;
  shapely_geometry : Type;
  shape : raw_geometry -> option shapely_geometry;
  (** [transform(transformer.transform, geom)] *)
  transform : shapely_geometry -> option shapely_geometry;
  geom_type : shapely_geometry -> geom_kind;
  (** [MultiPolygon([geom])] *)
  to_multi : shapely_geometry -> shapely_geometry;
  is_valid : shapely_geometry -> bool;
  (** [geom.buffer(0)] *)
  buffer0 : shapely_geometry -> option shapely_geometry;
  (** [ST_GeomFromGeoJSON(json.dumps(mapping(geom)))] *)
  ST_GeomFromGeoJSON : shapely_geometry -> geometry
}.

(** A bounding box [(minx, miny, maxx, maxy)]. *)
Definition box : Type := (Q * Q * Q * Q)%type.

(** [TANZANIA_BOUNDS]. *)
Definition north : Q := - (95 # 100).
Definition south : Q := - (1175 # 100).
Definition east : Q := 4044 # 100.
Definition west : Q := 2934 # 100.

Definition between (lo x hi : Q) : bool := Qle_bool lo x && Qle_bool x hi.

(** The test both bounds checks make of a box. *)
Definition within_tanzania (b : box) : bool :=
  let '(minx, miny, maxx, maxy) := b in
  between west minx east && between west maxx east &&
  between south miny north && between south maxy north.

Definition Qpositive (q : Q) : bool := (0 <? Qnum q)%Z.

(** ** The spatial store *)
Module Store.

Section WithPostgres.
Context {pg : Postgres}.

(** A row of [land_plots] ([ensure_database_schema]).  The generated
    [id] is left out: no statement of the pipeline reads or writes it.
    Columns declared NOT NULL are not options. *)
Record LandPlot : Type := mkLandPlot {
  plot_code : string;
  status : string;
  area_hectares : Q;
  district : string;
  ward : string;
  village : string;
  dataset_name : option string;
  lp_geometry : geometry;
  attributes : jsonb;
  created_at : Z;
  updated_at : Z
}.

(** A row of [shapefile_imports]. *)
Record ShapefileImportRecord : Type := mkImport {
  si_dataset_name : string;
  prj : option string;
  cpg : option string;
  dbf_schema : list (string * string);
  file_hashes : list (string * string);
  feature_count : nat;
  bbox : option box;
  imported_at : Z
}.

(** A staged row written by the fallback reader: [geometry],
    [attributes], [original_fid]. *)
Record jsonb_row : Type := mkJsonbRow {
  j_geometry : option geometry;
  j_attributes : jsonb;
  original_fid : nat
}.

(** A staged row written by [ogr2ogr]: the geometry and one text value
    per attribute column ([col::text], NULL when absent). *)
Record column_row : Type := mkColumnRow {
  c_geometry : option geometry;
  fields : list (string * Sql.text)
}.

(** The staging table in one of its two shapes.  Rows are listed in the
    order of their serial key ([id], [ogc_fid]), which is the order in
    which they were staged.  [columns] are the column names in ordinal
    position, as [information_schema.columns] reports them; a table made
    by [ogr2ogr] has no column named [attributes], so the constructor is
    what [has_attributes_col] finds out. *)
Inductive staging : Type :=
| AttributesTable (rows : list jsonb_row)
| ColumnsTable (columns : list string) (rows : list column_row).

Definition staged_count (t : staging) : nat :=
  match t with
  | AttributesTable rows => List.length rows
  | ColumnsTable _ rows => List.length rows
  end.

(** What the pipeline writes to its log, as far as the properties below
    look at it. *)
Inductive event : Type :=
| WarnFeatureOutsideBounds (i : nat)   (* "Feature i coordinates outside Tanzania bounds" *)
| WarnSkipped (i : nat)                (* a feature skipped by the fallback reader *)
| InfoTryingFallback                   (* "Trying Python fallback import method..." *)
| InfoAllWithinBounds                  (* "All coordinates are within Tanzania bounds" *)
| WarnSomeOutsideBounds                (* "Some coordinates may be outside Tanzania bounds" *)
| ErrorLogged (e : error).

(** The database and the log. *)
Record db : Type := mkDb {
  land_plots : list LandPlot;
  shapefile_imports : list ShapefileImportRecord;
  temp_table : option staging;
  log : list event
}.

Definition set_land_plots (d : db) (l : list LandPlot) : db :=
  mkDb l (shapefile_imports d) (temp_table d) (log d).

Definition set_imports (d : db) (l : list ShapefileImportRecord) : db :=
  mkDb (land_plots d) l (temp_table d) (log d).

Definition set_temp_table (d : db) (t : option staging) : db :=
  mkDb (land_plots d) (shapefile_imports d) t (log d).

Definition logging (d : db) (e : event) : db :=
  mkDb (land_plots d) (shapefile_imports d) (temp_table d) (log d ++ [e]).

(** A Python call either returns a value or raises; both leave a
    database behind. *)
Inductive outcome (A : Type) : Type :=
| Returned (a : A) (d : db)
| Raised (e : error) (d : db).
Arguments Returned {A} a d.
Arguments Raised {A} e d.

Definition final_db {A : Type} (o : outcome A) : db :=
  match o with
  | Returned _ d => d
  | Raised _ d => d
  end.

Definition has_code (c : string) (store : list LandPlot) : bool :=
  existsb (fun r => String.eqb (plot_code r) c) store.

(** The checks PostgreSQL makes of a tuple proposed for [land_plots]:
    the [numeric(12,4)] assignment, then the CHECK constraints on
    [status] and [area_hectares]. *)
Definition check_constraints (p : LandPlot) : result LandPlot :=
  a <- Sql.numeric_12_4 (area_hectares p) ;;
  if negb (Sql.mem (status p) ["available"; "taken"; "pending"]) then Err CheckViolation
  else if negb (Qpositive a) then Err CheckViolation
  else Ok (mkLandPlot (plot_code p) (status p) a (district p) (ward p) (village p)
             (dataset_name p) (lp_geometry p) (attributes p) (created_at p) (updated_at p)).

(** [DO UPDATE SET updated_at = NOW(), attributes = EXCLUDED.attributes]
    on the row in conflict with [p]. *)
Definition do_update (now : Z) (p r : LandPlot) : LandPlot :=
  if String.eqb (plot_code r) (plot_code p)
  then mkLandPlot (plot_code r) (status r) (area_hectares r) (district r) (ward r)
         (village r) (dataset_name r) (lp_geometry r) (attributes p) (created_at r) now
  else r.

(** [INSERT INTO land_plots ... SELECT ... ON CONFLICT (plot_code) DO
    UPDATE ...] over the tuples the SELECT yields, in order.  An error in
    a tuple's expressions or constraints aborts the statement.  [seen]
    are the plot codes the statement has inserted or updated so far: a
    second tuple with one of them is refused ("ON CONFLICT DO UPDATE
    command cannot affect row a second time"). *)
Fixpoint insert_on_conflict_do_update (now : Z) (seen : list string)
  (store : list LandPlot) (proposed : list (result LandPlot)) : result (list LandPlot) :=
  match proposed with
  | [] => Ok store
  | t :: rest =>
      p0 <- t ;;
      p <- check_constraints p0 ;;
      if Sql.mem (plot_code p) seen then Err CardinalityViolation
      else
        let store' :=
          if has_code (plot_code p) store then map (do_update now p) store
          else store ++ [p] in
        insert_on_conflict_do_update now (plot_code p :: seen) store' rest
  end.

(** [INSERT INTO land_plots ... SELECT ... FROM src s WHERE NOT EXISTS
    (SELECT 1 FROM land_plots lp WHERE lp.plot_code = s.plot_code_raw)].
    The subquery reads [snapshot], the table as it was when the statement
    began; a tuple that passes it and repeats a plot code inserted earlier
    by the same statement violates the UNIQUE constraint.  [proposed]
    pairs each source row's [plot_code_raw] with the tuple built from it. *)
Fixpoint insert_where_not_exists (snapshot : list LandPlot)
  (store : list LandPlot) (proposed : list (string * result LandPlot)) : result (list LandPlot) :=
  match proposed with
  | [] => Ok store
  | (code, t) :: rest =>
      if has_code code snapshot then insert_where_not_exists snapshot store rest
      else
        p0 <- t ;;
        p <- check_constraints p0 ;;
        if has_code (plot_code p) store then Err UniqueViolation
        else insert_where_not_exists snapshot (store ++ [p]) rest
  end.

(** [SELECT COUNT( * ) FROM land_plots WHERE dataset_name = :dataset_name]. *)
Definition count_dataset (ds : string) (store : list LandPlot) : nat :=
  List.length (filter (fun r =>
    match dataset_name r with
    | Some n => String.eqb n ds
    | None => false
    end) store).

(** [INSERT INTO shapefile_imports ... ON CONFLICT (dataset_name) DO
    UPDATE SET ...]: every column of the record is replaced. *)
Definition upsert_import (r : ShapefileImportRecord)
  (l : list ShapefileImportRecord) : list ShapefileImportRecord :=
  if existsb (fun x => String.eqb (si_dataset_name x) (si_dataset_name r)) l
  then map (fun x => if String.eqb (si_dataset_name x) (si_dataset_name r) then r else x) l
  else l ++ [r].

Definition find_import (ds : string) (l : list ShapefileImportRecord)
  : option ShapefileImportRecord :=
  find (fun x => String.eqb (si_dataset_name x) ds) l.

End WithPostgres.

Arguments Returned {pg A} a d.
Arguments Raised {pg A} e d.

End Store.

(** ** Component validator ([validate_shapefile_components]) *)
Module Validator.

(** The five sidecar files that share the base path. *)
Inductive component : Type := shp | shx | dbf | prj | cpg.

Definition extension (c : component) : string :=
  match c with
  | shp => "shp" | shx => "shx" | dbf => "dbf" | prj => "prj" | cpg => "cpg"
  end.

(** The keys of the [components] dict, in insertion order. *)
Definition components : list component := [shp; shx; dbf; prj; cpg].

(** [component in required], with [required = ['shp', 'shx', 'dbf']]. *)
Definition required (c : component) : bool :=
  match c with
  | shp | shx | dbf => true
  | prj | cpg => false
  end.

(** What the file system holds at a component's path: nothing; a file
    that [open(path, 'rb')] or [f.read(1)] fails on; or a file that can
    be read, with the text a UTF-8 read of it returns ([None] when that
    read raises). *)
Inductive file_state : Type :=
| Missing
| Unreadable (size : N)
| Readable (size : N) (content : option string).

Definition filesystem : Type := component -> file_state.

(** [os.path.exists(file_path)]. *)
Definition file_exists (f : file_state) : bool :=
  match f with
  | Missing => false
  | Unreadable _ | Readable _ _ => true
  end.

Record validation_result : Type := mkValidation {
  valid : bool;
  missing_required : list component;
  file_sizes : list (component * N);
  total_size : N;
  encoding : option string;
  projection : option string
}.

Definition invalidate (r : validation_result) : validation_result :=
  mkValidation false (missing_required r) (file_sizes r) (total_size r)
    (encoding r) (projection r).

(** One turn of [for component, file_path in components.items()]. *)
Definition check_component (fs : filesystem) (r : validation_result)
  (c : component) : validation_result :=
  let r1 :=
    match fs c with
    | Missing => r
    | Readable size _ =>
        mkValidation (valid r) (missing_required r) (file_sizes r ++ [(c, size)])
          (total_size r + size)%N (encoding r) (projection r)
    | Unreadable _ => invalidate r
    end in
  if required c && negb (file_exists (fs c))
  then mkValidation false (missing_required r1 ++ [c]) (file_sizes r1) (total_size r1)
         (encoding r1) (projection r1)
  else r1.

(** The text read from an optional sidecar: guarded by [exists], and
    any exception leaves [None]. *)
Definition read_text (f : file_state) : option string :=
  match f with
  | Readable _ content => content
  | Unreadable _ | Missing => None
  end.

Definition validate_shapefile_components (fs : filesystem) : validation_result :=
  let r := fold_left (check_component fs) components
             (mkValidation true [] [] 0%N None None) in
  mkValidation (valid r) (missing_required r) (file_sizes r) (total_size r)
    (read_text (fs cpg)) (read_text (fs prj)).

End Validator.

(** ** Geometry source readers *)
Module Reader.

Import Store.

Section WithShapely.
Context {pg : Postgres} {sh : Shapely pg}.

(** What running the external converter does, as [import_with_ogr2ogr]
    sees it: an exception before the process is started (the tool is not
    found, the DROP TABLE fails); the process exits with a return code,
    leaving a staging table or none; or [communicate(timeout=300)] times
    out and the process is killed. *)
Inductive ogr2ogr_run : Type :=
| SetupRaised
| Exited (returncode : Z) (table : option (list string * list column_row))
| TimedOut.

Definition as_staging (t : option (list string * list column_row)) : option staging :=
  match t with
  | Some (cols, rows) => Some (ColumnsTable cols rows)
  | None => None
  end.

(** [import_with_ogr2ogr]: every path returns a boolean; the outer
    [except Exception] turns anything raised into [False]. *)
Definition import_with_ogr2ogr (run : ogr2ogr_run) (d : db) : bool * db :=
  match run with
  | SetupRaised => (false, d)
  | TimedOut => (false, set_temp_table d None)
  | Exited returncode table =>
      let d' := set_temp_table d (as_staging table) in
      if (returncode =? 0)%Z then
        match table with
        | Some (_, rows) => (negb (Nat.eqb (List.length rows) 0), d')
        | None => (false, d')          (* the COUNT query raises *)
        end
      else (false, d')
  end.

(** A feature of the opened shapefile. *)
Record feature : Type := mkFeature {
  f_geometry : raw_geometry;
  properties : option jsonb
}.

(** What the fallback reader finds: the libraries cannot be imported;
    [fiona.open] raises; or the shapefile opens, with or without a
    coordinate transformer. *)
Inductive fiona_source : Type :=
| LibrariesMissing
| OpenRaised
| Opened (transformer : bool) (features : list feature).

Record loop_state : Type := mkLoop {
  batch : list jsonb_row;
  imported_count : nat;
  error_count : nat;
  staged : list jsonb_row;
  warnings : list event
}.

Definition batch_size : nat := 100.

(** [error_count += 1; continue]. *)
Definition skip (i : nat) (st : loop_state) : loop_state :=
  mkLoop (batch st) (imported_count st) (S (error_count st)) (staged st)
    (warnings st ++ [WarnSkipped i]).

(** [_execute_batch_insert(batch); imported_count += len(batch); batch = []].
    The INSERT into the staging table is taken to succeed. *)
Definition flush (st : loop_state) : loop_state :=
  mkLoop [] (imported_count st + List.length (batch st)) (error_count st)
    (staged st ++ batch st) (warnings st).

(** "Ensure MultiPolygon type". *)
Definition ensure_multipolygon (geom : shapely_geometry) : option shapely_geometry :=
  match geom_type geom with
  | Polygon => Some (to_multi geom)
  | MultiPolygon => Some geom
  | OtherGeometry _ => None
  end.

(** "Validate geometry": an invalid geometry is given one [buffer(0)]. *)
Definition repair (geom : shapely_geometry) : option shapely_geometry :=
  if is_valid geom then Some geom
  else
    match buffer0 geom with
    | Some fixed => if is_valid fixed then Some fixed else None
    | None => None
    end.

Section Loop.
(** [geom.bounds]. *)
Variable bounds : shapely_geometry -> box.

(** The body of [for i, feature in enumerate(src)]. *)
Definition loop_body (transformer : bool) (st : loop_state) (i : nat) (f : feature)
  : loop_state :=
  match shape (f_geometry f) with
  | None => skip i st
  | Some geom =>
      match (if transformer then transform geom else Some geom) with
      | None => skip i st
      | Some geom =>
          match ensure_multipolygon geom with
          | None => skip i st
          | Some geom =>
              match repair geom with
              | None => skip i st
              | Some geom =>
                  let st1 :=
                    if within_tanzania (bounds geom) then st
                    else mkLoop (batch st) (imported_count st) (error_count st) (staged st)
                           (warnings st ++ [WarnFeatureOutsideBounds i]) in
                  let row :=
                    mkJsonbRow (Some (ST_GeomFromGeoJSON geom))
                      (match properties f with Some o => o | None => [] end) i in
                  let st2 :=
                    mkLoop (batch st1 ++ [row]) (imported_count st1) (error_count st1)
                      (staged st1) (warnings st1) in
                  if Nat.leb batch_size (List.length (batch st2)) then flush st2 else st2
              end
          end
      end
  end.

Fixpoint loop (transformer : bool) (st : loop_state) (i : nat) (fs : list feature)
  : loop_state :=
  match fs with
  | [] => st
  | f :: rest => loop transformer (loop_body transformer st i f) (S i) rest
  end.

(** [import_with_python_fallback]. *)
Definition import_with_python_fallback (src : fiona_source) (d : db) : bool * db :=
  match src with
  | LibrariesMissing => (false, d)
  | OpenRaised => (false, set_temp_table d (Some (AttributesTable [])))
  | Opened transformer features =>
      let st := loop transformer (mkLoop [] 0 0 [] []) 0 features in
      let st := match batch st with [] => st | _ :: _ => flush st end in
      let d' := mkDb (land_plots d) (shapefile_imports d)
                  (Some (AttributesTable (staged st))) (log d ++ warnings st) in
      (Nat.ltb 0 (imported_count st), d')
  end.

End Loop.
End WithShapely.
End Reader.

(** ** [enhanced_seed.py]: schema merger, upsert engine, import ledger *)
Module EnhancedSeed.

Import Store.

(** [ROW_NUMBER() OVER (ORDER BY id)]: the rows that pass the WHERE
    clause, numbered from 1 in the order of their key. *)
Definition number {A : Type} (l : list A) : list (nat * A) :=
  combine (seq 1 (List.length l)) l.

(** ['{dataset_name}_' || LPAD(ROW_NUMBER() OVER (...)::text, 4, '0')]. *)
Definition synthesized (ds : string) (rn : nat) : string :=
  ds ++ "_" ++ Sql.LPAD (Sql.int_text rn) 4 "0".

(** The keys probed by the COALESCE over the JSONB column. *)
Definition plot_code_keys : list string :=
  ["plot_code"; "PLOT_CODE"; "plotcode"; "code"; "PLOT_NO"; "PLOTNUM"].

Definition area_keys : list string :=
  ["area_ha"; "AREA_HA"; "area"; "AREA"; "hectares"].

(** The names a column's lower-cased name is looked up in. *)
Definition plot_code_names : list string :=
  ["plot_code"; "plotcode"; "code"; "plot_no"; "plotnum"; "plot_id"].

Definition area_names : list string :=
  ["area_ha"; "area"; "hectares"; "area_hect"; "area_m2"].

Definition system_columns : list string :=
  ["id"; "geometry"; "ogc_fid"; "wkb_geometry"; "import_timestamp"].

(** [COALESCE(attributes->>k1, ..., attributes->>kn, fallback)]. *)
Fixpoint coalesce_text (attrs : jsonb) (keys : list string) (fallback : string) : string :=
  match keys with
  | [] => fallback
  | k :: ks =>
      match get_text attrs k with
      | Some s => s
      | None => coalesce_text attrs ks fallback
      end
  end.

(** [attr_columns]: the non-system columns. *)
Definition attr_columns (columns : list string) : list string :=
  filter (fun c => negb (Sql.mem c system_columns)) columns.

(** [for col in attr_columns: if col.lower() in names: ...; break]. *)
Definition find_column (names : list string) (cols : list string) : option string :=
  find (fun c => Sql.mem (Sql.lower c) names) cols.

(** [col::text] in a staged row. *)
Fixpoint field (fs : list (string * Sql.text)) (col : string) : Sql.text :=
  match fs with
  | [] => None
  | (c, v) :: rest => if String.eqb col c then v else field rest col
  end.

Section WithPostgres.
Context {pg : Postgres}.

(** The WHERE clause of both INSERT statements. *)
Definition accepted (g : option geometry) : bool :=
  match g with
  | Some g => ST_IsValid g && Qpositive (ST_Area g)
  | None => false
  end.

(** [ROUND(CAST(ST_Area(geography(geometry)) / 10000 AS NUMERIC), 4)]. *)
Definition computed_area (g : geometry) : Q :=
  Sql.ROUND (ST_Area_geography g / inject_Z 10000) 4.

Definition cast_numeric (s : string) : result Q :=
  match numeric_in s with
  | Some q => Ok q
  | None => Err InvalidTextRepresentation
  end.

(** [COALESCE(CAST(NULLIF(attributes->>k1, '') AS NUMERIC), ...,
    computed)]: arguments right of the first non-null one are not
    evaluated. *)
Fixpoint coalesce_area (attrs : jsonb) (keys : list string) (computed : Q) : result Q :=
  match keys with
  | [] => Ok computed
  | k :: ks =>
      match Sql.NULLIF_empty (get_text attrs k) with
      | Some s => cast_numeric s
      | None => coalesce_area attrs ks computed
      end
  end.

Section Run.
Variables (dataset district_ ward_ village_ : string) (now : Z).

(** The tuple the first SELECT yields for an accepted row. *)
Definition jsonb_tuple (rn : nat) (row : jsonb_row) : result LandPlot :=
  match j_geometry row with
  | None => Err NotNullViolation
  | Some g =>
      area <- coalesce_area (j_attributes row) area_keys (computed_area g) ;;
      Ok (mkLandPlot
            (coalesce_text (j_attributes row) plot_code_keys (synthesized dataset rn))
            "available" area district_ ward_ village_ (Some dataset)
            (ST_Multi_Force2D g)
            (jsonb_concat (j_attributes row)
               [("import_method", JString "python_fallback");
                ("import_timestamp", JString (timestamptz_out now));
                ("original_fid", JNumber (Sql.int_text (original_fid row)))])
            now now)
  end.

(** [plot_code_expr]. *)
Definition column_plot_code (cols : list string) (row : column_row) (rn : nat) : string :=
  match find_column plot_code_names cols with
  | Some col =>
      match Sql.NULLIF_empty (field (fields row) col) with
      | Some s => s
      | None => synthesized dataset rn
      end
  | None => synthesized dataset rn
  end.

(** [area_expr]. *)
Definition column_area (cols : list string) (row : column_row) (g : geometry) : result Q :=
  match find_column area_names cols with
  | Some col =>
      match Sql.NULLIF_empty (field (fields row) col) with
      | Some s => cast_numeric s
      | None => Ok (computed_area g)
      end
  | None => Ok (computed_area g)
  end.

(** [json_build]: [jsonb_strip_nulls(jsonb_build_object('c',
    COALESCE(c::text, ''), ...))], or ['{}'] without attribute columns. *)
Definition json_build (cols : list string) (row : column_row) : jsonb :=
  map (fun c => (c, JString (match field (fields row) c with
                             | Some s => s
                             | None => ""
                             end))) cols.

(** The tuple the second SELECT yields for an accepted row; [cols] are
    the attribute columns. *)
Definition column_tuple (cols : list string) (rn : nat) (row : column_row)
  : result LandPlot :=
  match c_geometry row with
  | None => Err NotNullViolation
  | Some g =>
      area <- column_area cols row g ;;
      Ok (mkLandPlot (column_plot_code cols row rn)
            "available" area district_ ward_ village_ (Some dataset)
            (ST_Multi_Force2D g)
            (jsonb_concat (json_build cols row)
               [("import_method", JString "ogr2ogr");
                ("import_timestamp", JString (timestamptz_out now))])
            now now)
  end.

(** The rows a staging table offers for insertion. *)
Definition considered_jsonb (rows : list jsonb_row) : list jsonb_row :=
  filter (fun r => accepted (j_geometry r)) rows.

Definition considered_columns (rows : list column_row) : list column_row :=
  filter (fun r => accepted (c_geometry r)) rows.

(** The SELECT of [insert_sql], for either shape of the staging table. *)
Definition select (t : staging) : list (result LandPlot) :=
  match t with
  | AttributesTable rows =>
      map (fun nr => jsonb_tuple (fst nr) (snd nr)) (number (considered_jsonb rows))
  | ColumnsTable columns rows =>
      map (fun nr => column_tuple (attr_columns columns) (fst nr) (snd nr))
        (number (considered_columns rows))
  end.

(** [self.db.execute(text(insert_sql), ...)]. *)
Definition insert_sql (t : staging) (store : list LandPlot) : result (list LandPlot) :=
  insert_on_conflict_do_update now [] store (select t).

(** [ST_Extent(geometry)] over the rows of the dataset. *)
Variable ST_Extent : list geometry -> box.

Definition of_dataset (r : LandPlot) : bool :=
  match dataset_name r with
  | Some n => String.eqb n dataset
  | None => false
  end.

(** [process_imported_data].  An error of the INSERT is rolled back and
    raised again.  After the commit the statistics are formatted: with no
    row of the dataset the aggregates are [None] and [:.4f] raises. *)
Definition process_imported_data (d : db) : outcome nat :=
  match temp_table d with
  | None => Raised TempTableMissing (logging d (ErrorLogged TempTableMissing))
  | Some t =>
      if Nat.eqb (staged_count t) 0
      then Raised NoDataInTempTable (logging d (ErrorLogged NoDataInTempTable))
      else
        match insert_sql t (land_plots d) with
        | Err e => Raised e (logging d (ErrorLogged e))
        | Ok store =>
            let d1 := set_land_plots d store in
            let inserted_count := count_dataset dataset store in
            if Nat.eqb inserted_count 0
            then Raised FormatTypeError (logging d1 (ErrorLogged FormatTypeError))
            else
              let extent := ST_Extent (map lp_geometry (filter of_dataset store)) in
              let d2 := logging d1 (if within_tanzania extent then InfoAllWithinBounds
                                    else WarnSomeOutsideBounds) in
              Returned inserted_count (set_temp_table d2 None)
        end
  end.

End Run.
End WithPostgres.

Section WithShapely.
Context {pg : Postgres} {sh : Shapely pg}.

(** What [get_shapefile_metadata] parses out of [ogrinfo]. *)
Record ogr_metadata : Type := mkMetadata {
  md_fields : list (string * string);
  spatial_extent : option box
}.

(** Everything outside the database that one run reads. *)
Record world : Type := mkWorld {
  files : Validator.filesystem;
  sha256 : Validator.component -> string;
  gdal_available : bool;
  ogrinfo : ogr_metadata;
  ogr2ogr : Reader.ogr2ogr_run;
  fiona : Reader.fiona_source
}.

(** [create_import_record]: hashes of the components that exist, then
    the ledger upsert.  Any exception is logged and swallowed. *)
Definition create_import_record (w : world) (dataset : string)
  (v : Validator.validation_result) (metadata : ogr_metadata) (feature_count_ : nat)
  (now : Z) (d : db) : db :=
  let present := filter (fun c => Validator.file_exists (files w c)) Validator.components in
  if existsb (fun c => match files w c with
                       | Validator.Unreadable _ => true
                       | _ => false
                       end) present
  then d
  else
    let hashes := map (fun c => (Validator.extension c, sha256 w c)) present in
    set_imports d
      (upsert_import
         (mkImport dataset (Validator.projection v) (Validator.encoding v)
            (md_fields metadata) hashes feature_count_ (spatial_extent metadata) now)
         (shapefile_imports d)).

Section Run.
Variable bounds : shapely_geometry -> box.
Variable ST_Extent : list geometry -> box.

(** [process_shapefile].  One clock value stands for [NOW()] in both
    the upsert and the ledger transaction. *)
Definition process_shapefile (w : world) (dataset district_ ward_ village_ : string)
  (now : Z) (d : db) : outcome nat :=
  let v := Validator.validate_shapefile_components (files w) in
  if negb (Validator.valid v)
  then Raised (ValidationFailed (map Validator.extension (Validator.missing_required v))) d
  else
    let metadata := if gdal_available w then ogrinfo w else mkMetadata [] None in
    let bridge :=
      if gdal_available w then Reader.import_with_ogr2ogr (ogr2ogr w) d else (false, d) in
    let imported :=
      if fst bridge then bridge
      else Reader.import_with_python_fallback bounds (fiona w)
             (logging (snd bridge) InfoTryingFallback) in
    if negb (fst imported) then Raised BothImportMethodsFailed (snd imported)
    else
      match process_imported_data dataset district_ ward_ village_ now ST_Extent
              (snd imported) with
      | Raised e d' => Raised e d'
      | Returned inserted_count d' =>
          Returned inserted_count
            (create_import_record w dataset v metadata inserted_count now d')
      end.

End Run.
End WithShapely.
End EnhancedSeed.

(** ** [seed_import.py]: the first import script *)
Module SeedImport.

Import Store.

(** ['MBY-' || LPAD(row_number() OVER (...)::text, 4, '0')]. *)
Definition synthesized (rn : nat) : string :=
  "MBY-" ++ Sql.LPAD (Sql.int_text rn) 4 "0".

Definition plot_code_names : list string :=
  ["plot_code"; "plotid"; "code"; "plot_no"; "plotnum"].

Definition geometry_candidates : list string := ["geometry"; "geom"; "wkb_geometry"].

(** Ascending order of a text column: bytes compared, NULLs last. *)
Definition text_leb (a b : Sql.text) : bool :=
  match a, b with
  | Some x, Some y => String.leb x y
  | Some _, None => true
  | None, Some _ => false
  | None, None => true
  end.

Section OrderBy.
Context {A : Type}.
Variable key : A -> Sql.text.

Fixpoint insert_by (x : A) (l : list A) : list A :=
  match l with
  | [] => [x]
  | y :: rest => if text_leb (key x) (key y) then x :: l else y :: insert_by x rest
  end.

(** [ORDER BY key]: PostgreSQL leaves the order of rows with equal keys
    open; here they keep the order of the table. *)
Definition order_by (l : list A) : list A := fold_right insert_by [] l.

End OrderBy.

Section WithPostgres.
Context {pg : Postgres}.

Section Run.
Variables (district_ ward_ village_ dataset : string) (now : Z).

(** The column path of [normalize_into_land_plots]: [attr_cols] are the
    columns other than the geometry column and [ogc_fid], [attr_key] the
    plot-code column if one was found, [first] is [attr_cols[0]]. *)
Definition plot_code_raw (attr_key : option string) (rn : nat) (row : column_row) : string :=
  match attr_key with
  | Some k =>
      match EnhancedSeed.field (fields row) k with
      | Some s => s
      | None => synthesized rn
      end
  | None => synthesized rn
  end.

(** [jsonb_strip_nulls(jsonb_build_object('c', c, ...))]; every value is
    kept by its text. *)
Definition json_build (attr_cols : list string) (row : column_row) : jsonb :=
  flat_map (fun c => match EnhancedSeed.field (fields row) c with
                     | Some s => [(c, JString s)]
                     | None => []
                     end) attr_cols.

(** The tuple of the INSERT's select list; [created_at] and
    [updated_at] take their default [now()]. *)
Definition tuple (attr_cols : list string) (code : string) (row : column_row)
  : result LandPlot :=
  match c_geometry row with
  | None => Err NotNullViolation
  | Some g =>
      Ok (mkLandPlot code "available" (EnhancedSeed.computed_area g)
            district_ ward_ village_ (Some dataset) (ST_Multi_Force2D g)
            (json_build attr_cols row) now now)
  end.

Definition proposed (attr_cols : list string) (attr_key : option string) (first : string)
  (rows : list column_row) : list (string * result LandPlot) :=
  map (fun nr =>
         let code := plot_code_raw attr_key (fst nr) (snd nr) in
         (code, tuple attr_cols code (snd nr)))
      (EnhancedSeed.number (order_by (fun r => EnhancedSeed.field (fields r) first) rows)).

(** [normalize_into_land_plots], run in one transaction.  On the JSONB
    path the statements that build and execute the INSERT follow the
    [break] inside the loop over the sample's keys and are never
    reached.  Without attribute columns the select list starts with a
    comma. *)
Definition normalize_into_land_plots (tmp : staging) (store : list LandPlot)
  : result (list LandPlot) :=
  match tmp with
  | AttributesTable _ => Ok store
  | ColumnsTable col_names rows =>
      match find (fun c => Sql.mem c col_names) geometry_candidates with
      | None => Err GeometryColumnNotDetected
      | Some geom_col =>
          let attr_cols :=
            filter (fun c => negb (String.eqb c geom_col || String.eqb c "ogc_fid"))
              col_names in
          let attr_key :=
            find (fun k => Sql.mem (Sql.lower k) plot_code_names) attr_cols in
          match attr_cols with
          | [] => Err SyntaxError
          | first :: _ =>
              insert_where_not_exists store store (proposed attr_cols attr_key first rows)
          end
      end
  end.

(** What [seed] collects from the sidecar files and [ogrinfo]. *)
Record sidecars : Type := mkSidecars {
  prj_text : option string;
  cpg_text : option string;
  sc_dbf_schema : list (string * string);
  sc_file_hashes : list (string * string)
}.

Variable ST_Extent : list geometry -> box.

Definition at_location (r : LandPlot) : bool :=
  String.eqb (district r) district_ && String.eqb (ward r) ward_
  && String.eqb (village r) village_.

(** [seed], from the point where the temporary table has been loaded.
    [imported] is what [import_with_ogr2ogr] or else
    [fallback_python_import] left there, or the exception the fallback
    raised.  The final verification formats the extent of the dataset's
    rows and raises when there is none. *)
Definition seed (imported : result staging) (sc : sidecars) (d : db) : outcome unit :=
  match imported with
  | Err e => Raised e d
  | Ok tmp =>
      let d0 := set_temp_table d (Some tmp) in
      match normalize_into_land_plots tmp (land_plots d0) with
      | Err e => Raised e d0
      | Ok store =>
          let d1 := set_land_plots d0 store in
          let here := filter at_location store in
          let cnt := List.length here in
          let bbox_ := if Nat.eqb cnt 0 then None
                       else Some (ST_Extent (map lp_geometry here)) in
          let d2 := set_imports d1
                      (upsert_import
                         (mkImport dataset (prj_text sc) (cpg_text sc) (sc_dbf_schema sc)
                            (sc_file_hashes sc) cnt bbox_ now)
                         (shapefile_imports d1)) in
          let d3 := set_temp_table d2 None in
          if Nat.eqb (count_dataset dataset store) 0
          then Raised FormatTypeError d3
          else Returned tt d3
      end
  end.

End Run.
End WithPostgres.
End SeedImport.

(** ** Python string methods used by the two scripts

    Strings are ASCII text; the methods are written out for separators
    and patterns that are not empty, which is how the scripts call
    them. *)
Module Py.

(** [c.isspace()] on ASCII: tab to carriage return, the four separator
    controls and the space. *)
Definition isspace (c : ascii) : bool :=
  let n := nat_of_ascii c in
  (Nat.leb 9 n && Nat.leb n 13) || (Nat.leb 28 n && Nat.leb n 32).

Fixpoint lstrip (s : string) : string :=
  match s with
  | EmptyString => EmptyString
  | String c rest => if isspace c then lstrip rest else s
  end.

Fixpoint rstrip (s : string) : string :=
  match s with
  | EmptyString => EmptyString
  | String c rest =>
      match rstrip rest with
      | EmptyString => if isspace c then EmptyString else String c EmptyString
      | kept => String c kept
      end
  end.

(** [s.strip()]. *)
Definition strip (s : string) : string := rstrip (lstrip s).

(** [needle in haystack]. *)
Fixpoint contains (needle haystack : string) : bool :=
  String.prefix needle haystack ||
  match haystack with
  | EmptyString => false
  | String _ rest => contains needle rest
  end.

(** [s.startswith(p)]. *)
Definition startswith (p s : string) : bool := String.prefix p s.

(** [s.split(sep)]: [cur] is the piece being read, [skip] the number of
    characters of a separator just matched that are still to be passed
    over. *)
Fixpoint split_from (sep : string) (skip : nat) (cur s : string) : list string :=
  match s with
  | EmptyString => [cur]
  | String c rest =>
      match skip with
      | S k => split_from sep k cur rest
      | O =>
          if String.prefix sep s
          then cur :: split_from sep (String.length sep - 1) EmptyString rest
          else split_from sep 0 (cur ++ String c EmptyString) rest
      end
  end.

Definition split (sep s : string) : list string := split_from sep 0 EmptyString s.

(** [s.replace(old, new)]. *)
Fixpoint replace_from (old new : string) (skip : nat) (s : string) : string :=
  match s with
  | EmptyString => EmptyString
  | String c rest =>
      match skip with
      | S k => replace_from old new k rest
      | O =>
          if String.prefix old s
          then new ++ replace_from old new (String.length old - 1) rest
          else String c (replace_from old new 0 rest)
      end
  end.

Definition replace (old new s : string) : string := replace_from old new 0 s.

(** [l[i]] where the index is known to exist. *)
Definition item (l : list string) (i : nat) : string := nth i l EmptyString.

(** The truth value of an optional string: [None] and [''] are false. *)
Definition truthy (o : option string) : bool :=
  match o with
  | Some s => negb (String.eqb s "")
  | None => false
  end.

Definition newline : string := String "010"%char EmptyString.

End Py.

(** ** The GDAL tools: the converter's command line and the [ogrinfo] report *)
Module Gdal.

(** "Add source SRS if detected": the arguments appended for the text of
    the projection file. *)
Definition source_srs (projection : option string) : list string :=
  match projection with
  | Some p =>
      if negb (Py.truthy projection) then []
      else if Py.contains "UTM_Zone_37S" p then ["-s_srs"; "EPSG:32737"]
      else if Py.contains "UTM_Zone_36S" p then ["-s_srs"; "EPSG:32736"]
      else if Py.contains "Arc_1960" p then
        if Py.contains "UTM_Zone_37S" p then ["-s_srs"; "EPSG:21097"]
        else if Py.contains "UTM_Zone_36S" p then ["-s_srs"; "EPSG:21096"]
        else []
      else []
  | None => []
  end.

(** "Add encoding if detected". *)
Definition shape_encoding (encoding : option string) : list string :=
  match encoding with
  | Some e => if Py.truthy encoding then ["--config"; "SHAPE_ENCODING"; e] else []
  | None => []
  end.

(** [cmd] of [import_with_ogr2ogr] in [enhanced_seed.py]. *)
Definition ogr2ogr_command (pg_conn shapefile_path temp_table : string)
  (v : Validator.validation_result) : list string :=
  ["ogr2ogr"; "-f"; "PostgreSQL"; pg_conn; shapefile_path;
   "-nln"; temp_table;
   "-nlt"; "MULTIPOLYGON";
   "-t_srs"; "EPSG:4326";
   "-lco"; "GEOMETRY_NAME=geometry";
   "-lco"; "PRECISION=NO";
   "-lco"; "FID=ogc_fid";
   "-overwrite"; "-progress";
   "--config"; "PG_USE_COPY"; "YES";
   "--config"; "GDAL_HTTP_TIMEOUT"; "30";
   "--config"; "OGR_TRUNCATE"; "YES"]
  ++ shape_encoding (Validator.encoding v)
  ++ source_srs (Validator.projection v).

(** An entry of [metadata['fields']]. *)
Record field_definition : Type := mkFieldDefinition {
  fd_name : string;
  fd_type : string;
  fd_info : string
}.

(** The [metadata] dict of [get_shapefile_metadata];
    [coordinate_system] is never assigned. *)
Record shapefile_metadata : Type := mkShapefileMetadata {
  md_feature_count : Z;
  geometry_type : option string;
  md_spatial_extent : option box;
  coordinate_system : option string;
  field_list : list field_definition;
  layer_name : option string
}.

Definition no_metadata : shapefile_metadata :=
  mkShapefileMetadata 0 None None None [] None.

Section Parse.
(** [int(s)] and [float(s)]; [None] is a [ValueError]. *)
Variable python_int : string -> option Z.
Variable python_float : string -> option Q.

(** The four numbers of an [Extent: (minx, miny) - (maxx, maxy)] line;
    [None] when the line does not have four parts or one of them is not
    a number, in which case [spatial_extent] is left as it was. *)
Definition parse_extent (line : string) : option box :=
  let extent_str := Py.strip (Py.item (Py.split "Extent:" line) 1) in
  let coords :=
    Py.split "," (Py.replace " - " "," (Py.replace ")" "" (Py.replace "(" "" extent_str))) in
  match coords with
  | [c0; c1; c2; c3] =>
      match python_float (Py.strip c0), python_float (Py.strip c1),
            python_float (Py.strip c2), python_float (Py.strip c3) with
      | Some minx, Some miny, Some maxx, Some maxy => Some (minx, miny, maxx, maxy)
      | _, _, _, _ => None
      end
  | _ => None
  end.

(** One turn of [for line in output.split('\n')]. *)
Definition parse_line (m : shapefile_metadata) (raw : string) : shapefile_metadata :=
  let line := Py.strip raw in
  if Py.contains "Layer name:" line then
    mkShapefileMetadata (md_feature_count m) (geometry_type m) (md_spatial_extent m)
      (coordinate_system m) (field_list m)
      (Some (Py.strip (Py.item (Py.split "Layer name:" line) 1)))
  else if Py.contains "Feature Count:" line then
    match python_int (Py.strip (Py.item (Py.split ":" line) 1)) with
    | Some n =>
        mkShapefileMetadata n (geometry_type m) (md_spatial_extent m)
          (coordinate_system m) (field_list m) (layer_name m)
    | None => m
    end
  else if Py.contains "Geometry:" line then
    mkShapefileMetadata (md_feature_count m)
      (Some (Py.strip (Py.item (Py.split "Geometry:" line) 1)))
      (md_spatial_extent m) (coordinate_system m) (field_list m) (layer_name m)
  else if Py.contains "Extent:" line then
    match parse_extent line with
    | Some b =>
        mkShapefileMetadata (md_feature_count m) (geometry_type m) (Some b)
          (coordinate_system m) (field_list m) (layer_name m)
    | None => m
    end
  else if Py.contains ":" line && Py.contains "(" line && Py.contains ")" line
          && negb (Py.startswith "Layer" line) then
    let field_name := Py.strip (Py.item (Py.split ":" line) 0) in
    let field_info := Py.strip (Py.item (Py.split ":" line) 1) in
    let field_type := Py.strip (Py.item (Py.split "(" field_info) 0) in
    if negb (String.eqb field_name "") && negb (String.eqb field_type "")
       && negb (Sql.mem (Sql.lower field_name) ["extent"; "fid"])
    then
      mkShapefileMetadata (md_feature_count m) (geometry_type m) (md_spatial_extent m)
        (coordinate_system m)
        (field_list m ++ [mkFieldDefinition field_name field_type field_info])
        (layer_name m)
    else m
  else m.

(** [get_shapefile_metadata]: [stdout] is what [ogrinfo -so -al] wrote,
    [None] when the tool exited with an error or timed out. *)
Definition get_shapefile_metadata (stdout : option string) : shapefile_metadata :=
  match stdout with
  | Some output => fold_left parse_line (Py.split Py.newline output) no_metadata
  | None => no_metadata
  end.

(** What [create_import_record] reads of the metadata: the dict
    comprehension [{field['name']: field['type'] ...}], listed in the
    order of the fields, and the extent. *)
Definition ledger_metadata (m : shapefile_metadata) : EnhancedSeed.ogr_metadata :=
  EnhancedSeed.mkMetadata (map (fun f => (fd_name f, fd_type f)) (field_list m))
    (md_spatial_extent m).

End Parse.

End Gdal.

(** ** [seed_import.py]: loading the temporary table, and the whole of [seed] *)
Module SeedImportScript.

Import Store.

Section WithShapely.
Context {pg : Postgres} {sh : Shapely pg}.

(** [subprocess.check_call] of the converter: it returns when the tool
    exits with code 0, having written the table, and raises
    [CalledProcessError] otherwise. *)
Inductive check_call : Type :=
| Completed (columns : list string) (rows : list column_row)
| CalledProcessError.

(** [import_with_ogr2ogr]: the table the tool wrote when the function
    returns [True], [None] when it returns [False]. *)
Definition import_with_ogr2ogr (have_ogr2ogr : bool) (call : check_call) : option staging :=
  if negb have_ogr2ogr then None
  else
    match call with
    | Completed columns rows => Some (ColumnsTable columns rows)
    | CalledProcessError => None
    end.

(** The loop of [fallback_python_import], in one transaction: a feature
    that [shape] or [transform] raises on, or whose geometry the cast to
    [geometry(MultiPolygon,4326)] refuses, aborts all of it.  The table
    has no column [original_fid]; the field holds the position of the
    feature and no statement of this script reads it. *)
Fixpoint insert_features (proj : bool) (i : nat) (features : list Reader.feature)
  : option (list jsonb_row) :=
  match features with
  | [] => Some []
  | f :: rest =>
      match shape (Reader.f_geometry f) with
      | None => None
      | Some geom =>
          match (if proj then transform geom else Some geom) with
          | None => None
          | Some geom =>
              match
                match geom_type geom with
                | Polygon => Some (to_multi geom)
                | MultiPolygon => Some geom
                | OtherGeometry _ => None
                end
              with
              | None => None
              | Some geom =>
                  match insert_features proj (S i) rest with
                  | None => None
                  | Some rows =>
                      Some (mkJsonbRow (Some (ST_GeomFromGeoJSON geom))
                              (match Reader.properties f with Some o => o | None => [] end) i
                            :: rows)
                  end
              end
          end
      end
  end.

(** [fallback_python_import]: the rows of the table it fills, or the
    exception it lets through. *)
Definition fallback_python_import (src : Reader.fiona_source) : result (list jsonb_row) :=
  match src with
  | Reader.LibrariesMissing => Err FallbackRaised
  | Reader.OpenRaised => Err FallbackRaised
  | Reader.Opened proj features =>
      match insert_features proj 0 features with
      | Some rows => Ok rows
      | None => Err FallbackRaised
      end
  end.

(** What one run of the script finds outside the database. *)
Record machine : Type := mkMachine {
  shapefile_exists : bool;
  have_ogr2ogr : bool;
  ogr2ogr : check_call;
  fiona : Reader.fiona_source;
  collected : SeedImport.sidecars
}.

(** [imported = import_with_ogr2ogr(...); if not imported:
    fallback_python_import(...)]. *)
Definition temporary_table (m : machine) : result staging :=
  match import_with_ogr2ogr (have_ogr2ogr m) (ogr2ogr m) with
  | Some t => Ok t
  | None =>
      rows <- fallback_python_import (fiona m) ;;
      Ok (AttributesTable rows)
  end.

Section Run.
Variable ST_Extent : list geometry -> box.

(** [seed] from its first statement; [None] is the [FileNotFoundError]
    raised before anything is done.  [dataset] is the base name of the
    shapefile. *)
Definition seed (m : machine) (district_ ward_ village_ dataset : string) (now : Z) (d : db)
  : option (outcome unit) :=
  if negb (shapefile_exists m) then None
  else
    Some (SeedImport.seed district_ ward_ village_ dataset now ST_Extent
            (temporary_table m) (collected m) (set_temp_table d None)).

End Run.
End WithShapely.
End SeedImportScript.

(** ** A concrete store for closed examples

    Geometries are parcels described by what PostGIS and shapely would
    report of them; numerics are read from plain decimal literals. *)
Module Sample.

Import Store.

Record parcel : Type := mkParcel {
  kind : geom_kind;
  well_formed : bool;
  planar_area : Q;
  geodesic_area : Q;
  envelope : box
}.

Definition digit (c : ascii) : option Z :=
  let n := nat_of_ascii c in
  if Nat.leb 48 n && Nat.leb n 57 then Some (Z.of_nat (n - 48)) else None.

(** Digits with at most one decimal point. *)
Fixpoint scan (s : string) (acc : Z) (scale : option positive) : option Q :=
  match s with
  | EmptyString => Some (Qmake acc (match scale with Some p => p | None => 1%positive end))
  | String c rest =>
      if Ascii.eqb c "."%char then
        match scale with
        | None => scan rest acc (Some 1%positive)
        | Some _ => None
        end
      else
        match digit c with
        | Some d => scan rest (10 * acc + d)%Z (option_map (Pos.mul 10) scale)
        | None => None
        end
  end.

Definition decimal_in (s : string) : option Q :=
  match s with
  | EmptyString => None
  | String c rest =>
      if Ascii.eqb c "-"%char then option_map Qopp (scan rest 0%Z None)
      else scan s 0%Z None
  end.

Definition postgres : Postgres := {|
  geometry := parcel;
  ST_IsValid := well_formed;
  ST_Area := planar_area;
  ST_Area_geography := geodesic_area;
  ST_Multi_Force2D := fun g =>
    mkParcel MultiPolygon (well_formed g) (planar_area g) (geodesic_area g) (envelope g);
  numeric_in := decimal_in;
  timestamptz_out := fun t => Sql.int_text (Z.to_nat t)
|}.

Definition shapely : Shapely postgres := {|
  raw_geometry := option parcel;
  shapely_geometry := parcel;
  shape := fun r => r;
  transform := fun g => Some g;
  geom_type := kind;
  to_multi := fun g =>
    mkParcel MultiPolygon (well_formed g) (planar_area g) (geodesic_area g) (envelope g);
  is_valid := well_formed;
  buffer0 := fun g =>
    Some (mkParcel (kind g) true (planar_area g) (geodesic_area g) (envelope g));
  ST_GeomFromGeoJSON := fun g : parcel => (g : @geometry postgres)
|}.

Definition parcel_bounds (g : parcel) : box := envelope g.

(** The extent of a list of parcels: the envelope of the first one
    stands for it. *)
Definition parcels_extent (l : list parcel) : box :=
  match l with
  | g :: _ => envelope g
  | [] => (0, 0, 0, 0)%Q
  end.

(** A box around Mbuyuni, inside the envelope, and one outside it. *)
Definition inside : box := (35 # 1, - (7 # 1), 36 # 1, - (6 # 1))%Q.
Definition outside : box := (10 # 1, 50 # 1, 11 # 1, 51 # 1)%Q.

(** A valid polygon of 2.5 ha; a degenerate one; an invalid one. *)
Definition field_a : parcel := mkParcel Polygon true (1 # 400000) 25000 inside.
Definition sliver : parcel := mkParcel Polygon true 0 0 inside.
Definition bowtie : parcel := mkParcel Polygon false (1 # 400000) 25000 inside.
Definition abroad : parcel := mkParcel MultiPolygon true (1 # 400000) 12345 outside.

Definition empty_db : @db postgres := mkDb [] [] None [].

Definition all_readable : Validator.filesystem :=
  fun _ => Validator.Readable 1024 (Some "UTF-8").


Definition feature_of (g : parcel) (props : jsonb) : @Reader.feature postgres shapely :=
  Reader.mkFeature (sh := shapely) (Some g) (Some props).

(** A machine without GDAL: the fallback reader stages the features. *)
Definition without_gdal (fs : Validator.filesystem)
  (features : list (@Reader.feature postgres shapely)) : @EnhancedSeed.world postgres shapely :=
  EnhancedSeed.mkWorld (sh := shapely) fs (fun c => Validator.extension c) false
    (EnhancedSeed.mkMetadata [] None) Reader.SetupRaised (Reader.Opened false features).

(** A staged row, and a database whose staging table holds [rows]. *)
Definition row_of (g : parcel) (attrs : jsonb) (fid : nat) : @jsonb_row postgres :=
  mkJsonbRow (pg := postgres) (Some g) attrs fid.

Definition staged_db (rows : list (@jsonb_row postgres)) : @db postgres :=
  mkDb [] [] (Some (AttributesTable rows)) [].

(** [n] valid features without any attribute. *)
Definition keyless (n : nat) : list (@jsonb_row postgres) :=
  repeat (row_of field_a [] 0) n.

(** Two source features, the second of zero area. *)
Definition two_features : @EnhancedSeed.world postgres shapely :=
  without_gdal all_readable [feature_of field_a []; feature_of sliver []].

Definition run_two_features : outcome nat :=
  EnhancedSeed.process_shapefile (sh := shapely) parcel_bounds parcels_extent
    two_features "survey1" "Mbuyuni" "Mbuyuni Ward" "Mbuyuni Village" 100%Z empty_db.


(** One upsert of a staged parcel, at clock [now]. *)
Definition upsert_one (now : Z) (d : @db postgres) : outcome nat :=
  EnhancedSeed.process_imported_data (pg := postgres) "survey1" "Mbuyuni" "Mbuyuni Ward"
    "Mbuyuni Village" now parcels_extent d.

Definition one_staged : @staging postgres :=
  AttributesTable [row_of field_a [("PLOT_CODE", JString "A1"); ("area", JString "2.5")] 0;
                   row_of abroad [] 1].

Definition stored_after (now : Z) (t : @staging postgres) (store : list (@LandPlot postgres))
  : list (@LandPlot postgres) :=
  match EnhancedSeed.insert_sql (pg := postgres) "survey1" "Mbuyuni" "Mbuyuni Ward"
          "Mbuyuni Village" now t store with
  | Ok s => s
  | Err _ => store
  end.

(** The same staging table upserted at clock 100 and again at 200. *)
Definition once_staged : @db postgres := staged_db [row_of field_a [] 0].

Definition first_run : @db postgres := final_db (upsert_one 100 once_staged).

Definition second_run : @db postgres :=
  final_db (upsert_one 200 (set_temp_table first_run (temp_table once_staged))).


(** A machine with GDAL, on which the converter loads [rows]. *)
Definition with_gdal (rows : list (@column_row postgres))
  : @EnhancedSeed.world postgres shapely :=
  EnhancedSeed.mkWorld (sh := shapely) all_readable (fun c => Validator.extension c) true
    (EnhancedSeed.mkMetadata [("plot_no", "String")] None)
    (Reader.Exited 0 (Some (["ogc_fid"; "geometry"; "plot_no"], rows)))
    Reader.LibrariesMissing.

Definition plot_17 : @column_row postgres :=
  mkColumnRow (pg := postgres) (Some field_a) [("plot_no", Some "17")].

(** The features of [two_features] and one that is a point. *)
Definition a_point : parcel := mkParcel (OtherGeometry "Point") true 0 0 inside.

Definition three_features : list (@Reader.feature postgres shapely) :=
  [feature_of field_a []; feature_of a_point []; feature_of bowtie [("code", JString "B7")]].


(** A staging table in which no geometry has an area. *)
Definition only_slivers : @db postgres := staged_db [row_of sliver [] 0].



(** A shapefile without features: neither import method loads a row. *)
Definition run_no_features : outcome nat :=
  EnhancedSeed.process_shapefile (sh := shapely) parcel_bounds parcels_extent
    (without_gdal all_readable []) "survey1" "Mbuyuni" "Mbuyuni Ward" "Mbuyuni Village"
    100%Z empty_db.

(** A feature that brings an attribute named like a provenance key,
    and the attributes of the tuple built from it. *)
Definition relabelled : @jsonb_row postgres :=
  row_of field_a [("import_method", JString "surveyor"); ("owner", JString "Juma")] 0.

Definition attributes_of (row : @jsonb_row postgres) : jsonb :=
  match EnhancedSeed.jsonb_tuple (pg := postgres) "survey1" "Mbuyuni" "Mbuyuni Ward"
          "Mbuyuni Village" 100%Z 1 row with
  | Ok p => attributes p
  | Err _ => []
  end.

(** Whole numbers among the decimal literals. *)
Definition integer_in (s : string) : option Z :=
  match decimal_in s with
  | Some q => if Pos.eqb (Qden q) 1 then Some (Qnum q) else None
  | None => None
  end.

(** A report of [ogrinfo -so -al]. *)
Definition report : string :=
  "INFO: Open of test_mbuyuni.shp" ++ Py.newline ++
  "      using driver ESRI Shapefile successful." ++ Py.newline ++
  Py.newline ++
  "Layer name: test_mbuyuni" ++ Py.newline ++
  "Geometry: Polygon" ++ Py.newline ++
  "Feature Count: 3" ++ Py.newline ++
  "Extent: (33.1, -8.9) - (33.2, -8.8)" ++ Py.newline ++
  "Layer SRS WKT:" ++ Py.newline ++
  "PLOT_NO: String (10.0)" ++ Py.newline ++
  "FID: Integer64 (18.0)" ++ Py.newline ++
  "  AREA_HA: Real (12.4)" ++ Py.newline.

End Sample.

(** * Vocabulary of the properties *)

(** The errors a statement on [land_plots] can end with. *)
Definition statement_error (e : error) : bool :=
  match e with
  | InvalidTextRepresentation | NumericValueOutOfRange | NotNullViolation
  | CheckViolation | UniqueViolation | CardinalityViolation | SyntaxError
  | GeometryColumnNotDetected => true
  | _ => false
  end.

(** What [process_imported_data] raises. *)
Definition processing_error (e : error) : bool :=
  match e with
  | TempTableMissing | NoDataInTempTable | FormatTypeError => true
  | _ => statement_error e
  end.

Section ValidatorVocabulary.

Import Validator.

(** What one turn of the loop makes of a component. *)
Definition component_ok (fs : filesystem) (c : component) : bool :=
  match fs c with
  | Missing => negb (required c)
  | Unreadable _ => false
  | Readable _ _ => true
  end.

End ValidatorVocabulary.

Section StoreVocabulary.

Import Store.
Context {pg : Postgres}.

(** The columns no conflict resolution writes. *)
Definition same_frame (r r' : LandPlot) : Prop :=
  plot_code r' = plot_code r /\ status r' = status r /\
  area_hectares r' = area_hectares r /\ district r' = district r /\
  ward r' = ward r /\ village r' = village r /\
  dataset_name r' = dataset_name r /\ lp_geometry r' = lp_geometry r /\
  created_at r' = created_at r.

(** The tuples of a SELECT that evaluate and pass the constraints. *)
Definition checked (proposed : list (result LandPlot)) (p : LandPlot) : Prop :=
  exists p0, In (Ok p0) proposed /\ check_constraints p0 = Ok p.

(** The plot code of a tuple that evaluates and passes the constraints. *)
Definition admitted (t : result LandPlot) : option string :=
  match t with
  | Ok p => if is_ok (check_constraints p) then Some (plot_code p) else None
  | Err _ => None
  end.

(** The plot codes of the tuples that evaluate. *)
Definition code_of (t : result LandPlot) : list string :=
  match t with
  | Ok p => [plot_code p]
  | Err _ => []
  end.

Definition tuple_codes (proposed : list (result LandPlot)) : list string :=
  flat_map code_of proposed.

(** The upsert statement as it acts on the column [plot_code] alone. *)
Fixpoint codes_run (seen codes : list string) (ks : list (option string))
  : option (list string) :=
  match ks with
  | [] => Some codes
  | None :: _ => None
  | Some c :: rest =>
      if Sql.mem c seen then None
      else codes_run (c :: seen) (if Sql.mem c codes then codes else codes ++ [c]) rest
  end.

(** The NOT EXISTS statement as it acts on the column [plot_code]. *)
Fixpoint skip_run (snapshot codes : list string) (ks : list (string * option string))
  : option (list string) :=
  match ks with
  | [] => Some codes
  | (c, k) :: rest =>
      if Sql.mem c snapshot then skip_run snapshot codes rest
      else
        match k with
        | None => None
        | Some c' => if Sql.mem c' codes then None else skip_run snapshot (codes ++ [c']) rest
        end
  end.

Definition skip_key (ct : string * result LandPlot) : string * option string :=
  (fst ct, admitted (snd ct)).

(** Two databases that differ in the log at most. *)
Definition same_data (d d' : db) : Prop :=
  land_plots d = land_plots d' /\ shapefile_imports d = shapefile_imports d' /\
  temp_table d = temp_table d'.

Definition same_outcome {A : Type} (o o' : outcome A) : Prop :=
  match o, o' with
  | Returned a d, Returned a' d' => a = a' /\ same_data d d'
  | Raised e d, Raised e' d' => e = e' /\ same_data d d'
  | _, _ => False
  end.

End StoreVocabulary.

Section SelectVocabulary.

Import Store EnhancedSeed.
Context {pg : Postgres}.
Variables (dataset district_ ward_ village_ : string) (now : Z).

(** Where a tuple of the SELECT comes from: an accepted row of the
    staging table and its row number. *)
Definition source_of (t : staging) (p : LandPlot) : Prop :=
  match t with
  | AttributesTable rows =>
      exists rn row, In (rn, row) (number (considered_jsonb rows)) /\
        jsonb_tuple dataset district_ ward_ village_ now rn row = Ok p
  | ColumnsTable columns rows =>
      exists rn row, In (rn, row) (number (considered_columns rows)) /\
        column_tuple dataset district_ ward_ village_ now (attr_columns columns) rn row = Ok p
  end.

End SelectVocabulary.

Section ReaderVocabulary.

Import Store Reader EnhancedSeed.
Context {pg : Postgres} {sh : Shapely pg}.

(** The geometry a feature is staged with, if it is staged: parsed,
    reprojected, made a multi-polygon, and valid after at most one
    repair. *)
Definition prepared (transformer : bool) (f : feature) : option shapely_geometry :=
  match shape (f_geometry f) with
  | None => None
  | Some geom =>
      match (if transformer then transform geom else Some geom) with
      | None => None
      | Some geom =>
          match ensure_multipolygon geom with
          | None => None
          | Some geom => repair geom
          end
      end
  end.

Definition stageable (transformer : bool) (f : feature) : bool :=
  match prepared transformer f with
  | Some _ => true
  | None => false
  end.

(** The converter bridge loaded something: exit code 0 and a staging
    table with at least one row. *)
Definition ogr2ogr_loaded (run : ogr2ogr_run) : bool :=
  match run with
  | Exited returncode (Some (_, _ :: _)) => (returncode =? 0)%Z
  | _ => false
  end.

(** The fallback reader staged something. *)
Definition fallback_loaded (src : fiona_source) : bool :=
  match src with
  | Opened transformer features => existsb (stageable transformer) features
  | LibrariesMissing | OpenRaised => false
  end.

(** The loop state without its warnings. *)
Definition staging_of (st : loop_state) : list jsonb_row * nat * nat * list jsonb_row :=
  (batch st, imported_count st, error_count st, staged st).

(** The converter bridge did its work: GDAL is there and the tool
    loaded rows. *)
Definition bridge_succeeds (w : world) : bool :=
  gdal_available w && ogr2ogr_loaded (ogr2ogr w).

Definition fallback_succeeds (w : world) : bool :=
  fallback_loaded (fiona w).

End ReaderVocabulary.

Section PlotCodeVocabulary.




End PlotCodeVocabulary.

Section FurtherVocabulary.

Import Store Reader EnhancedSeed.
Context {pg : Postgres} {sh : Shapely pg}.

(** The plot codes among the keys of a statement. *)
Definition present (ks : list (option string)) : list string :=
  flat_map (fun k => match k with Some c => [c] | None => [] end) ks.

(** The rows the loop of the fallback reader stages for the features
    [fs], the first of which has index [i]. *)
Fixpoint staged_from (transformer : bool) (i : nat) (fs : list feature) : list jsonb_row :=
  match fs with
  | [] => []
  | f :: rest =>
      match prepared transformer f with
      | Some geom =>
          mkJsonbRow (Some (ST_GeomFromGeoJSON geom))
            (match properties f with Some o => o | None => [] end) i
          :: staged_from transformer (S i) rest
      | None => staged_from transformer (S i) rest
      end
  end.

(** The same world with another shapefile behind fiona. *)
Definition with_fiona (w : world) (src : fiona_source) : world :=
  mkWorld (files w) (sha256 w) (gdal_available w) (ogrinfo w) (ogr2ogr w) src.

End FurtherVocabulary.

(** The number a string of decimal digits stands for. *)
Definition read_number (s : string) : option nat :=
  option_map Nat.of_uint (NilEmpty.uint_of_string s).

(** The padding of one sequence number, checked on its decimal digits
    [lu], least significant first: the padded text has four characters
    and reads back as the same number. *)
Definition padded_reads_back (lu : Decimal.uint) : bool :=
  let s := Sql.LPAD (NilEmpty.string_of_uint (Decimal.rev lu)) 4 "0" in
  Nat.eqb (String.length s) 4 &&
  match NilEmpty.uint_of_string s with
  | Some d => Decimal.uint_beq (Decimal.unorm d) (Decimal.unorm (Decimal.rev lu))
  | None => false
  end.

(** [P] holds of [lu] and of its [k] successors. *)
Fixpoint all_from (P : Decimal.uint -> bool) (k : nat) (lu : Decimal.uint) : bool :=
  P lu &&
  match k with
  | O => true
  | S k' => all_from P k' (Decimal.Little.succ lu)
  end.

Section SeedImportVocabulary.

Import Store Reader.
Context {pg : Postgres} {sh : Shapely pg}.


End SeedImportVocabulary.


(** * Properties *)

(** ** The component validator *)
Section ValidatorFacts.

Import Validator.

Lemma check_component_valid fs r c :
  valid (check_component fs r c) = valid r && component_ok fs c.
Proof.
  unfold check_component, component_ok.
  destruct (fs c) eqn:E; destruct c; simpl;
    destruct (valid r); reflexivity.
Qed.


Lemma fold_check_valid fs l : forall r,
  valid (fold_left (check_component fs) l r) = valid r && forallb (component_ok fs) l.
Proof.
  induction l as [|c l IH]; intros r; simpl.
  - now rewrite andb_true_r.
  - rewrite IH, check_component_valid. now rewrite andb_assoc.
Qed.


Lemma valid_mkValidation a b c d e f : valid (mkValidation a b c d e f) = a.
Proof. reflexivity. Qed.


Lemma validate_valid fs :
  valid (validate_shapefile_components fs) = forallb (component_ok fs) components.
Proof.
  unfold validate_shapefile_components. cbv zeta.
  rewrite valid_mkValidation, fold_check_valid. reflexivity.
Qed.


Lemma every_component_listed (c : component) : In c components.
Proof. destruct c; simpl; auto 6. Qed.

Lemma invalid_iff fs :
  valid (validate_shapefile_components fs) = false <->
  (exists c, required c = true /\ fs c = Missing) \/ (exists c n, fs c = Unreadable n).
Proof.
  rewrite validate_valid. split.
  - intros H.
    assert (exists c, In c components /\ component_ok fs c = false) as (c & _ & Hc).
    { induction components as [|c l IH]; simpl in H; [discriminate|].
      apply andb_false_iff in H as [H|H].
      - exists c. split; [now left|exact H].
      - destruct (IH H) as (c' & Hin & Hc'). exists c'. split; [now right|exact Hc']. }
    unfold component_ok in Hc. destruct (fs c) eqn:E.
    + left. exists c. split; [|exact E]. now apply negb_false_iff.
    + right. now exists c, size.
    + discriminate.
  - intros H.
    assert (exists c, component_ok fs c = false) as (c & Hc).
    { destruct H as [(c & Hr & Hm)|(c & n & Hu)]; exists c; unfold component_ok.
      - rewrite Hm, Hr. reflexivity.
      - now rewrite Hu. }
    destruct (forallb (component_ok fs) components) eqn:F; [|reflexivity].
    rewrite forallb_forall in F. rewrite (F c (every_component_listed c)) in Hc.
    discriminate.
Qed.

End ValidatorFacts.

(** ** The two INSERT statements *)
Section StatementFacts.

Import Store.
Context {pg : Postgres}.

Lemma same_frame_refl r : same_frame r r.
Proof. repeat split. Qed.

Lemma same_frame_trans r1 r2 r3 :
  same_frame r1 r2 -> same_frame r2 r3 -> same_frame r1 r3.
Proof.
  unfold same_frame. intros H1 H2.
  destruct H1 as (a1 & a2 & a3 & a4 & a5 & a6 & a7 & a8 & a9).
  destruct H2 as (b1 & b2 & b3 & b4 & b5 & b6 & b7 & b8 & b9).
  repeat split; congruence.
Qed.

Lemma do_update_frame now p r : same_frame r (do_update now p r).
Proof.
  unfold do_update. destruct (String.eqb (plot_code r) (plot_code p)).
  - repeat split.
  - apply same_frame_refl.
Qed.

Lemma Forall2_same_frame_refl l : Forall2 same_frame l l.
Proof. induction l; constructor; auto using same_frame_refl. Qed.

Lemma Forall2_same_frame_trans l1 : forall l2 l3,
  Forall2 same_frame l1 l2 -> Forall2 same_frame l2 l3 -> Forall2 same_frame l1 l3.
Proof.
  induction l1 as [|a l1 IH]; intros l2 l3 H12 H23.
  - inversion H12; subst. inversion H23; subst. constructor.
  - inversion H12; subst. inversion H23; subst. constructor.
    + eauto using same_frame_trans.
    + eauto.
Qed.

Lemma map_do_update_frame now p l : Forall2 same_frame l (map (do_update now p) l).
Proof. induction l; simpl; constructor; auto using do_update_frame. Qed.

(** What passing the constraints tells about a tuple. *)
Lemma check_constraints_ok p0 p :
  check_constraints p0 = Ok p ->
  same_frame (mkLandPlot (plot_code p0) (status p0) (area_hectares p) (district p0)
                (ward p0) (village p0) (dataset_name p0) (lp_geometry p0)
                (attributes p0) (created_at p0) (updated_at p0)) p /\
  attributes p = attributes p0 /\ updated_at p = updated_at p0 /\
  Sql.numeric_12_4 (area_hectares p0) = Ok (area_hectares p) /\
  Qpositive (area_hectares p) = true.
Proof.
  unfold check_constraints, bind.
  destruct (Sql.numeric_12_4 (area_hectares p0)) as [a|e] eqn:N; [|discriminate].
  destruct (negb (Sql.mem (status p0) ["available"; "taken"; "pending"])); [discriminate|].
  destruct (negb (Qpositive a)) eqn:Pa; [discriminate|].
  intros H. injection H as <-. simpl.
  repeat split. now apply negb_false_iff.
Qed.

Lemma check_constraints_code p0 p :
  check_constraints p0 = Ok p -> plot_code p = plot_code p0.
Proof. intros H. apply check_constraints_ok in H as (F & _). apply F. Qed.

Lemma numeric_12_4_error q e :
  Sql.numeric_12_4 q = Err e -> statement_error e = true.
Proof.
  unfold Sql.numeric_12_4.
  destruct (Qle_bool _ _); [|discriminate]. now intros [= <-].
Qed.

Lemma check_constraints_error p0 e :
  check_constraints p0 = Err e -> statement_error e = true.
Proof.
  unfold check_constraints, bind.
  destruct (Sql.numeric_12_4 (area_hectares p0)) as [a|e'] eqn:N.
  - destruct (negb (Sql.mem _ _)); [now intros [= <-]|].
    destruct (negb (Qpositive a)); [now intros [= <-]|discriminate].
  - intros [= <-]. eauto using numeric_12_4_error.
Qed.

(** A committed upsert keeps every earlier row in its place, up to
    [attributes] and [updated_at], and appends rows that are checked
    tuples of the SELECT. *)
Lemma upsert_shape now proposed : forall seen store store',
  insert_on_conflict_do_update now seen store proposed = Ok store' ->
  exists old new,
    store' = old ++ new /\ Forall2 same_frame store old /\
    Forall (fun r => exists p, checked proposed p /\ same_frame p r) new.
Proof.
  induction proposed as [|t rest IH]; intros seen store store' H; simpl in H.
  - injection H as <-. exists store, []. rewrite app_nil_r.
    auto using Forall2_same_frame_refl.
  - destruct t as [p0|e]; simpl in H; [|discriminate].
    destruct (check_constraints p0) as [p|e] eqn:C; simpl in H; [|discriminate].
    destruct (Sql.mem (plot_code p) seen); [discriminate|].
    assert (Hweak : forall new, Forall (fun r => exists q, checked rest q /\ same_frame q r) new ->
              Forall (fun r => exists q, checked (Ok p0 :: rest) q /\ same_frame q r) new).
    { intros new. apply Forall_impl. intros r (q & (q0 & Hin & Hq) & Hf).
      exists q. split; [|exact Hf]. exists q0. split; [now right|exact Hq]. }
    destruct (has_code (plot_code p) store) eqn:Hc.
    + apply IH in H as (old & new & -> & Hold & Hnew).
      exists old, new. repeat split; auto.
      eapply Forall2_same_frame_trans; [apply map_do_update_frame|exact Hold].
    + apply IH in H as (old & new & -> & Hold & Hnew).
      apply Forall2_app_inv_l in Hold as (old1 & old2 & Hold1 & Hold2 & ->).
      inversion Hold2 as [|? r' ? l' Hp Hnil]; subst. inversion Hnil; subst.
      exists old1, (r' :: new). rewrite <- app_assoc. repeat split; auto.
      constructor; auto.
      exists p. split; [|exact Hp]. exists p0. split; [now left|exact C].
Qed.

(** The skip statement leaves every earlier row as it is. *)
Lemma skip_insert_shape snapshot proposed : forall store store',
  insert_where_not_exists snapshot store proposed = Ok store' ->
  exists new,
    store' = store ++ new /\
    Forall (fun r => exists c p0, In (c, Ok p0) proposed /\ check_constraints p0 = Ok r) new.
Proof.
  induction proposed as [|[c t] rest IH]; intros store store' H; simpl in H.
  - injection H as <-. exists []. now rewrite app_nil_r.
  - assert (Hweak : forall new,
              Forall (fun r => exists c' p0, In (c', Ok p0) rest /\ check_constraints p0 = Ok r) new ->
              Forall (fun r => exists c' p0, In (c', Ok p0) ((c, t) :: rest) /\
                                             check_constraints p0 = Ok r) new).
    { intros new. apply Forall_impl. intros r (c' & q0 & Hin & Hq).
      exists c', q0. split; [now right|exact Hq]. }
    destruct (has_code c snapshot).
    + apply IH in H as (new & -> & Hnew). exists new. auto.
    + destruct t as [p0|e]; simpl in H; [|discriminate].
      destruct (check_constraints p0) as [p|e] eqn:C; simpl in H; [|discriminate].
      destruct (has_code (plot_code p) store); [discriminate|].
      apply IH in H as (new & -> & Hnew).
      exists (p :: new). rewrite <- app_assoc. split; [reflexivity|].
      constructor; auto. exists c, p0. split; [now left|exact C].
Qed.

(** Statements fail with statement errors only. *)
Lemma upsert_error now proposed : forall seen store e,
  (forall e', In (Err e') proposed -> statement_error e' = true) ->
  insert_on_conflict_do_update now seen store proposed = Err e ->
  statement_error e = true.
Proof.
  induction proposed as [|t rest IH]; intros seen store e Hp H; simpl in H.
  - discriminate.
  - destruct t as [p0|e0]; simpl in H.
    + destruct (check_constraints p0) as [p|e1] eqn:C; simpl in H.
      * destruct (Sql.mem (plot_code p) seen); [now injection H as <-|].
        eapply IH; [|exact H]. intros e' Hin. apply Hp. now right.
      * injection H as <-. eauto using check_constraints_error.
    + injection H as <-. apply Hp. now left.
Qed.

End StatementFacts.

(** ** The SELECT of [enhanced_seed.py] *)
Section SelectFacts.

Import Store EnhancedSeed.
Context {pg : Postgres}.
Variables (dataset district_ ward_ village_ : string) (now : Z).







Lemma cast_numeric_error s e : cast_numeric s = Err e -> statement_error e = true.
Proof. unfold cast_numeric. destruct (numeric_in s); [discriminate|]. now intros [= <-]. Qed.

Lemma coalesce_area_error attrs keys computed e :
  coalesce_area attrs keys computed = Err e -> statement_error e = true.
Proof.
  induction keys as [|k ks IH]; simpl; [discriminate|].
  destruct (Sql.NULLIF_empty (get_text attrs k)); eauto using cast_numeric_error.
Qed.


(** What a tuple of the JSONB SELECT is made of. *)
Lemma jsonb_tuple_ok rn row p :
  jsonb_tuple dataset district_ ward_ village_ now rn row = Ok p ->
  exists g, j_geometry row = Some g /\
    plot_code p = coalesce_text (j_attributes row) plot_code_keys (synthesized dataset rn) /\
    status p = "available" /\
    coalesce_area (j_attributes row) area_keys (computed_area g) = Ok (area_hectares p) /\
    lp_geometry p = ST_Multi_Force2D g /\ updated_at p = now.
Proof.
  unfold jsonb_tuple, bind. destruct (j_geometry row) as [g|]; [|discriminate].
  destruct (coalesce_area _ _ _) as [a|e] eqn:E; [|discriminate].
  intros [= <-]. exists g.
  cbn [plot_code status area_hectares lp_geometry updated_at].
  repeat split. exact E.
Qed.

Lemma column_tuple_ok cols rn row p :
  column_tuple dataset district_ ward_ village_ now cols rn row = Ok p ->
  exists g, c_geometry row = Some g /\
    plot_code p = column_plot_code dataset cols row rn /\
    status p = "available" /\
    column_area cols row g = Ok (area_hectares p) /\
    lp_geometry p = ST_Multi_Force2D g /\ updated_at p = now.
Proof.
  unfold column_tuple, bind. destruct (c_geometry row) as [g|]; [|discriminate].
  destruct (column_area _ _ _) as [a|e] eqn:E; [|discriminate].
  intros [= <-]. exists g.
  cbn [plot_code status area_hectares lp_geometry updated_at].
  repeat split. exact E.
Qed.

Lemma column_area_error cols row g e :
  column_area cols row g = Err e -> statement_error e = true.
Proof.
  unfold column_area. destruct (find_column area_names cols); [|discriminate].
  destruct (Sql.NULLIF_empty _); [|discriminate]. apply cast_numeric_error.
Qed.

Lemma select_error t e :
  In (Err e) (select dataset district_ ward_ village_ now t) -> statement_error e = true.
Proof.
  destruct t as [rows|columns rows]; simpl; rewrite in_map_iff;
    intros ((rn & row) & H & _); simpl in H.
  - unfold jsonb_tuple, bind in H. destruct (j_geometry row); [|now injection H as <-].
    destruct (coalesce_area _ _ _) eqn:E; [discriminate|].
    injection H as <-. eauto using coalesce_area_error.
  - unfold column_tuple, bind in H. destruct (c_geometry row); [|now injection H as <-].
    destruct (column_area _ _ _) eqn:E; [discriminate|].
    injection H as <-. eauto using column_area_error.
Qed.

Lemma insert_sql_error t store e :
  insert_sql dataset district_ ward_ village_ now t store = Err e ->
  statement_error e = true.
Proof.
  unfold insert_sql. apply upsert_error. intros e'. apply select_error.
Qed.

Lemma select_source t p :
  In (Ok p) (select dataset district_ ward_ village_ now t) ->
  source_of dataset district_ ward_ village_ now t p.
Proof.
  destruct t as [rows|columns rows]; simpl; rewrite in_map_iff;
    intros ((rn & row) & H & Hin); exists rn, row; auto.
Qed.

End SelectFacts.

(** ** The upsert engine *)
Section UpsertEngine.

Import Store EnhancedSeed.
Context {pg : Postgres}.
Variables (dataset district_ ward_ village_ : string) (now : Z).

Lemma Forall2_same_length {A B : Type} (R : A -> B -> Prop) l l' :
  Forall2 R l l' -> List.length l' = List.length l.
Proof. induction 1; simpl; congruence. Qed.




(** The rows one INSERT adds, each with the tuple it was checked from. *)
Lemma insert_sql_shape t store store' :
  insert_sql dataset district_ ward_ village_ now t store = Ok store' ->
  exists old new,
    store' = old ++ new /\ Forall2 same_frame store old /\
    Forall (fun r => exists p0 p, source_of dataset district_ ward_ village_ now t p0 /\
                                  check_constraints p0 = Ok p /\ same_frame p r) new.
Proof.
  intros H. apply upsert_shape in H as (old & new & -> & Hold & Hnew).
  exists old, new. repeat split; auto.
  eapply Forall_impl; [|exact Hnew].
  intros r (p & (p0 & Hin & Hc) & Hf). exists p0, p. auto using select_source.
Qed.



End UpsertEngine.

(** ** Conflicts and re-imports *)
Section ConflictPolicies.

Import Store.
Context {pg : Postgres}.

Lemma normalize_shape district_ ward_ village_ dataset now tmp store store' :
  SeedImport.normalize_into_land_plots district_ ward_ village_ dataset now tmp store
    = Ok store' ->
  exists new, store' = store ++ new.
Proof.
  unfold SeedImport.normalize_into_land_plots.
  destruct tmp as [rows|col_names rows].
  - intros [= <-]. exists []. now rewrite app_nil_r.
  - destruct (find _ SeedImport.geometry_candidates); [|discriminate].
    destruct (filter _ col_names); [discriminate|].
    intros H. apply skip_insert_shape in H as (new & -> & _). now exists new.
Qed.

(** C2: whatever an import run does, every row that was in [land_plots]
    before it is still there, at the same place, and differs from what
    it was at most in [attributes] and [updated_at]: under the
    update-on-conflict statement of [process_imported_data] the other
    columns are kept, and under the NOT EXISTS statement of
    [normalize_into_land_plots] (inside [seed]) the row is not written
    at all. *)
Theorem conflict_changes_only_attributes_and_updated_at :
  forall (dataset district_ ward_ village_ : string) (now : Z)
         (ST_Extent : list geometry -> box) (d : db),
  (exists old new,
     land_plots (final_db (EnhancedSeed.process_imported_data
                             dataset district_ ward_ village_ now ST_Extent d))
       = old ++ new /\
     Forall2 same_frame (land_plots d) old) /\
  (forall imported sc,
     exists new,
       land_plots (final_db (SeedImport.seed district_ ward_ village_ dataset now
                               ST_Extent imported sc d))
         = land_plots d ++ new).
Proof.
  intros dataset district_ ward_ village_ now ST_Extent d. split.
  - unfold EnhancedSeed.process_imported_data.
    assert (Hsame : exists old new, land_plots d = old ++ new /\
                                    Forall2 same_frame (land_plots d) old).
    { exists (land_plots d), []. rewrite app_nil_r.
      auto using Forall2_same_frame_refl. }
    destruct (temp_table d) as [t|]; [|exact Hsame].
    destruct (Nat.eqb (staged_count t) 0); [exact Hsame|].
    destruct (EnhancedSeed.insert_sql _ _ _ _ _ t (land_plots d)) as [store|e] eqn:E;
      [|exact Hsame].
    apply insert_sql_shape in E as (old & new & -> & Hold & _).
    destruct (Nat.eqb _ 0); simpl; eauto.
  - intros imported sc. unfold SeedImport.seed.
    destruct imported as [tmp|e]; [|exists []; now rewrite app_nil_r].
    cbn [land_plots set_temp_table].
    destruct (SeedImport.normalize_into_land_plots _ _ _ _ _ tmp (land_plots d))
      as [store|e] eqn:E; [|exists []; simpl; now rewrite app_nil_r].
    apply normalize_shape in E as (new & ->).
    exists new. destruct (Nat.eqb _ 0); reflexivity.
Qed.

End ConflictPolicies.

(** ** Running the same import again *)
Section Reimport.

Import Store.
Context {pg : Postgres}.

Lemma has_code_mem c (store : list LandPlot) :
  has_code c store = Sql.mem c (map plot_code store).
Proof.
  unfold has_code, Sql.mem. induction store as [|r l IH]; simpl; [reflexivity|].
  now rewrite IH, String.eqb_sym.
Qed.

Lemma do_update_code now p r : plot_code (do_update now p r) = plot_code r.
Proof. unfold do_update. now destruct (String.eqb _ _). Qed.

Lemma map_do_update_codes now p l :
  map plot_code (map (do_update now p) l) = map plot_code l.
Proof. rewrite map_map. apply map_ext. intros r. apply do_update_code. Qed.

Lemma upsert_codes now proposed : forall seen store,
  match insert_on_conflict_do_update now seen store proposed with
  | Ok s => codes_run seen (map plot_code store) (map admitted proposed)
            = Some (map plot_code s)
  | Err _ => codes_run seen (map plot_code store) (map admitted proposed) = None
  end.
Proof.
  induction proposed as [|t rest IH]; intros seen store; simpl; [reflexivity|].
  destruct t as [p0|e]; simpl; [|reflexivity].
  destruct (check_constraints p0) as [p|e] eqn:C; simpl; [|reflexivity].
  rewrite (check_constraints_code _ _ C).
  destruct (Sql.mem (plot_code p0) seen); [reflexivity|].
  rewrite has_code_mem.
  destruct (Sql.mem (plot_code p0) (map plot_code store)) eqn:M.
  - specialize (IH (plot_code p0 :: seen) (map (do_update now p) store)).
    now rewrite map_do_update_codes in IH.
  - specialize (IH (plot_code p0 :: seen) (store ++ [p])).
    rewrite map_app in IH. simpl in IH.
    now rewrite (check_constraints_code _ _ C) in IH.
Qed.

Lemma mem_true_iff c l : Sql.mem c l = true <-> In c l.
Proof.
  unfold Sql.mem. rewrite existsb_exists. split.
  - intros (x & Hin & Hx). apply String.eqb_eq in Hx. now subst.
  - intros H. exists c. split; [exact H|apply String.eqb_refl].
Qed.

Lemma codes_run_grows ks : forall seen codes codes',
  codes_run seen codes ks = Some codes' ->
  (forall c, In c codes -> In c codes') /\ (forall c, In (Some c) ks -> In c codes').
Proof.
  induction ks as [|k rest IH]; intros seen codes codes' H; simpl in H.
  - injection H as <-. split; [auto|]. intros c [].
  - destruct k as [c0|]; [|discriminate].
    destruct (Sql.mem c0 seen); [discriminate|].
    apply IH in H as [H1 H2]. split.
    + intros c Hc. apply H1. destruct (Sql.mem c0 codes); [exact Hc|].
      apply in_or_app. now left.
    + intros c [[= ->]|Hc]; [|now apply H2].
      apply H1. destruct (Sql.mem c codes) eqn:M.
      * now apply mem_true_iff.
      * apply in_or_app. right. now left.
Qed.

Lemma codes_run_settled ks : forall seen codes codes' settled,
  codes_run seen codes ks = Some codes' ->
  (forall c, In (Some c) ks -> In c settled) ->
  codes_run seen settled ks = Some settled.
Proof.
  induction ks as [|k rest IH]; intros seen codes codes' settled H Hall; simpl in *.
  - reflexivity.
  - destruct k as [c0|]; [|discriminate].
    destruct (Sql.mem c0 seen); [discriminate|].
    assert (Sql.mem c0 settled = true) as -> by (apply mem_true_iff; auto).
    eapply IH; eauto.
Qed.

(** On plot codes, a second run finds everything in place. *)
Lemma codes_run_idempotent ks codes codes' :
  codes_run [] codes ks = Some codes' -> codes_run [] codes' ks = Some codes'.
Proof.
  intros H. eapply codes_run_settled; [exact H|].
  apply (codes_run_grows _ _ _ _ H).
Qed.

(** Every row the statement inserted or updated carries its clock. *)
Lemma upsert_touch now proposed : forall seen store store' touched,
  insert_on_conflict_do_update now seen store proposed = Ok store' ->
  (forall p0, In (Ok p0) proposed -> updated_at p0 = now) ->
  (forall r, In r store -> In (plot_code r) touched -> updated_at r = now) ->
  forall r, In r store' -> In (plot_code r) (touched ++ tuple_codes proposed) ->
            updated_at r = now.
Proof.
  induction proposed as [|t rest IH]; intros seen store store' touched H Hnow Hinv;
    simpl in H.
  - injection H as <-. intros r Hr Hc. simpl in Hc. rewrite app_nil_r in Hc. auto.
  - destruct t as [p0|e]; simpl in H; [|discriminate].
    destruct (check_constraints p0) as [p|e] eqn:C; simpl in H; [|discriminate].
    destruct (Sql.mem (plot_code p) seen); [discriminate|].
    intros r Hr Hc.
    assert (Hc' : In (plot_code r) ((touched ++ [plot_code p0]) ++ tuple_codes rest)).
    { simpl in Hc. now rewrite <- app_assoc. }
    refine (IH _ _ _ _ H _ _ r Hr Hc').
    + intros q Hq. apply Hnow. now right.
    + intros r1 Hr1 Hc1. apply in_app_or in Hc1.
      pose proof (check_constraints_code _ _ C) as Hpc.
      destruct (has_code (plot_code p) store) eqn:Hh.
      * apply in_map_iff in Hr1 as (r0 & <- & Hr0).
        unfold do_update. destruct (String.eqb (plot_code r0) (plot_code p)) eqn:E.
        -- reflexivity.
        -- rewrite do_update_code in Hc1. destruct Hc1 as [Hc1|[Hc1|[]]]; [auto|].
           rewrite Hpc, Hc1, String.eqb_refl in E. discriminate.
      * apply in_app_or in Hr1 as [Hr1|[<-|[]]].
        -- destruct Hc1 as [Hc1|[Hc1|[]]]; [auto|].
           rewrite has_code_mem in Hh.
           assert (Sql.mem (plot_code p) (map plot_code store) = true) as Hm.
           { apply mem_true_iff. rewrite Hpc, Hc1. now apply in_map. }
           congruence.
        -- apply check_constraints_ok in C as (_ & _ & -> & _).
           apply Hnow. now left.
Qed.

End Reimport.

Section ReimportSkip.

Import Store.
Context {pg : Postgres}.

Lemma skip_codes snapshot proposed : forall store,
  match insert_where_not_exists snapshot store proposed with
  | Ok s => skip_run (map plot_code snapshot) (map plot_code store) (map skip_key proposed)
            = Some (map plot_code s)
  | Err _ => skip_run (map plot_code snapshot) (map plot_code store) (map skip_key proposed)
             = None
  end.
Proof.
  induction proposed as [|[c t] rest IH]; intros store; simpl; [reflexivity|].
  rewrite <- has_code_mem.
  destruct (has_code c snapshot); [apply IH|].
  destruct t as [p0|e]; simpl; [|reflexivity].
  destruct (check_constraints p0) as [p|e] eqn:C; simpl; [|reflexivity].
  rewrite <- (check_constraints_code _ _ C), <- has_code_mem.
  destruct (has_code (plot_code p) store); [reflexivity|].
  specialize (IH (store ++ [p])). now rewrite map_app in IH.
Qed.

Lemma skip_run_grows ks : forall snapshot codes codes',
  skip_run snapshot codes ks = Some codes' ->
  (forall c, In c codes -> In c codes') /\
  (forall c k, In (c, k) ks -> In c snapshot \/ exists c', k = Some c' /\ In c' codes').
Proof.
  induction ks as [|[c0 k0] rest IH]; intros snapshot codes codes' H; simpl in H.
  - injection H as <-. split; [auto|]. intros c k [].
  - destruct (Sql.mem c0 snapshot) eqn:M.
    + apply IH in H as [H1 H2]. split; [exact H1|].
      intros c k [E|Hin]; [injection E as <- <-|eauto]. left. now apply mem_true_iff.
    + destruct k0 as [c'|]; [|discriminate].
      destruct (Sql.mem c' codes); [discriminate|].
      apply IH in H as [H1 H2]. split.
      * intros c Hc. apply H1. apply in_or_app. now left.
      * intros c k [E|Hin]; [injection E as <- <-|eauto]. right. exists c'.
        split; [reflexivity|].
        apply H1. apply in_or_app. right. now left.
Qed.

Lemma skip_run_settled ks : forall snapshot codes,
  (forall c k, In (c, k) ks -> In c snapshot) ->
  skip_run snapshot codes ks = Some codes.
Proof.
  induction ks as [|[c0 k0] rest IH]; intros snapshot codes Hall; simpl; [reflexivity|].
  assert (Sql.mem c0 snapshot = true) as ->.
  { apply mem_true_iff. eapply Hall. now left. }
  apply IH. intros c k Hin. eapply Hall. right. exact Hin.
Qed.

(** When every tuple carries the plot code it was filtered by, a second
    run of the statement inserts nothing. *)
Lemma skip_run_idempotent ks codes codes' :
  (forall c c', In (c, Some c') ks -> c' = c) ->
  skip_run codes codes ks = Some codes' -> skip_run codes' codes' ks = Some codes'.
Proof.
  intros Hcons H. apply skip_run_settled.
  destruct (skip_run_grows _ _ _ _ H) as [H1 H2].
  intros c k Hin. destruct (H2 c k Hin) as [Hs|(c' & -> & Hc')]; [auto|].
  now rewrite <- (Hcons c c' Hin).
Qed.

End ReimportSkip.

Section ReimportTheorem.

Import Store.
Context {pg : Postgres}.
Variables (dataset district_ ward_ village_ : string).

Lemma admitted_jsonb_clock now1 now2 rn row :
  admitted (EnhancedSeed.jsonb_tuple dataset district_ ward_ village_ now1 rn row) =
  admitted (EnhancedSeed.jsonb_tuple dataset district_ ward_ village_ now2 rn row) /\
  code_of (EnhancedSeed.jsonb_tuple dataset district_ ward_ village_ now1 rn row) =
  code_of (EnhancedSeed.jsonb_tuple dataset district_ ward_ village_ now2 rn row).
Proof.
  unfold EnhancedSeed.jsonb_tuple, bind. destruct (j_geometry row); [|now split].
  destruct (EnhancedSeed.coalesce_area _ _ _); [|now split].
  unfold admitted, check_constraints, bind; cbn [area_hectares status plot_code].
  destruct (Sql.numeric_12_4 a); [|now split].
  destruct (negb (Sql.mem _ _)); [now split|].
  destruct (negb (Qpositive _)); now split.
Qed.

Lemma admitted_column_clock now1 now2 cols rn row :
  admitted (EnhancedSeed.column_tuple dataset district_ ward_ village_ now1 cols rn row) =
  admitted (EnhancedSeed.column_tuple dataset district_ ward_ village_ now2 cols rn row) /\
  code_of (EnhancedSeed.column_tuple dataset district_ ward_ village_ now1 cols rn row) =
  code_of (EnhancedSeed.column_tuple dataset district_ ward_ village_ now2 cols rn row).
Proof.
  unfold EnhancedSeed.column_tuple, bind. destruct (c_geometry row); [|now split].
  destruct (EnhancedSeed.column_area _ _ _); [|now split].
  unfold admitted, check_constraints, bind; cbn [area_hectares status plot_code].
  destruct (Sql.numeric_12_4 a); [|now split].
  destruct (negb (Sql.mem _ _)); [now split|].
  destruct (negb (Qpositive _)); now split.
Qed.

Lemma tuple_codes_map {A : Type} (f g : A -> result LandPlot) l :
  (forall x, code_of (f x) = code_of (g x)) ->
  tuple_codes (map f l) = tuple_codes (map g l).
Proof.
  intros H. unfold tuple_codes. induction l as [|x l IH]; [reflexivity|].
  simpl. now rewrite H, IH.
Qed.

(** The clock shows in [attributes], [created_at] and [updated_at] only. *)
Lemma select_clock now1 now2 t :
  map admitted (EnhancedSeed.select dataset district_ ward_ village_ now1 t) =
  map admitted (EnhancedSeed.select dataset district_ ward_ village_ now2 t) /\
  tuple_codes (EnhancedSeed.select dataset district_ ward_ village_ now1 t) =
  tuple_codes (EnhancedSeed.select dataset district_ ward_ village_ now2 t).
Proof.
  destruct t as [rows|columns rows]; simpl; split.
  - rewrite !map_map. apply map_ext. intros [rn row]. apply admitted_jsonb_clock.
  - apply tuple_codes_map. intros [rn row]. apply admitted_jsonb_clock.
  - rewrite !map_map. apply map_ext. intros [rn row]. apply admitted_column_clock.
  - apply tuple_codes_map. intros [rn row]. apply admitted_column_clock.
Qed.

Lemma select_updated_at now t p :
  In (Ok p) (EnhancedSeed.select dataset district_ ward_ village_ now t) ->
  updated_at p = now.
Proof.
  intros H. apply select_source in H. destruct t as [rows|columns rows];
    destruct H as (rn & row & _ & H).
  - apply jsonb_tuple_ok in H as (g & _ & _ & _ & _ & _ & H). exact H.
  - apply column_tuple_ok in H as (g & _ & _ & _ & _ & _ & H). exact H.
Qed.

(** What [process_imported_data] leaves in [land_plots]. *)
Lemma process_land_plots now ST_Extent d :
  land_plots (final_db (EnhancedSeed.process_imported_data dataset district_ ward_
                          village_ now ST_Extent d)) =
  match temp_table d with
  | Some t =>
      if Nat.eqb (staged_count t) 0 then land_plots d
      else match EnhancedSeed.insert_sql dataset district_ ward_ village_ now t
                   (land_plots d) with
           | Ok s => s
           | Err _ => land_plots d
           end
  | None => land_plots d
  end.
Proof.
  unfold EnhancedSeed.process_imported_data.
  destruct (temp_table d) as [t|]; [|reflexivity].
  destruct (Nat.eqb (staged_count t) 0); [reflexivity|].
  destruct (EnhancedSeed.insert_sql _ _ _ _ _ _ _); [|reflexivity].
  destruct (Nat.eqb _ 0); reflexivity.
Qed.

(** A second run of the update-on-conflict INSERT succeeds when the
    first did, on the same plot codes. *)
Lemma insert_sql_again now1 now2 t store0 :
  match EnhancedSeed.insert_sql dataset district_ ward_ village_ now1 t store0 with
  | Ok s1 =>
      exists s2,
        EnhancedSeed.insert_sql dataset district_ ward_ village_ now2 t s1 = Ok s2 /\
        map plot_code s2 = map plot_code s1
  | Err _ =>
      exists e, EnhancedSeed.insert_sql dataset district_ ward_ village_ now2 t store0 = Err e
  end.
Proof.
  unfold EnhancedSeed.insert_sql.
  pose proof (upsert_codes now1 (EnhancedSeed.select dataset district_ ward_ village_ now1 t)
                [] store0) as H1.
  destruct (insert_on_conflict_do_update now1 [] store0 _) as [s1|e1].
  - apply codes_run_idempotent in H1.
    pose proof (upsert_codes now2 (EnhancedSeed.select dataset district_ ward_ village_ now2 t)
                  [] s1) as H2.
    rewrite <- (proj1 (select_clock now1 now2 t)), H1 in H2.
    destruct (insert_on_conflict_do_update now2 [] s1 _) as [s2|e2]; [|discriminate].
    exists s2. split; [reflexivity|]. now injection H2.
  - pose proof (upsert_codes now2 (EnhancedSeed.select dataset district_ ward_ village_ now2 t)
                  [] store0) as H2.
    rewrite <- (proj1 (select_clock now1 now2 t)), H1 in H2.
    destruct (insert_on_conflict_do_update now2 [] store0 _) as [s2|e2]; [discriminate|].
    now exists e2.
Qed.

End ReimportTheorem.

Section ReimportSeed.

Import Store.
Context {pg : Postgres}.
Variables (dataset district_ ward_ village_ : string).

Lemma proposed_clock now1 now2 attr_cols attr_key first rows :
  map skip_key (SeedImport.proposed district_ ward_ village_ dataset now1
                  attr_cols attr_key first rows) =
  map skip_key (SeedImport.proposed district_ ward_ village_ dataset now2
                  attr_cols attr_key first rows).
Proof.
  unfold SeedImport.proposed. rewrite !map_map. apply map_ext. intros [rn row].
  unfold skip_key. cbn [fst snd]. f_equal.
  unfold SeedImport.tuple. destruct (c_geometry row); [|reflexivity].
  unfold admitted, check_constraints, bind; cbn [area_hectares status plot_code].
  destruct (Sql.numeric_12_4 _); [|reflexivity].
  destruct (negb (Sql.mem _ _)); [reflexivity|].
  destruct (negb (Qpositive _)); reflexivity.
Qed.

Lemma proposed_consistent now attr_cols attr_key first rows c c' :
  In (c, Some c') (map skip_key (SeedImport.proposed district_ ward_ village_ dataset now
                                   attr_cols attr_key first rows)) ->
  c' = c.
Proof.
  unfold SeedImport.proposed. rewrite map_map, in_map_iff.
  intros ((rn & row) & H & _). unfold skip_key in H. cbn [fst snd] in H.
  injection H as <- H. unfold SeedImport.tuple in H.
  destruct (c_geometry row); [|discriminate].
  unfold admitted in H. cbn [plot_code] in H.
  destruct (is_ok _); [|discriminate]. now injection H.
Qed.

(** A second run of the NOT EXISTS statement inserts nothing when the
    first succeeded, and fails again when the first failed. *)
Lemma normalize_again now1 now2 tmp store0 :
  match SeedImport.normalize_into_land_plots district_ ward_ village_ dataset now1
          tmp store0 with
  | Ok s1 =>
      SeedImport.normalize_into_land_plots district_ ward_ village_ dataset now2 tmp s1
      = Ok s1
  | Err _ =>
      exists e, SeedImport.normalize_into_land_plots district_ ward_ village_ dataset now2
                  tmp store0 = Err e
  end.
Proof.
  unfold SeedImport.normalize_into_land_plots.
  destruct tmp as [rows|col_names rows]; [reflexivity|].
  destruct (find _ SeedImport.geometry_candidates) as [geom_col|]; [|now eexists].
  destruct (filter _ col_names) as [|first others] eqn:F; [now eexists|].
  set (attr_cols := first :: others).
  set (attr_key := find _ attr_cols).
  pose proof (skip_codes store0
                (SeedImport.proposed district_ ward_ village_ dataset now1
                   attr_cols attr_key first rows) store0) as H1.
  destruct (insert_where_not_exists store0 store0 _) as [s1|e1].
  - apply skip_run_idempotent in H1; [|intros c c'; apply proposed_consistent].
    pose proof (skip_codes s1
                  (SeedImport.proposed district_ ward_ village_ dataset now2
                     attr_cols attr_key first rows) s1) as H2.
    rewrite <- (proposed_clock now1 now2), H1 in H2.
    destruct (insert_where_not_exists s1 s1 _) as [s2|e2] eqn:E; [|discriminate].
    injection H2 as H2.
    apply skip_insert_shape in E as (new & -> & _).
    rewrite map_app in H2.
    assert (List.length (map plot_code new) = 0%nat) as Hlen.
    { apply (f_equal (@List.length string)) in H2. rewrite length_app in H2. lia. }
    destruct new; [now rewrite app_nil_r|discriminate].
  - pose proof (skip_codes store0
                  (SeedImport.proposed district_ ward_ village_ dataset now2
                     attr_cols attr_key first rows) store0) as H2.
    rewrite <- (proposed_clock now1 now2), H1 in H2.
    destruct (insert_where_not_exists store0 store0 _) as [s2|e2]; [discriminate|].
    now exists e2.
Qed.

Lemma seed_land_plots now ST_Extent tmp sc d :
  land_plots (final_db (SeedImport.seed district_ ward_ village_ dataset now ST_Extent
                          (Ok tmp) sc d)) =
  match SeedImport.normalize_into_land_plots district_ ward_ village_ dataset now tmp
          (land_plots d) with
  | Ok s => s
  | Err _ => land_plots d
  end.
Proof.
  unfold SeedImport.seed. cbn [land_plots set_temp_table].
  destruct (SeedImport.normalize_into_land_plots _ _ _ _ _ _ _); [|reflexivity].
  destruct (Nat.eqb _ 0); reflexivity.
Qed.

End ReimportSeed.

Section ReimportClaim.

Import Store.
Context {pg : Postgres}.

Lemma Forall2_with_members {A B : Type} (R : A -> B -> Prop) (P : A -> Prop)
  (Q : B -> Prop) l l' :
  Forall2 R l l' -> (forall x, In x l -> P x) -> (forall y, In y l' -> Q y) ->
  Forall2 (fun x y => R x y /\ P x /\ Q y) l l'.
Proof.
  induction 1 as [|x y l l' Hxy _ IH]; intros HP HQ; constructor.
  - repeat split; [exact Hxy|apply HP; now left|apply HQ; now left].
  - apply IH; intros z Hz; [apply HP|apply HQ]; now right.
Qed.

(** C3: running the identical import a second time leaves the number of
    rows of [land_plots] unchanged, under the update-on-conflict
    statement of [process_imported_data] and under the skip statement of
    [seed]; and when the first update-on-conflict run committed its
    INSERT, the second keeps every row in place and moves the
    [updated_at] of each row whose plot code was staged from the first
    run's clock to the second's. *)
Theorem reimport_keeps_row_count_and_advances_updated_at :
  forall (dataset district_ ward_ village_ : string) (now1 now2 : Z)
         (ext1 ext2 : list geometry -> box) (d0 : db),
  (now1 < now2)%Z ->
  let d1 := final_db (EnhancedSeed.process_imported_data dataset district_ ward_ village_
                        now1 ext1 d0) in
  let d2 := final_db (EnhancedSeed.process_imported_data dataset district_ ward_ village_
                        now2 ext2 (set_temp_table d1 (temp_table d0))) in
  List.length (land_plots d2) = List.length (land_plots d1) /\
  (forall t,
     temp_table d0 = Some t -> staged_count t <> 0%nat ->
     is_ok (EnhancedSeed.insert_sql dataset district_ ward_ village_ now1 t (land_plots d0))
       = true ->
     Forall2 (fun r1 r2 =>
                same_frame r1 r2 /\
                (In (plot_code r1)
                    (tuple_codes (EnhancedSeed.select dataset district_ ward_ village_ now1 t)) ->
                 updated_at r1 = now1 /\ updated_at r2 = now2 /\
                 (updated_at r1 < updated_at r2)%Z))
             (land_plots d1) (land_plots d2)) /\
  (forall tmp sc1 sc2,
     let e1 := final_db (SeedImport.seed district_ ward_ village_ dataset now1 ext1
                           (Ok tmp) sc1 d0) in
     let e2 := final_db (SeedImport.seed district_ ward_ village_ dataset now2 ext2
                           (Ok tmp) sc2 e1) in
     land_plots e2 = land_plots e1).
Proof.
  intros dataset district_ ward_ village_ now1 now2 ext1 ext2 d0 Hclock d1 d2.
  assert (Hd1 := process_land_plots dataset district_ ward_ village_ now1 ext1 d0).
  assert (Hd2 := process_land_plots dataset district_ ward_ village_ now2 ext2
                   (set_temp_table d1 (temp_table d0))).
  fold d1 in Hd1. fold d2 in Hd2. cbn [temp_table land_plots set_temp_table] in Hd2.
  pose proof (fun t => insert_sql_again dataset district_ ward_ village_ now1 now2 t
                         (land_plots d0)) as Hagain.
  split; [|split].
  - destruct (temp_table d0) as [t|]; [|congruence].
    destruct (Nat.eqb (staged_count t) 0); [congruence|].
    specialize (Hagain t).
    destruct (EnhancedSeed.insert_sql _ _ _ _ now1 t (land_plots d0)) as [s1|e1].
    + destruct Hagain as (s2 & H2 & Hcodes). rewrite Hd1 in Hd2. rewrite H2 in Hd2.
      rewrite Hd1, Hd2. apply (f_equal (@List.length string)) in Hcodes.
      now rewrite !length_map in Hcodes.
    + destruct Hagain as (e & H2). rewrite Hd1 in Hd2. rewrite H2 in Hd2. congruence.
  - intros t Ht Hn Hok. rewrite Ht in Hd1, Hd2.
    apply Nat.eqb_neq in Hn. rewrite Hn in Hd1, Hd2.
    specialize (Hagain t).
    destruct (EnhancedSeed.insert_sql _ _ _ _ now1 t (land_plots d0)) as [s1|e1] eqn:E1;
      [|discriminate].
    destruct Hagain as (s2 & E2 & Hcodes). rewrite Hd1 in Hd2. rewrite E2 in Hd2.
    rewrite Hd1, Hd2.
    assert (Hframe : Forall2 same_frame s1 s2).
    { pose proof E2 as E2'. unfold EnhancedSeed.insert_sql in E2'.
      apply upsert_shape in E2' as (old & new & -> & Hold & _).
      assert (List.length (old ++ new) = List.length s1) as Hlen.
      { apply (f_equal (@List.length string)) in Hcodes.
        now rewrite !length_map in Hcodes. }
      rewrite length_app, (Forall2_same_length _ _ _ Hold) in Hlen.
      destruct new; [now rewrite app_nil_r|simpl in Hlen; lia]. }
    pose proof (upsert_touch now1 _ [] (land_plots d0) s1 [] E1
                  (fun p => select_updated_at dataset district_ ward_ village_ now1 t p)
                  (fun r _ (F : In (plot_code r) []) => match F with end)) as T1.
    pose proof (upsert_touch now2 _ [] s1 s2 [] E2
                  (fun p => select_updated_at dataset district_ ward_ village_ now2 t p)
                  (fun r _ (F : In (plot_code r) []) => match F with end)) as T2.
    cbn [app] in T1, T2.
    rewrite <- (proj2 (select_clock dataset district_ ward_ village_ now1 now2 t)) in T2.
    eapply Forall2_impl;
      [|apply (Forall2_with_members _ _ _ _ _ Hframe T1 T2)].
    intros r1 r2 (Hf & H1 & H2). split; [exact Hf|]. intros Hin.
    assert (Hc : plot_code r2 = plot_code r1) by apply Hf.
    rewrite (H1 Hin), H2 by (now rewrite Hc). auto.
  - intros tmp sc1 sc2 e1 e2.
    assert (He1 := seed_land_plots dataset district_ ward_ village_ now1 ext1 tmp sc1 d0).
    assert (He2 := seed_land_plots dataset district_ ward_ village_ now2 ext2 tmp sc2 e1).
    fold e1 in He1. fold e2 in He2.
    pose proof (normalize_again dataset district_ ward_ village_ now1 now2 tmp
                  (land_plots d0)) as Hn.
    destruct (SeedImport.normalize_into_land_plots _ _ _ _ now1 tmp (land_plots d0))
      as [s1|e].
    + rewrite He1 in He2. rewrite Hn in He2. congruence.
    + destruct Hn as (e' & Hn). rewrite He1 in He2. rewrite Hn in He2. congruence.
Qed.

End ReimportClaim.

(** ** The geometry source readers *)
Section ReaderFacts.

Import Store Reader.
Context {pg : Postgres} {sh : Shapely pg}.

Lemma import_with_ogr2ogr_loaded run d :
  fst (import_with_ogr2ogr run d) = ogr2ogr_loaded run.
Proof.
  destruct run as [|returncode [[cols rows]|]|]; simpl; try reflexivity.
  - destruct rows; destruct (returncode =? 0)%Z; reflexivity.
  - now destruct (returncode =? 0)%Z.
Qed.

Lemma import_with_ogr2ogr_log run d : log (snd (import_with_ogr2ogr run d)) = log d.
Proof.
  destruct run as [|returncode [[cols rows]|]|]; simpl; try reflexivity;
    destruct (returncode =? 0)%Z; reflexivity.
Qed.

Lemma import_with_ogr2ogr_data run d :
  land_plots (snd (import_with_ogr2ogr run d)) = land_plots d /\
  shapefile_imports (snd (import_with_ogr2ogr run d)) = shapefile_imports d.
Proof.
  destruct run as [|returncode [[cols rows]|]|]; simpl; auto;
    destruct (returncode =? 0)%Z; auto.
Qed.

Section Bounds.
Variables bounds1 bounds2 : shapely_geometry -> box.

Lemma loop_body_bounds transformer st1 st2 i f :
  staging_of st1 = staging_of st2 ->
  staging_of (loop_body bounds1 transformer st1 i f) =
  staging_of (loop_body bounds2 transformer st2 i f).
Proof.
  unfold staging_of. intros [= Hb Hi He Hs]. unfold loop_body.
  destruct (shape (f_geometry f)) as [g0|]; [|simpl; congruence].
  destruct (if transformer then transform g0 else Some g0) as [g1|]; [|simpl; congruence].
  destruct (ensure_multipolygon g1) as [g2|]; [|simpl; congruence].
  destruct (repair g2) as [g3|]; [|simpl; congruence].
  destruct (within_tanzania (bounds1 g3)), (within_tanzania (bounds2 g3));
    cbn [batch imported_count error_count staged]; rewrite Hb;
    destruct (Nat.leb batch_size _); unfold flush;
    cbn [batch imported_count error_count staged]; congruence.
Qed.

Lemma loop_bounds transformer fs : forall st1 st2 i,
  staging_of st1 = staging_of st2 ->
  staging_of (loop bounds1 transformer st1 i fs) =
  staging_of (loop bounds2 transformer st2 i fs).
Proof.
  induction fs as [|f rest IH]; intros st1 st2 i H; simpl; [exact H|].
  apply IH. now apply loop_body_bounds.
Qed.

(** The bounds enter the fallback reader's result through the log only. *)
Lemma fallback_bounds src d :
  fst (import_with_python_fallback bounds1 src d) =
  fst (import_with_python_fallback bounds2 src d) /\
  temp_table (snd (import_with_python_fallback bounds1 src d)) =
  temp_table (snd (import_with_python_fallback bounds2 src d)) /\
  land_plots (snd (import_with_python_fallback bounds1 src d)) = land_plots d /\
  land_plots (snd (import_with_python_fallback bounds2 src d)) = land_plots d /\
  shapefile_imports (snd (import_with_python_fallback bounds1 src d)) =
    shapefile_imports d /\
  shapefile_imports (snd (import_with_python_fallback bounds2 src d)) =
    shapefile_imports d.
Proof.
  destruct src as [| |transformer features]; simpl; auto 7.
  pose proof (loop_bounds transformer features (mkLoop [] 0 0 [] []) (mkLoop [] 0 0 [] []) 0
                eq_refl) as H.
  unfold staging_of in H. injection H as Hb Hi He Hs.
  set (st1 := loop bounds1 transformer _ 0 features) in *.
  set (st2 := loop bounds2 transformer _ 0 features) in *.
  rewrite Hb. destruct (batch st2) eqn:B2;
    unfold flush; cbn [imported_count staged]; rewrite ?Hi, ?Hs, ?Hb, ?B2; auto 7.
Qed.

End Bounds.

Section Counting.
Variable bounds : shapely_geometry -> box.

Lemma loop_body_count transformer st i f :
  (imported_count (loop_body bounds transformer st i f)
   + List.length (batch (loop_body bounds transformer st i f)) =
   imported_count st + List.length (batch st)
   + (if stageable transformer f then 1 else 0))%nat.
Proof.
  unfold loop_body, stageable, prepared.
  destruct (shape (f_geometry f)) as [g0|]; [|simpl; lia].
  destruct (if transformer then transform g0 else Some g0) as [g1|]; [|simpl; lia].
  destruct (ensure_multipolygon g1) as [g2|]; [|simpl; lia].
  destruct (repair g2) as [g3|]; [|simpl; lia].
  destruct (within_tanzania (bounds g3));
    cbn [batch imported_count error_count staged];
    destruct (Nat.leb batch_size _); unfold flush;
    cbn [batch imported_count error_count staged];
    rewrite ?length_app; simpl; lia.
Qed.

Lemma loop_count transformer fs : forall st i,
  (imported_count (loop bounds transformer st i fs)
   + List.length (batch (loop bounds transformer st i fs)) =
   imported_count st + List.length (batch st)
   + List.length (filter (stageable transformer) fs))%nat.
Proof.
  induction fs as [|f rest IH]; intros st i; simpl; [lia|].
  rewrite IH, loop_body_count. destruct (stageable transformer f); simpl; lia.
Qed.

Lemma filter_nonempty {A : Type} (p : A -> bool) l :
  Nat.ltb 0 (List.length (filter p l)) = existsb p l.
Proof.
  induction l as [|x l IH]; simpl; [reflexivity|].
  destruct (p x); simpl; [reflexivity|exact IH].
Qed.

Lemma import_with_python_fallback_loaded src d :
  fst (import_with_python_fallback bounds src d) = fallback_loaded src.
Proof.
  destruct src as [| |transformer features]; simpl; try reflexivity.
  rewrite <- filter_nonempty.
  pose proof (loop_count transformer features (mkLoop [] 0 0 [] []) 0) as H.
  simpl in H.
  destruct (batch (loop bounds transformer _ 0 features)) eqn:B.
  - simpl in H. rewrite Nat.add_0_r in H. now rewrite H.
  - unfold flush. cbn [imported_count]. rewrite B. now rewrite H.
Qed.

Lemma import_with_python_fallback_log src d e :
  In e (log d) -> In e (log (snd (import_with_python_fallback bounds src d))).
Proof.
  destruct src as [| |transformer features]; simpl; auto.
  intros H. apply in_or_app. now left.
Qed.

End Counting.
End ReaderFacts.

(** ** The whole run *)
Section PipelineFacts.

Import Store EnhancedSeed.
Context {pg : Postgres} {sh : Shapely pg}.

Lemma process_imported_data_raises dataset district_ ward_ village_ now ext d e d' :
  process_imported_data dataset district_ ward_ village_ now ext d = Raised e d' ->
  processing_error e = true.
Proof.
  unfold process_imported_data.
  destruct (temp_table d) as [t|]; [|now intros [= <- _]].
  destruct (Nat.eqb (staged_count t) 0); [now intros [= <- _]|].
  destruct (insert_sql _ _ _ _ _ t (land_plots d)) as [store|e0] eqn:E.
  - destruct (Nat.eqb _ 0); [now intros [= <- _]|discriminate].
  - intros [= <- _]. apply insert_sql_error in E.
    destruct e0; try discriminate; reflexivity.
Qed.

Lemma process_imported_data_log dataset district_ ward_ village_ now ext d ev :
  In ev (log d) ->
  In ev (log (final_db (process_imported_data dataset district_ ward_ village_ now ext d))).
Proof.
  intros H. unfold process_imported_data.
  assert (forall x, In ev (log d ++ [x])) as Hx by (intros x; apply in_or_app; now left).
  destruct (temp_table d) as [t|]; [|simpl; auto].
  destruct (Nat.eqb (staged_count t) 0); [simpl; auto|].
  destruct (insert_sql _ _ _ _ _ t (land_plots d)); [|simpl; auto].
  destruct (Nat.eqb _ 0); simpl; auto.
Qed.

Lemma create_import_record_frame w dataset v md n now d :
  land_plots (create_import_record w dataset v md n now d) = land_plots d /\
  temp_table (create_import_record w dataset v md n now d) = temp_table d /\
  log (create_import_record w dataset v md n now d) = log d.
Proof.
  unfold create_import_record. destruct (existsb _ _); simpl; auto.
Qed.

Lemma process_imported_data_extent dataset district_ ward_ village_ now ext1 ext2 d d' :
  same_data d d' ->
  same_outcome (process_imported_data dataset district_ ward_ village_ now ext1 d)
               (process_imported_data dataset district_ ward_ village_ now ext2 d').
Proof.
  intros (Hl & Hi & Ht). unfold process_imported_data. rewrite <- Ht, <- Hl.
  assert (Hlog : forall ev, same_data (logging d ev) (logging d' ev)).
  { intros ev. unfold same_data. simpl. auto. }
  assert (Hset : forall store ev, same_data (logging (set_land_plots d store) ev)
                                            (logging (set_land_plots d' store) ev)).
  { intros store ev. unfold same_data. simpl. auto. }
  assert (Hdrop : forall store ev ev',
            same_data (set_temp_table (logging (set_land_plots d store) ev) None)
                      (set_temp_table (logging (set_land_plots d' store) ev') None)).
  { intros store ev ev'. unfold same_data. simpl. auto. }
  clear Ht Hl.
  destruct (temp_table d) as [t|]; [|simpl; auto].
  destruct (Nat.eqb (staged_count t) 0); [simpl; auto|].
  destruct (insert_sql _ _ _ _ _ t (land_plots d)); [|simpl; auto].
  destruct (Nat.eqb _ 0); simpl; auto.
Qed.

Lemma create_import_record_data w dataset v md n now d d' :
  same_data d d' ->
  same_data (create_import_record w dataset v md n now d)
            (create_import_record w dataset v md n now d').
Proof.
  intros (Hl & Hi & Ht). unfold create_import_record, same_data.
  destruct (existsb _ _); simpl; rewrite ?Hi; auto.
Qed.

(** A valid set of components has no unreadable file, so the ledger
    upsert is reached. *)
Lemma valid_no_unreadable (fs : Validator.filesystem) :
  Validator.valid (Validator.validate_shapefile_components fs) = true ->
  existsb (fun c => match fs c with
                    | Validator.Unreadable _ => true
                    | _ => false
                    end)
    (filter (fun c => Validator.file_exists (fs c)) Validator.components) = false.
Proof.
  intros Hv. destruct (existsb _ _) eqn:E; [|reflexivity].
  apply existsb_exists in E as (c & _ & Hc).
  destruct (fs c) eqn:F; try discriminate.
  assert (Validator.valid (Validator.validate_shapefile_components fs) = false).
  { apply invalid_iff. right. now exists c, size. }
  congruence.
Qed.

Lemma find_upsert_import (r : ShapefileImportRecord) l :
  find_import (si_dataset_name r) (upsert_import r l) = Some r.
Proof.
  unfold find_import, upsert_import.
  destruct (existsb _ l) eqn:E.
  - induction l as [|x l IH]; simpl in *; [discriminate|].
    destruct (String.eqb (si_dataset_name x) (si_dataset_name r)) eqn:Ex; simpl.
    + now rewrite String.eqb_refl.
    + rewrite Ex. auto.
  - induction l as [|x l IH]; simpl in *.
    + now rewrite String.eqb_refl.
    + apply orb_false_iff in E as [Ex E]. rewrite Ex. auto.
Qed.

End PipelineFacts.

Section PipelineClaims.

Import Store EnhancedSeed.
Context {pg : Postgres} {sh : Shapely pg}.

Lemma process_imported_data_returns dataset district_ ward_ village_ now ext d n d' :
  process_imported_data dataset district_ ward_ village_ now ext d = Returned n d' ->
  n = count_dataset dataset (land_plots d').
Proof.
  unfold process_imported_data.
  destruct (temp_table d) as [t|]; [|discriminate].
  destruct (Nat.eqb (staged_count t) 0); [discriminate|].
  destruct (insert_sql _ _ _ _ _ t (land_plots d)) as [store|e]; [|discriminate].
  destruct (Nat.eqb _ 0); [discriminate|]. now intros [= <- <-].
Qed.

(** C6: [import_with_ogr2ogr] returns a boolean on every run of the
    external tool, [False] when the run raised before the process
    started, timed out, exited with a non-zero code or loaded no row;
    with valid components a failed or absent bridge makes
    [process_shapefile] try the fallback reader, and it raises the
    "both methods failed" error exactly when neither strategy staged
    anything. *)
Theorem bridge_failure_falls_back_and_raises_when_both_fail :
  forall (bounds : shapely_geometry -> box) (ext : list geometry -> box)
         (w : world) (dataset district_ ward_ village_ : string) (now : Z) (d : db),
  Validator.valid (Validator.validate_shapefile_components (files w)) = true ->
  let out := process_shapefile bounds ext w dataset district_ ward_ village_ now d in
  (forall run d0,
     fst (Reader.import_with_ogr2ogr run d0) = ogr2ogr_loaded run) /\
  (forall d0 returncode table cols,
     fst (Reader.import_with_ogr2ogr Reader.SetupRaised d0) = false /\
     fst (Reader.import_with_ogr2ogr Reader.TimedOut d0) = false /\
     (returncode <> 0%Z ->
      fst (Reader.import_with_ogr2ogr (Reader.Exited returncode table) d0) = false) /\
     fst (Reader.import_with_ogr2ogr (Reader.Exited 0 (Some (cols, []))) d0) = false) /\
  (bridge_succeeds w = false -> In InfoTryingFallback (log (final_db out))) /\
  ((exists d', out = Raised BothImportMethodsFailed d') <->
   bridge_succeeds w = false /\ fallback_succeeds w = false).
Proof.
  intros bounds ext w dataset district_ ward_ village_ now d Hv out.
  split; [intros; apply import_with_ogr2ogr_loaded|].
  split.
  { intros d0 returncode table cols. repeat split.
    intros Hrc. rewrite import_with_ogr2ogr_loaded. simpl.
    apply Z.eqb_neq in Hrc. rewrite Hrc. destruct table as [[c [|r rows]]|]; reflexivity. }
  assert (Hb : fst (if gdal_available w then Reader.import_with_ogr2ogr (ogr2ogr w) d
                    else (false, d)) = bridge_succeeds w).
  { unfold bridge_succeeds. destruct (gdal_available w); [|reflexivity].
    apply import_with_ogr2ogr_loaded. }
  unfold out, process_shapefile. rewrite Hv. cbn [negb].
  set (bridge := if gdal_available w then Reader.import_with_ogr2ogr (ogr2ogr w) d
                 else (false, d)) in *.
  split.
  - intros Hf. rewrite Hf in Hb. rewrite Hb.
    set (imported := Reader.import_with_python_fallback bounds (fiona w)
                       (logging (snd bridge) InfoTryingFallback)).
    assert (Hin : In InfoTryingFallback (log (snd imported))).
    { apply import_with_python_fallback_log. simpl. apply in_or_app. right. now left. }
    destruct (negb (fst imported)); [exact Hin|].
    pose proof (process_imported_data_log dataset district_ ward_ village_ now ext
                  (snd imported) InfoTryingFallback Hin) as Hlog.
    destruct (process_imported_data _ _ _ _ _ _ (snd imported)); simpl in *; [|exact Hlog].
    now rewrite (proj2 (proj2 (create_import_record_frame _ _ _ _ _ _ _))).
  - destruct (bridge_succeeds w) eqn:Hbs; rewrite Hb.
    + split; [|intros [? _]; discriminate].
      intros (d' & H). exfalso. rewrite Hb in H. cbn [negb] in H.
      destruct (process_imported_data _ _ _ _ _ _ (snd bridge)) eqn:P; [discriminate|].
      injection H as -> _. apply process_imported_data_raises in P. discriminate.
    + rewrite (import_with_python_fallback_loaded bounds).
      fold (fallback_succeeds w). destruct (fallback_succeeds w); cbn [negb].
      * split; [|intros [_ ?]; discriminate].
        intros (d' & H). exfalso.
        destruct (process_imported_data _ _ _ _ _ _ _) eqn:P; [discriminate|].
        injection H as -> _. apply process_imported_data_raises in P. discriminate.
      * split; [auto|]. intros _. eexists. reflexivity.
Qed.


(** C9: neither bounds check changes what is staged or inserted.  With
    any two readings of the bounding boxes (the shapely [bounds] of a
    feature, the [ST_Extent] of the dataset), so also with one that puts
    every box inside the envelope, the fallback reader returns the
    same flag and stages the same table, and the whole run ends the
    same way with the same [land_plots], ledger and staging table: the
    check reaches the log only. *)
Theorem bounds_check_never_excludes :
  forall (bounds1 bounds2 : shapely_geometry -> box) (ext1 ext2 : list geometry -> box),
  (forall src d,
     fst (Reader.import_with_python_fallback bounds1 src d) =
     fst (Reader.import_with_python_fallback bounds2 src d) /\
     same_data (snd (Reader.import_with_python_fallback bounds1 src d))
               (snd (Reader.import_with_python_fallback bounds2 src d))) /\
  (forall dataset district_ ward_ village_ now d,
     same_outcome
       (process_imported_data dataset district_ ward_ village_ now ext1 d)
       (process_imported_data dataset district_ ward_ village_ now ext2 d)) /\
  (forall w dataset district_ ward_ village_ now d,
     same_outcome
       (process_shapefile bounds1 ext1 w dataset district_ ward_ village_ now d)
       (process_shapefile bounds2 ext2 w dataset district_ ward_ village_ now d)).
Proof.
  intros bounds1 bounds2 ext1 ext2.
  assert (Hfb : forall src d,
     fst (Reader.import_with_python_fallback bounds1 src d) =
     fst (Reader.import_with_python_fallback bounds2 src d) /\
     same_data (snd (Reader.import_with_python_fallback bounds1 src d))
               (snd (Reader.import_with_python_fallback bounds2 src d))).
  { intros src d.
    destruct (fallback_bounds bounds1 bounds2 src d) as (H1 & H2 & H3 & H4 & H5 & H6).
    split; [exact H1|]. unfold same_data. rewrite H3, H4, H5, H6. auto. }
  split; [exact Hfb|]. split.
  - intros. apply process_imported_data_extent. repeat split.
  - intros w dataset district_ ward_ village_ now d. unfold process_shapefile.
    destruct (negb (Validator.valid _));
      [unfold same_outcome, same_data; repeat split|].
    set (bridge := if gdal_available w then Reader.import_with_ogr2ogr (ogr2ogr w) d
                   else (false, d)).
    destruct (fst bridge) eqn:Hb.
    + cbn [negb]. rewrite Hb. cbn [negb].
      pose proof (process_imported_data_extent dataset district_ ward_ village_ now
                    ext1 ext2 (snd bridge) (snd bridge)
                    (conj eq_refl (conj eq_refl eq_refl))) as H.
      destruct (process_imported_data _ _ _ _ _ ext1 _),
               (process_imported_data _ _ _ _ _ ext2 _); simpl in H |- *; try tauto.
      destruct H as [<- H]. split; [reflexivity|]. now apply create_import_record_data.
    + destruct (Hfb (fiona w) (logging (snd bridge) InfoTryingFallback)) as [Hf Hd].
      rewrite <- Hf.
      destruct (negb (fst (Reader.import_with_python_fallback bounds1 _ _)));
        [simpl; auto|].
      pose proof (process_imported_data_extent dataset district_ ward_ village_ now
                    ext1 ext2 _ _ Hd) as H.
      destruct (process_imported_data _ _ _ _ _ ext1 _),
               (process_imported_data _ _ _ _ _ ext2 _); simpl in H |- *; try tauto.
      destruct H as [<- H]. split; [reflexivity|]. now apply create_import_record_data.
Qed.

End PipelineClaims.

(** ** The import ledger *)
Section LedgerClaims.

Import Store EnhancedSeed.
Context {pg : Postgres} {sh : Shapely pg}.

(** C1 (as the code has it): the ledger row written for a dataset has
    [feature_count] equal to the number of rows [land_plots] holds for
    it after the upsert.  [process_shapefile] passes on the count that
    [process_imported_data] returns, the rows with the dataset's name;
    [seed] counts the rows with the run's district, ward and village. *)
Theorem ledger_feature_count_is_stored_row_count :
  forall (bounds : shapely_geometry -> box) (ext : list geometry -> box)
         (dataset district_ ward_ village_ : string) (now : Z),
  (forall w d n d',
     process_shapefile bounds ext w dataset district_ ward_ village_ now d = Returned n d' ->
     n = count_dataset dataset (land_plots d') /\
     exists rec,
       find_import dataset (shapefile_imports d') = Some rec /\
       feature_count rec = count_dataset dataset (land_plots d')) /\
  (forall imported sc d d',
     SeedImport.seed district_ ward_ village_ dataset now ext imported sc d = Returned tt d' ->
     exists rec,
       find_import dataset (shapefile_imports d') = Some rec /\
       feature_count rec =
         List.length (filter (SeedImport.at_location district_ ward_ village_)
                        (land_plots d'))).
Proof.
  intros bounds ext dataset district_ ward_ village_ now. split.
  - intros w d n d'. unfold process_shapefile.
    destruct (Validator.valid _) eqn:Hv; [|discriminate]. cbn [negb].
    match goal with |- context [negb (fst ?i)] => destruct (negb (fst i)) end;
      [discriminate|].
    destruct (process_imported_data _ _ _ _ _ _ _) as [m d3|] eqn:P; [|discriminate].
    intros [= <- <-]. apply process_imported_data_returns in P.
    rewrite (proj1 (create_import_record_frame _ _ _ _ _ _ _)).
    split; [exact P|].
    unfold create_import_record. rewrite (valid_no_unreadable _ Hv).
    cbn [shapefile_imports set_imports].
    eexists. split; [apply (find_upsert_import (mkImport dataset _ _ _ _ _ _ _))|].
    simpl. exact P.
  - intros imported sc d d'. unfold SeedImport.seed.
    destruct imported as [tmp|e]; [|discriminate].
    destruct (SeedImport.normalize_into_land_plots _ _ _ _ _ _ _) as [store|e];
      [|discriminate].
    destruct (Nat.eqb (count_dataset dataset store) 0); [discriminate|].
    intros [= <-]. cbn [shapefile_imports land_plots set_imports set_temp_table set_land_plots].
    eexists. split; [apply (find_upsert_import (mkImport dataset _ _ _ _ _ _ _))|].
    reflexivity.
Qed.

End LedgerClaims.

(** ** Plot codes *)
Section PlotCodeFacts.

Import Store EnhancedSeed.


Lemma nth_error_combine_seq {A : Type} (l : list A) : forall a i x,
  nth_error l i = Some x ->
  nth_error (combine (seq a (List.length l)) l) i = Some ((a + i)%nat, x).
Proof.
  induction l as [|y l IH]; intros a i x H; destruct i; simpl in *; try discriminate.
  - injection H as <-. now rewrite Nat.add_0_r.
  - rewrite (IH (S a) i x H). f_equal. f_equal. lia.
Qed.

Lemma nth_error_number {A : Type} (l : list A) i x :
  nth_error l i = Some x -> nth_error (number l) i = Some (S i, x).
Proof. intros H. unfold number. now rewrite (nth_error_combine_seq l 1 i x H). Qed.


End PlotCodeFacts.

Section PlotCodeClaims.

Import Store EnhancedSeed.
Context {pg : Postgres}.
Variables (dataset district_ ward_ village_ : string) (now : Z).


End PlotCodeClaims.

(** ** One plot code proposed twice *)
Section DuplicateCodes.

Import Store.
Context {pg : Postgres}.

Lemma codes_run_distinct ks : forall seen codes codes',
  codes_run seen codes ks = Some codes' ->
  (forall i, nth_error ks i <> Some None) /\
  (forall i c, nth_error ks i = Some (Some c) -> ~ In c seen) /\
  (forall i j c, nth_error ks i = Some (Some c) -> nth_error ks j = Some (Some c) -> i = j).
Proof.
  induction ks as [|k rest IH]; intros seen codes codes' H; simpl in H.
  - repeat split; intros; destruct i; discriminate.
  - destruct k as [c0|]; [|discriminate].
    destruct (Sql.mem c0 seen) eqn:M; [discriminate|].
    apply IH in H as (H1 & H2 & H3).
    assert (Hc0 : ~ In c0 seen).
    { intros Hin. apply mem_true_iff in Hin. congruence. }
    repeat split.
    + intros [|i]; simpl; [discriminate|apply H1].
    + intros [|i] c; simpl.
      * now intros [= <-].
      * intros Hi Hin. apply (H2 i c Hi). now right.
    + intros [|i] [|j] c; simpl; intros Hi Hj.
      * reflexivity.
      * exfalso. injection Hi as ->. apply (H2 j c Hj). now left.
      * exfalso. injection Hj as ->. apply (H2 i c Hi). now left.
      * f_equal. eauto.
Qed.

(** Two tuples of one statement with the same plot code: PostgreSQL
    refuses the statement. *)
Lemma upsert_duplicate_fails now store proposed i j p q :
  i <> j ->
  nth_error proposed i = Some (Ok p) -> nth_error proposed j = Some (Ok q) ->
  plot_code p = plot_code q ->
  exists e, insert_on_conflict_do_update now [] store proposed = Err e.
Proof.
  intros Hij Hi Hj Hpq.
  pose proof (upsert_codes now proposed [] store) as H.
  destruct (insert_on_conflict_do_update now [] store proposed) as [s|e]; [|now exists e].
  exfalso. apply codes_run_distinct in H as (H1 & _ & H3).
  assert (Ha : forall k r, nth_error proposed k = Some (Ok r) ->
                           nth_error (map admitted proposed) k = Some (Some (plot_code r))).
  { intros k r Hk. pose proof (H1 k) as Hnone.
    rewrite nth_error_map, Hk in *. simpl in *.
    destruct (is_ok (check_constraints r)); [reflexivity|congruence]. }
  apply Hij. apply (H3 i j (plot_code p)); [now apply Ha|].
  rewrite Hpq. now apply Ha.
Qed.

(** When every tuple evaluates and passes the constraints, the only
    error left is the cardinality violation. *)
Lemma upsert_cardinality now proposed : forall seen store e,
  (forall t, In t proposed -> admitted t <> None) ->
  insert_on_conflict_do_update now seen store proposed = Err e ->
  e = CardinalityViolation.
Proof.
  induction proposed as [|t rest IH]; intros seen store e Hall H; simpl in H;
    [discriminate|].
  pose proof (Hall t (or_introl eq_refl)) as Ht.
  destruct t as [p0|e0]; simpl in H, Ht; [|congruence].
  destruct (check_constraints p0) as [p|e1]; simpl in H, Ht; [|congruence].
  destruct (Sql.mem (plot_code p) seen); [now injection H as <-|].
  eapply IH; [|exact H]. intros t Hin. apply Hall. now right.
Qed.

Lemma skip_run_distinct ks : forall snapshot codes codes',
  skip_run snapshot codes ks = Some codes' ->
  (forall i c k, nth_error ks i = Some (c, k) -> Sql.mem c snapshot = false ->
                 exists c', k = Some c' /\ ~ In c' codes) /\
  (forall i j c c1 c2, nth_error ks i = Some (c1, Some c) -> nth_error ks j = Some (c2, Some c) ->
                 Sql.mem c1 snapshot = false -> Sql.mem c2 snapshot = false -> i = j).
Proof.
  induction ks as [|[c0 k0] rest IH]; intros snapshot codes codes' H; simpl in H.
  - split; intros; destruct i; discriminate.
  - destruct (Sql.mem c0 snapshot) eqn:M.
    + apply IH in H as (H1 & H2). split.
      * intros [|i] c k; simpl; [intros [= <- <-]; congruence|apply H1].
      * intros [|i] [|j] c c1 c2; simpl; intros Hi Hj M1 M2.
        -- reflexivity.
        -- injection Hi as <- _. congruence.
        -- injection Hj as <- _. congruence.
        -- f_equal. eauto.
    + destruct k0 as [c'|]; [|discriminate].
      destruct (Sql.mem c' codes) eqn:Mc; [discriminate|].
      apply IH in H as (H1 & H2).
      assert (Hfresh : ~ In c' codes).
      { intros Hin. apply mem_true_iff in Hin. congruence. }
      assert (Hlater : forall k c1, nth_error rest k = Some (c1, Some c') ->
                                    Sql.mem c1 snapshot = false -> False).
      { intros k c1 Hk M1. destruct (H1 k c1 (Some c') Hk M1) as (c'' & [= <-] & Hn).
        apply Hn. apply in_or_app. right. now left. }
      split.
      * intros [|i] c k; simpl.
        -- intros [= <- <-] _. now exists c'.
        -- intros Hi Mi. destruct (H1 i c k Hi Mi) as (c'' & -> & Hn).
           exists c''. split; [reflexivity|]. intros Hin. apply Hn.
           apply in_or_app. now left.
      * intros [|i] [|j] c c1 c2; simpl; intros Hi Hj M1 M2.
        -- reflexivity.
        -- exfalso. injection Hi as <- <-. eauto.
        -- exfalso. injection Hj as <- <-. eauto.
        -- f_equal. eauto.
Qed.

End DuplicateCodes.

Section CollisionClaims.

Import Store EnhancedSeed.
Context {pg : Postgres}.

Lemma skip_duplicate_fails (store : list LandPlot) proposed i j c t1 t2 :
  (forall c0 c', In (c0, Some c') (map skip_key proposed) -> c' = c0) ->
  i <> j ->
  nth_error proposed i = Some (c, t1) -> nth_error proposed j = Some (c, t2) ->
  has_code c store = false ->
  exists e, insert_where_not_exists store store proposed = Err e.
Proof.
  intros Hcons Hij Hi Hj Hc.
  pose proof (skip_codes store proposed store) as H.
  destruct (insert_where_not_exists store store proposed) as [s|e]; [|now exists e].
  exfalso. apply skip_run_distinct in H as (H1 & H2).
  rewrite has_code_mem in Hc.
  assert (Hk : forall k t, nth_error proposed k = Some (c, t) ->
                           nth_error (map skip_key proposed) k = Some (c, Some c)).
  { intros k t Hk.
    assert (Hn : nth_error (map skip_key proposed) k = Some (c, admitted t)).
    { rewrite nth_error_map, Hk. reflexivity. }
    destruct (H1 k c _ Hn Hc) as (c' & Hc' & _). rewrite Hc' in Hn.
    rewrite Hn. f_equal. f_equal. f_equal.
    apply Hcons. eapply nth_error_In. exact Hn. }
  apply Hij. apply (H2 i j c c c); eauto.
Qed.

Lemma select_length_staged dataset district_ ward_ village_ now t :
  (List.length (select dataset district_ ward_ village_ now t) <= staged_count t)%nat.
Proof.
  destruct t as [rows|columns rows]; simpl; rewrite length_map; unfold number;
    rewrite length_combine, length_seq, Nat.min_id; apply filter_length_le.
Qed.

(** C10 (as the code has it): LPAD to width 4 cuts longer numbers, so
    the synthesized codes of sequence numbers 1000 and 10000 are the
    same, with either prefix.  An INSERT whose SELECT yields one plot
    code twice does not merge the two rows: PostgreSQL refuses it, so
    [process_imported_data] rolls back and raises with [land_plots] as
    it was, and the NOT EXISTS statement of [seed_import] fails on the
    UNIQUE constraint in the same way. *)
Theorem padded_sequence_collides_and_insert_is_refused :
  (forall ds, synthesized ds 1000 = synthesized ds 10000) /\
  SeedImport.synthesized 1000 = SeedImport.synthesized 10000 /\
  (forall dataset district_ ward_ village_ now t i j p q,
     i <> j ->
     nth_error (select dataset district_ ward_ village_ now t) i = Some (Ok p) ->
     nth_error (select dataset district_ ward_ village_ now t) j = Some (Ok q) ->
     plot_code p = plot_code q ->
     forall ext d, temp_table d = Some t ->
       exists e,
         process_imported_data dataset district_ ward_ village_ now ext d
           = Raised e (logging d (ErrorLogged e)) /\
         land_plots (logging d (ErrorLogged e)) = land_plots d) /\
  (forall district_ ward_ village_ dataset now attr_cols attr_key first rows store
          i j c t1 t2,
     i <> j ->
     nth_error (SeedImport.proposed district_ ward_ village_ dataset now
                  attr_cols attr_key first rows) i = Some (c, t1) ->
     nth_error (SeedImport.proposed district_ ward_ village_ dataset now
                  attr_cols attr_key first rows) j = Some (c, t2) ->
     has_code c store = false ->
     exists e,
       insert_where_not_exists store store
         (SeedImport.proposed district_ ward_ village_ dataset now
            attr_cols attr_key first rows) = Err e).
Proof.
  split; [|split; [|split]].
  - intros ds. unfold synthesized. do 2 f_equal.
  - reflexivity.
  - intros dataset district_ ward_ village_ now t i j p q Hij Hi Hj Hpq ext d Ht.
    destruct (upsert_duplicate_fails now (land_plots d) _ i j p q Hij Hi Hj Hpq) as (e & He).
    exists e. split; [|reflexivity].
    unfold process_imported_data. rewrite Ht.
    assert (Hn : Nat.eqb (staged_count t) 0 = false).
    { apply Nat.eqb_neq. intros Hz.
      pose proof (select_length_staged dataset district_ ward_ village_ now t) as Hl.
      assert (nth_error (select dataset district_ ward_ village_ now t) i <> None) as Hs
        by congruence.
      apply nth_error_Some in Hs. lia. }
    rewrite Hn. unfold insert_sql. now rewrite He.
  - intros district_ ward_ village_ dataset now attr_cols attr_key first rows store
           i j c t1 t2 Hij Hi Hj Hc.
    eapply skip_duplicate_fails; eauto.
    intros c0 c'. apply proposed_consistent.
Qed.

End CollisionClaims.

(** * Closed examples *)
Section Scenarios.

Import Store EnhancedSeed.

Lemma filter_repeat_true {A : Type} (f : A -> bool) (x : A) n :
  f x = true -> filter f (repeat x n) = repeat x n.
Proof. intros H. induction n; simpl; [reflexivity|]. now rewrite H, IHn. Qed.

(** The tuple of the i-th of [n] features without attributes. *)
Lemma keyless_tuple now n i :
  (i < n)%nat ->
  exists p,
    nth_error (select (pg := Sample.postgres) "survey1" "Mbuyuni" "Mbuyuni Ward"
                 "Mbuyuni Village" now (AttributesTable (Sample.keyless n))) i = Some (Ok p) /\
    plot_code p = synthesized "survey1" (S i) /\
    is_ok (check_constraints p) = true.
Proof.
  intros Hi. simpl select. unfold considered_jsonb, Sample.keyless.
  rewrite filter_repeat_true by reflexivity.
  rewrite nth_error_map, (nth_error_number _ i _ (nth_error_repeat _ Hi)).
  cbn [option_map fst snd].
  eexists. split; [reflexivity|]. split; reflexivity.
Qed.

Lemma keyless_admitted now n t :
  In t (select (pg := Sample.postgres) "survey1" "Mbuyuni" "Mbuyuni Ward"
          "Mbuyuni Village" now (AttributesTable (Sample.keyless n))) ->
  admitted t <> None.
Proof.
  intros H. apply In_nth_error in H as (i & H).
  assert (i < n)%nat as Hi.
  { assert (nth_error (select (pg := Sample.postgres) "survey1" "Mbuyuni" "Mbuyuni Ward"
              "Mbuyuni Village" now (AttributesTable (Sample.keyless n))) i <> None) as Hs
      by congruence.
    apply nth_error_Some in Hs.
    pose proof (select_length_staged (pg := Sample.postgres) "survey1" "Mbuyuni"
                  "Mbuyuni Ward" "Mbuyuni Village" now (AttributesTable (Sample.keyless n))).
    simpl staged_count in *. unfold Sample.keyless in *. rewrite repeat_length in *. lia. }
  destruct (keyless_tuple now n i Hi) as (p & Hp & _ & Hok).
  rewrite Hp in H. injection H as <-. simpl. now rewrite Hok.
Qed.

Lemma keyless_run_aborts now n :
  (999 < n)%nat -> (9999 < n)%nat ->
  Sample.upsert_one now (Sample.staged_db (Sample.keyless n)) =
  Raised CardinalityViolation
    (logging (Sample.staged_db (Sample.keyless n)) (ErrorLogged CardinalityViolation)).
Proof.
  intros H1 H2.
  destruct (keyless_tuple now n 999 H1) as (p & Hp & Hpc & _).
  destruct (keyless_tuple now n 9999 H2) as (q & Hq & Hqc & _).
  assert (Hpq : plot_code p = plot_code q).
  { rewrite Hpc, Hqc. unfold synthesized. do 2 f_equal. }
  assert (Hij : 999%nat <> 9999%nat) by (intros E; apply Nat.eqb_eq in E; discriminate).
  destruct (upsert_duplicate_fails now [] _ _ _ p q Hij Hp Hq Hpq) as (e & He).
  pose proof (upsert_cardinality now _ [] [] e (keyless_admitted now n) He) as ->.
  unfold Sample.upsert_one, process_imported_data.
  cbn [temp_table land_plots Sample.staged_db staged_count].
  assert (Nat.eqb (List.length (Sample.keyless n)) 0 = false) as ->.
  { unfold Sample.keyless. rewrite repeat_length. apply Nat.eqb_neq. lia. }
  unfold insert_sql. now rewrite He.
Qed.

End Scenarios.

Section CounterExamples.

Import Store EnhancedSeed.

(** C1, as stated, fails: the fallback reader stages two features, the
    WHERE clause rejects the one of zero area, and the ledger row of the
    dataset records 1, the number of rows inserted, not 2. *)
Lemma ledger_records_inserted_rows_not_staged_features :
  option_map staged_count
    (temp_table (snd (Reader.import_with_python_fallback (sh := Sample.shapely)
                        Sample.parcel_bounds (fiona Sample.two_features) Sample.empty_db)))
    = Some 2%nat /\
  exists d',
    Sample.run_two_features = Returned 1%nat d' /\
    List.length (land_plots d') = 1%nat /\
    option_map feature_count (find_import "survey1" (shapefile_imports d')) = Some 1%nat.
Proof.
  split; [reflexivity|].
  eexists. split; [reflexivity|]. split; reflexivity.
Qed.



(** C10, as stated, fails: in a dataset of 10000 valid features without
    a plot-code attribute the features numbered 1000 and 10000 get the
    same code, and the later one is not merged into the earlier row:
    the INSERT is refused with a cardinality violation and [land_plots]
    stays empty. *)
Lemma ten_thousand_keyless_features_are_refused :
  synthesized "survey1" 1000 = "survey1_1000" /\
  synthesized "survey1" 10000 = "survey1_1000" /\
  Sample.upsert_one 100 (Sample.staged_db (Sample.keyless 10000)) =
  Raised CardinalityViolation
    (logging (Sample.staged_db (Sample.keyless 10000)) (ErrorLogged CardinalityViolation)) /\
  land_plots (logging (Sample.staged_db (Sample.keyless 10000))
                (ErrorLogged CardinalityViolation)) = [].
Proof.
  split; [reflexivity|]. split; [reflexivity|]. split; [|reflexivity].
  apply keyless_run_aborts; apply Nat.ltb_lt; reflexivity.
Qed.

End CounterExamples.

Section Witnesses.

Import Store EnhancedSeed.

(** C1 at the two-feature run: the count returned and the ledger's
    [feature_count] are the number of rows stored for "survey1". *)
Lemma ledger_feature_count_witness :
  1%nat = count_dataset "survey1" (land_plots (final_db Sample.run_two_features)) /\
  exists rec,
    find_import "survey1" (shapefile_imports (final_db Sample.run_two_features)) = Some rec /\
    feature_count rec = count_dataset "survey1" (land_plots (final_db Sample.run_two_features)).
Proof.
  exact (proj1 (ledger_feature_count_is_stored_row_count (sh := Sample.shapely)
                  Sample.parcel_bounds Sample.parcels_extent
                  "survey1" "Mbuyuni" "Mbuyuni Ward" "Mbuyuni Village" 100%Z)
           Sample.two_features Sample.empty_db 1%nat (final_db Sample.run_two_features)
           eq_refl).
Defined.

(** C3 at one staged parcel, imported at clock 100 and again at 200. *)
Lemma reimport_witness :
  (100 < 200)%Z /\
  List.length (land_plots Sample.second_run) = List.length (land_plots Sample.first_run) /\
  Forall2 (fun r1 r2 =>
             same_frame r1 r2 /\
             (In (plot_code r1) ["survey1_0001"] ->
              updated_at r1 = 100%Z /\ updated_at r2 = 200%Z /\
              (updated_at r1 < updated_at r2)%Z))
    (land_plots Sample.first_run) (land_plots Sample.second_run).
Proof.
  pose proof (reimport_keeps_row_count_and_advances_updated_at (pg := Sample.postgres)
                "survey1" "Mbuyuni" "Mbuyuni Ward" "Mbuyuni Village" 100%Z 200%Z
                Sample.parcels_extent Sample.parcels_extent Sample.once_staged eq_refl) as H.
  cbv zeta in H. destruct H as (H1 & H2 & _).
  split; [reflexivity|]. split; [exact H1|].
  apply (H2 (AttributesTable [Sample.row_of Sample.field_a [] 0]) eq_refl).
  - discriminate.
  - reflexivity.
Defined.

(** C6 on a machine without GDAL: the fallback is tried and the run
    does not end with the "both methods failed" error. *)
Lemma fallback_witness :
  Validator.valid (Validator.validate_shapefile_components (files Sample.two_features)) = true /\
  In InfoTryingFallback (log (final_db Sample.run_two_features)) /\
  ~ (exists d', Sample.run_two_features = Raised BothImportMethodsFailed d').
Proof.
  pose proof (bridge_failure_falls_back_and_raises_when_both_fail (sh := Sample.shapely)
                Sample.parcel_bounds Sample.parcels_extent Sample.two_features
                "survey1" "Mbuyuni" "Mbuyuni Ward" "Mbuyuni Village" 100%Z Sample.empty_db
                eq_refl) as H.
  cbv zeta in H. destruct H as (_ & _ & H3 & H4).
  split; [reflexivity|]. split; [exact (H3 eq_refl)|].
  intros Hr. apply H4 in Hr as [_ Hf]. discriminate Hf.
Defined.




(** C10 at 10000 features without a plot-code key. *)
Lemma refused_insert_witness :
  exists e,
    Sample.upsert_one 100 (Sample.staged_db (Sample.keyless 10000)) =
    Raised e (logging (Sample.staged_db (Sample.keyless 10000)) (ErrorLogged e)) /\
    land_plots (logging (Sample.staged_db (Sample.keyless 10000)) (ErrorLogged e)) = [].
Proof.
  assert (H1 : (999 < 10000)%nat) by (apply Nat.ltb_lt; reflexivity).
  assert (H2 : (9999 < 10000)%nat) by (apply Nat.ltb_lt; reflexivity).
  destruct (keyless_tuple 100 10000 999 H1) as (p & Hp & Hpc & _).
  destruct (keyless_tuple 100 10000 9999 H2) as (q & Hq & Hqc & _).
  assert (Hpq : plot_code p = plot_code q).
  { rewrite Hpc, Hqc. unfold synthesized. do 2 f_equal. }
  assert (Hij : 999%nat <> 9999%nat) by (intros E; apply Nat.eqb_eq in E; discriminate).
  exact (proj1 (proj2 (proj2 (padded_sequence_collides_and_insert_is_refused
                                (pg := Sample.postgres))))
           "survey1" "Mbuyuni" "Mbuyuni Ward" "Mbuyuni Village" 100%Z
           (AttributesTable (Sample.keyless 10000)) 999%nat 9999%nat p q Hij Hp Hq Hpq
           Sample.parcels_extent (Sample.staged_db (Sample.keyless 10000)) eq_refl).
Defined.

End Witnesses.

Section Checks.

Import Store EnhancedSeed.

Example LPAD_pads : Sql.LPAD (Sql.int_text 7) 4 "0" = "0007".
Proof. reflexivity. Qed.

Example LPAD_truncates : Sql.LPAD (Sql.int_text 10000) 4 "0" = "1000".
Proof. reflexivity. Qed.

Example ROUND_ties_away : Sql.ROUND (25 # 100000) 4 = (3 # 10000)%Q.
Proof. reflexivity. Qed.

Example lower_mixed_case : Sql.lower "Plot_Code" = "plot_code".
Proof. reflexivity. Qed.

(** One valid polygon with "PLOT_CODE" = "A1" and area 2.5: a row "A1"
    of 2.5000 ha, available; the parcel outside the envelope is stored
    as well. *)
Example plot_a1_is_stored :
  map (fun r => (plot_code r, status r, area_hectares r))
    (Sample.stored_after 100 Sample.one_staged []) =
  [("A1", "available", 25000 # 10000); ("survey1_0002", "available", 12345 # 10000)].
Proof. reflexivity. Qed.

(** A conflict rewrites [attributes] and [updated_at] and nothing else. *)
Example second_run_touches_attributes_and_clock :
  map (fun r => (plot_code r, created_at r, updated_at r)) (land_plots Sample.first_run) =
    [("survey1_0001", 100%Z, 100%Z)] /\
  map (fun r => (plot_code r, created_at r, updated_at r)) (land_plots Sample.second_run) =
    [("survey1_0001", 100%Z, 200%Z)].
Proof. split; reflexivity. Qed.

End Checks.

(** * Further properties of the two scripts *)

(** ** Uniqueness of plot codes *)
Section UniqueCodes.

Import Store.
Context {pg : Postgres}.

Lemma NoDup_snoc {A : Type} (l : list A) x : NoDup l -> ~ In x l -> NoDup (l ++ [x]).
Proof.
  induction l as [|y l IH]; intros Hn Hx; simpl.
  - constructor; [intros []|constructor].
  - inversion Hn as [|? ? Hy Hl]; subst. constructor.
    + intros Hin. apply in_app_or in Hin as [Hin|[<-|[]]]; [contradiction|].
      apply Hx. now left.
    + apply IH; [exact Hl|]. intros H. apply Hx. now right.
Qed.

Lemma codes_run_NoDup ks : forall seen codes codes',
  codes_run seen codes ks = Some codes' -> NoDup codes -> NoDup codes'.
Proof.
  induction ks as [|k rest IH]; intros seen codes codes' H Hn; simpl in H.
  - now injection H as <-.
  - destruct k as [c|]; [|discriminate]. destruct (Sql.mem c seen); [discriminate|].
    apply IH in H; [exact H|]. destruct (Sql.mem c codes) eqn:M; [exact Hn|].
    apply NoDup_snoc; [exact Hn|]. intros Hin. apply mem_true_iff in Hin. congruence.
Qed.

Lemma skip_run_NoDup ks : forall snapshot codes codes',
  skip_run snapshot codes ks = Some codes' -> NoDup codes -> NoDup codes'.
Proof.
  induction ks as [|[c k] rest IH]; intros snapshot codes codes' H Hn; simpl in H.
  - now injection H as <-.
  - destruct (Sql.mem c snapshot); [eauto|].
    destruct k as [c'|]; [|discriminate].
    destruct (Sql.mem c' codes) eqn:M; [discriminate|].
    apply IH in H; [exact H|].
    apply NoDup_snoc; [exact Hn|]. intros Hin. apply mem_true_iff in Hin. congruence.
Qed.

(** X1: both scripts keep [plot_code] unique.  If no two rows of
    [land_plots] share a plot code before a run, none do after it,
    however [process_imported_data] or [seed] ends. *)
Theorem plot_codes_stay_unique :
  forall (dataset district_ ward_ village_ : string) (now : Z)
         (ext : list geometry -> box) (d : db),
  NoDup (map plot_code (land_plots d)) ->
  NoDup (map plot_code
           (land_plots (final_db (EnhancedSeed.process_imported_data
                                    dataset district_ ward_ village_ now ext d)))) /\
  (forall imported sc,
     NoDup (map plot_code
              (land_plots (final_db (SeedImport.seed district_ ward_ village_ dataset now
                                       ext imported sc d))))).
Proof.
  intros dataset district_ ward_ village_ now ext d H. split.
  - rewrite process_land_plots. destruct (temp_table d) as [t|]; [|exact H].
    destruct (Nat.eqb _ 0); [exact H|].
    unfold EnhancedSeed.insert_sql.
    pose proof (upsert_codes now (EnhancedSeed.select dataset district_ ward_ village_ now t)
                  [] (land_plots d)) as Hc.
    destruct (insert_on_conflict_do_update _ _ _ _); [|exact H].
    eapply codes_run_NoDup; eauto.
  - intros [tmp|e] sc; [|exact H]. rewrite seed_land_plots.
    unfold SeedImport.normalize_into_land_plots.
    destruct tmp as [rows|cols rows]; [exact H|].
    destruct (find _ SeedImport.geometry_candidates) as [geom_col|]; [|exact H].
    destruct (filter _ cols) as [|first attr_cols] eqn:F; [exact H|].
    match goal with |- context [insert_where_not_exists ?s ?s ?p] =>
      pose proof (skip_codes s p s) as Hc;
      destruct (insert_where_not_exists s s p); [|exact H]
    end.
    eapply skip_run_NoDup; eauto.
Qed.

End UniqueCodes.

(** ** What a committed upsert adds *)
Section ExactCodes.

Import Store EnhancedSeed.
Context {pg : Postgres}.

Lemma in_present c ks : In c (present ks) <-> In (Some c) ks.
Proof.
  unfold present. rewrite in_flat_map. split.
  - intros ([c'|] & Hin & Hc); simpl in Hc; [|contradiction].
    destruct Hc as [<-|[]]. exact Hin.
  - intros H. exists (Some c). split; [exact H|now left].
Qed.

Lemma codes_run_present ks : forall seen codes codes',
  codes_run seen codes ks = Some codes' ->
  NoDup (present ks) /\ (forall c, In c (present ks) -> ~ In c seen) /\
  ~ In None ks.
Proof.
  induction ks as [|k rest IH]; intros seen codes codes' H; simpl in H.
  - repeat split; [constructor|intros c []|intros []].
  - destruct k as [c0|]; [|discriminate].
    destruct (Sql.mem c0 seen) eqn:M; [discriminate|].
    apply IH in H as (Hn & Hs & Hnone). repeat split.
    + simpl. constructor; [|exact Hn]. intros Hin. apply (Hs _ Hin). now left.
    + intros c [<-|Hin].
      * intros Hin. apply mem_true_iff in Hin. congruence.
      * intros Hc. apply (Hs _ Hin). now right.
    + intros [Hin|Hin]; [discriminate|contradiction].
Qed.

Lemma mem_snoc x l c : Sql.mem x (l ++ [c]) = Sql.mem x l || String.eqb x c.
Proof. unfold Sql.mem. rewrite existsb_app. simpl. now rewrite orb_false_r. Qed.

Lemma codes_run_exact ks : forall seen codes codes',
  codes_run seen codes ks = Some codes' ->
  codes' = codes ++ filter (fun c => negb (Sql.mem c codes)) (present ks).
Proof.
  induction ks as [|k rest IH]; intros seen codes codes' H; simpl in H.
  - injection H as <-. simpl. now rewrite app_nil_r.
  - destruct k as [c0|]; [|discriminate].
    destruct (Sql.mem c0 seen) eqn:M; [discriminate|].
    pose proof (codes_run_present _ _ _ _ H) as (_ & Hs & _).
    apply IH in H. simpl. destruct (Sql.mem c0 codes) eqn:Mc; simpl; [exact H|].
    rewrite H, <- app_assoc. simpl. do 2 f_equal.
    apply filter_ext_in. intros x Hx. rewrite mem_snoc.
    destruct (String.eqb x c0) eqn:E; [|now rewrite orb_false_r].
    apply String.eqb_eq in E. subst x. exfalso. apply (Hs _ Hx). now left.
Qed.

Lemma present_admitted (proposed : list (result LandPlot)) :
  ~ In None (map admitted proposed) ->
  present (map admitted proposed) = tuple_codes proposed.
Proof.
  induction proposed as [|t rest IH]; intros H; simpl; [reflexivity|].
  simpl in H. rewrite IH by tauto. f_equal.
  destruct t as [p|e]; simpl in *; [|tauto].
  destruct (is_ok (check_constraints p)); [reflexivity|tauto].
Qed.

(** X2: what a committed INSERT of [process_imported_data] does to the
    set of plot codes.  The tuples of the statement had pairwise
    distinct plot codes; the codes stored afterwards are the codes
    stored before, in their order, followed by the staged codes that
    were not stored yet, in staging order; so every accepted staged row
    has a row with its plot code afterwards. *)
Theorem upsert_appends_the_codes_not_yet_stored :
  forall (dataset district_ ward_ village_ : string) (now : Z) (t : staging)
         (store store' : list LandPlot),
  insert_sql dataset district_ ward_ village_ now t store = Ok store' ->
  let codes := tuple_codes (select dataset district_ ward_ village_ now t) in
  List.length codes = List.length (select dataset district_ ward_ village_ now t) /\
  NoDup codes /\
  map plot_code store' =
    map plot_code store ++ filter (fun c => negb (has_code c store)) codes /\
  (forall c, In c codes -> has_code c store' = true).
Proof.
  intros dataset district_ ward_ village_ now t store store' H codes.
  unfold insert_sql in H.
  pose proof (upsert_codes now (select dataset district_ ward_ village_ now t) [] store) as Hc.
  rewrite H in Hc.
  pose proof (codes_run_present _ _ _ _ Hc) as (Hn & _ & Hnone).
  pose proof (present_admitted _ Hnone) as Hp. fold codes in Hp.
  rewrite Hp in Hn.
  assert (Hex : map plot_code store' =
                map plot_code store ++ filter (fun c => negb (has_code c store)) codes).
  { rewrite (codes_run_exact _ _ _ _ Hc), Hp. f_equal.
    apply filter_ext. intros c. now rewrite has_code_mem. }
  split; [|split; [exact Hn|split; [exact Hex|]]].
  - rewrite <- Hp. unfold present. rewrite <- (length_map admitted).
    clear -Hnone. induction (map admitted _) as [|k ks IH]; [reflexivity|].
    simpl in *. destruct k as [c|]; [|tauto]. simpl. f_equal. apply IH. tauto.
  - intros c Hin. rewrite has_code_mem. apply mem_true_iff.
    apply (proj2 (codes_run_grows _ _ _ _ Hc)). apply in_present. now rewrite Hp.
Qed.

End ExactCodes.

(** ** Commit and rollback *)
Section CommitOrRollback.

Import Store EnhancedSeed.
Context {pg : Postgres} {sh : Shapely pg}.

Lemma process_imported_data_raised dataset district_ ward_ village_ now ext d e d' :
  process_imported_data dataset district_ ward_ village_ now ext d = Raised e d' ->
  temp_table d' = temp_table d /\ shapefile_imports d' = shapefile_imports d /\
  (e <> FormatTypeError -> land_plots d' = land_plots d).
Proof.
  unfold process_imported_data.
  destruct (temp_table d) as [t|] eqn:T; [|intros [= <- <-]; simpl; auto].
  destruct (Nat.eqb (staged_count t) 0); [intros [= <- <-]; simpl; auto|].
  destruct (insert_sql _ _ _ _ _ t (land_plots d)) as [store|e0];
    [|intros [= <- <-]; simpl; auto].
  destruct (Nat.eqb _ 0); [|discriminate].
  intros [= <- <-]. simpl. repeat split; auto. congruence.
Qed.

(** X3: how [process_imported_data] ends.  When it returns, the count
    is at least 1, the INSERT has been committed and the staging table
    dropped.  When it raises, the staging table is left as it was; the
    error is the formatting error of the statistics exactly when the
    INSERT had already been committed with no row of the dataset stored,
    and with any other error [land_plots] is as it was before the run.
    The ledger is not touched either way. *)
Theorem process_imported_data_commits_or_rolls_back :
  forall (dataset district_ ward_ village_ : string) (now : Z)
         (ext : list geometry -> box) (d : db),
  match process_imported_data dataset district_ ward_ village_ now ext d with
  | Returned n d' =>
      (1 <= n)%nat /\ temp_table d' = None /\
      shapefile_imports d' = shapefile_imports d /\
      exists t, temp_table d = Some t /\
        insert_sql dataset district_ ward_ village_ now t (land_plots d) = Ok (land_plots d')
  | Raised e d' =>
      temp_table d' = temp_table d /\
      shapefile_imports d' = shapefile_imports d /\
      (e = FormatTypeError <->
       exists t, temp_table d = Some t /\ staged_count t <> 0%nat /\
         insert_sql dataset district_ ward_ village_ now t (land_plots d) = Ok (land_plots d') /\
         count_dataset dataset (land_plots d') = 0%nat) /\
      (e <> FormatTypeError -> land_plots d' = land_plots d)
  end.
Proof.
  intros dataset district_ ward_ village_ now ext d.
  unfold process_imported_data.
  destruct (temp_table d) as [t|] eqn:T.
  2:{ simpl. repeat split; auto; try discriminate. intros (t & Ht & _). discriminate. }
  destruct (Nat.eqb (staged_count t) 0) eqn:N.
  { simpl. repeat split; auto; try discriminate.
    intros (t' & [= <-] & Hn & _). apply Nat.eqb_eq in N. contradiction. }
  apply Nat.eqb_neq in N.
  destruct (insert_sql _ _ _ _ _ t (land_plots d)) as [store|e0] eqn:I.
  - destruct (Nat.eqb (count_dataset dataset store) 0) eqn:C.
    + apply Nat.eqb_eq in C. simpl. repeat split; auto; try congruence.
      intros _. exists t. auto.
    + apply Nat.eqb_neq in C. simpl. repeat split; auto; [lia|].
      exists t. auto.
  - simpl. pose proof (insert_sql_error _ _ _ _ _ _ _ _ I) as He.
    repeat split; auto.
    + intros ->. discriminate.
    + intros (t' & [= <-] & _ & Hok & _). rewrite I in Hok. discriminate.
Qed.

Lemma imported_frame bounds (w : world) d :
  let bridge := if gdal_available w then Reader.import_with_ogr2ogr (ogr2ogr w) d
                else (false, d) in
  let imported := if fst bridge then bridge
                  else Reader.import_with_python_fallback bounds (fiona w)
                         (logging (snd bridge) InfoTryingFallback) in
  land_plots (snd imported) = land_plots d /\
  shapefile_imports (snd imported) = shapefile_imports d.
Proof.
  intros bridge imported.
  assert (Hb : land_plots (snd bridge) = land_plots d /\
               shapefile_imports (snd bridge) = shapefile_imports d).
  { unfold bridge. destruct (gdal_available w); [|simpl; auto].
    apply import_with_ogr2ogr_data. }
  unfold imported. destruct (fst bridge); [exact Hb|].
  destruct (fallback_bounds bounds bounds (fiona w) (logging (snd bridge) InfoTryingFallback))
    as (_ & _ & H3 & _ & H5 & _).
  rewrite H3, H5. simpl. exact Hb.
Qed.

(** X4: a run of [process_shapefile] that raises writes no ledger
    record, and unless the error is the formatting error raised after
    the commit it leaves [land_plots] as it was: validation failures and
    the failure of both import methods abort before any row is
    written. *)
Theorem failed_run_writes_no_ledger_record :
  forall (bounds : shapely_geometry -> box) (ext : list geometry -> box)
         (w : world) (dataset district_ ward_ village_ : string) (now : Z)
         (d : db) (e : error) (d' : db),
  process_shapefile bounds ext w dataset district_ ward_ village_ now d = Raised e d' ->
  shapefile_imports d' = shapefile_imports d /\
  (e <> FormatTypeError -> land_plots d' = land_plots d).
Proof.
  intros bounds ext w dataset district_ ward_ village_ now d e d'.
  unfold process_shapefile.
  generalize (Validator.validate_shapefile_components (files w)). intros v.
  destruct (negb (Validator.valid v)); [intros [= _ <-]; auto|].
  pose proof (imported_frame bounds w d) as Hf. cbv zeta in Hf.
  match goal with |- context [negb (fst ?i)] => set (imported := i) in * end.
  destruct Hf as [Hl Hi].
  destruct (negb (fst imported)); [intros [= <- <-]; auto|].
  destruct (process_imported_data _ _ _ _ _ _ (snd imported)) as [n d1|e1 d1] eqn:P;
    [discriminate|].
  intros [= <- <-]. apply process_imported_data_raised in P as (_ & Hi' & Hl').
  rewrite Hi', Hi. split; [reflexivity|]. intros He. now rewrite (Hl' He).
Qed.

End CommitOrRollback.

(** ** One ledger record per dataset *)
Section LedgerFacts.

Import Store EnhancedSeed.
Context {pg : Postgres} {sh : Shapely pg}.

Lemma upsert_import_names (r : ShapefileImportRecord) l :
  map si_dataset_name (upsert_import r l) =
  if existsb (fun x => String.eqb (si_dataset_name x) (si_dataset_name r)) l
  then map si_dataset_name l
  else map si_dataset_name l ++ [si_dataset_name r].
Proof.
  unfold upsert_import. destruct (existsb _ l).
  - rewrite map_map. apply map_ext. intros x.
    destruct (String.eqb (si_dataset_name x) (si_dataset_name r)) eqn:E; [|reflexivity].
    apply String.eqb_eq in E. now rewrite E.
  - now rewrite map_app.
Qed.

Lemma upsert_import_NoDup (r : ShapefileImportRecord) l :
  NoDup (map si_dataset_name l) -> NoDup (map si_dataset_name (upsert_import r l)).
Proof.
  intros H. rewrite upsert_import_names.
  destruct (existsb _ l) eqn:E; [exact H|].
  apply NoDup_snoc; [exact H|]. intros Hin. apply in_map_iff in Hin as (x & Hx & Hin).
  assert (existsb (fun x => String.eqb (si_dataset_name x) (si_dataset_name r)) l = true).
  { apply existsb_exists. exists x. split; [exact Hin|]. rewrite Hx. apply String.eqb_refl. }
  congruence.
Qed.

Lemma find_upsert_import_other (r : ShapefileImportRecord) l ds :
  ds <> si_dataset_name r -> find_import ds (upsert_import r l) = find_import ds l.
Proof.
  intros Hd. unfold find_import, upsert_import.
  assert (Hr : String.eqb (si_dataset_name r) ds = false).
  { apply String.eqb_neq. congruence. }
  destruct (existsb _ l).
  - induction l as [|x l IH]; simpl; [reflexivity|].
    destruct (String.eqb (si_dataset_name x) (si_dataset_name r)) eqn:E.
    + rewrite Hr. apply String.eqb_eq in E. rewrite E, Hr. exact IH.
    + destruct (String.eqb (si_dataset_name x) ds); [reflexivity|exact IH].
  - induction l as [|x l IH]; simpl; [now rewrite Hr|].
    destruct (String.eqb (si_dataset_name x) ds); [reflexivity|exact IH].
Qed.

Lemma process_shapefile_ledger bounds ext (w : world) dataset district_ ward_ village_ now d :
  let d' := final_db (process_shapefile bounds ext w dataset district_ ward_ village_ now d) in
  shapefile_imports d' = shapefile_imports d \/
  exists rec, si_dataset_name rec = dataset /\
    shapefile_imports d' = upsert_import rec (shapefile_imports d).
Proof.
  unfold process_shapefile.
  generalize (Validator.validate_shapefile_components (files w)). intros v.
  destruct (negb (Validator.valid v)); [now left|].
  pose proof (imported_frame bounds w d) as Hf. cbv zeta in Hf.
  match goal with |- context [negb (fst ?i)] => set (imported := i) in * end.
  destruct Hf as [_ Hi].
  destruct (negb (fst imported)); [now left|].
  destruct (process_imported_data _ _ _ _ _ _ (snd imported)) as [n d1|e1 d1] eqn:P.
  - assert (Hi1 : shapefile_imports d1 = shapefile_imports (snd imported)).
    { revert P. unfold process_imported_data.
      destruct (temp_table _) as [t|]; [|discriminate].
      destruct (Nat.eqb (staged_count t) 0); [discriminate|].
      destruct (insert_sql _ _ _ _ _ _ _); [|discriminate].
      destruct (Nat.eqb _ 0); [discriminate|]. now intros [= _ <-]. }
    cbn [final_db]. unfold create_import_record.
    destruct (existsb _ _); [left; congruence|].
    right. eexists. split; [|cbn [shapefile_imports set_imports]; now rewrite Hi1, Hi].
    reflexivity.
  - left. apply process_imported_data_raised in P as (_ & Hi' & _).
    cbn [final_db]. congruence.
Qed.

Lemma seed_ledger district_ ward_ village_ dataset now ext imported sc (d : db) :
  let d' := final_db (SeedImport.seed district_ ward_ village_ dataset now ext imported sc d) in
  shapefile_imports d' = shapefile_imports d \/
  exists rec, si_dataset_name rec = dataset /\
    shapefile_imports d' = upsert_import rec (shapefile_imports d).
Proof.
  unfold SeedImport.seed. destruct imported as [tmp|e]; [|now left].
  destruct (SeedImport.normalize_into_land_plots _ _ _ _ _ _ _); [|now left].
  right. eexists. split; [|destruct (Nat.eqb _ 0); reflexivity]. reflexivity.
Qed.

(** X5: the ledger holds one record per dataset name.  If the names in
    [shapefile_imports] are pairwise distinct before a run of
    [process_shapefile] or [seed], they are afterwards, and the record
    of every other dataset can be looked up unchanged: a re-import
    replaces the dataset's record and adds none. *)
Theorem ledger_keeps_one_record_per_dataset :
  forall (bounds : shapely_geometry -> box) (ext : list geometry -> box)
         (w : world) (dataset district_ ward_ village_ : string) (now : Z) (d : db),
  NoDup (map si_dataset_name (shapefile_imports d)) ->
  (let d' := final_db (process_shapefile bounds ext w dataset district_ ward_ village_ now d) in
   NoDup (map si_dataset_name (shapefile_imports d')) /\
   (List.length (shapefile_imports d') <= S (List.length (shapefile_imports d)))%nat /\
   forall other, other <> dataset ->
     find_import other (shapefile_imports d') = find_import other (shapefile_imports d)) /\
  (forall imported sc,
     let d' := final_db (SeedImport.seed district_ ward_ village_ dataset now ext
                           imported sc d) in
     NoDup (map si_dataset_name (shapefile_imports d')) /\
     (List.length (shapefile_imports d') <= S (List.length (shapefile_imports d)))%nat /\
     forall other, other <> dataset ->
       find_import other (shapefile_imports d') = find_import other (shapefile_imports d)).
Proof.
  intros bounds ext w dataset district_ ward_ village_ now d H.
  assert (Hgen : forall l',
            (l' = shapefile_imports d \/
             exists rec, si_dataset_name rec = dataset /\
                         l' = upsert_import rec (shapefile_imports d)) ->
            NoDup (map si_dataset_name l') /\
            (List.length l' <= S (List.length (shapefile_imports d)))%nat /\
            forall other, other <> dataset ->
              find_import other l' = find_import other (shapefile_imports d)).
  { intros l' [->|(rec & Hn & ->)]; [repeat split; auto|].
    split; [now apply upsert_import_NoDup|]. split.
    - rewrite <- (length_map si_dataset_name (upsert_import _ _)), upsert_import_names.
      destruct (existsb _ _); rewrite ?length_app, length_map; simpl; lia.
    - intros other Ho. apply find_upsert_import_other. congruence. }
  split.
  - apply Hgen. apply process_shapefile_ledger.
  - intros imported sc. apply Hgen. apply seed_ledger.
Qed.

End LedgerFacts.

(** ** What the fallback reader stages *)
Section FallbackStaging.

Import Store Reader.
Context {pg : Postgres} {sh : Shapely pg}.
Variable bounds : shapely_geometry -> box.









End FallbackStaging.

(** ** Synthesized plot codes below the width of the padding *)
Section PaddedNumbers.

Lemma all_from_spec (P : Decimal.uint -> bool) k : forall a,
  all_from P k (DecimalNat.Unsigned.to_lu a) = true ->
  forall m, (m <= k)%nat -> P (DecimalNat.Unsigned.to_lu (a + m)) = true.
Proof.
  induction k as [|k IH]; intros a H m Hm; simpl in H;
    apply andb_true_iff in H as [H1 H2].
  - inversion Hm. now rewrite Nat.add_0_r.
  - destruct m as [|m]; [now rewrite Nat.add_0_r|].
    rewrite <- plus_n_Sm. apply (IH (S a)); [exact H2|lia].
Qed.

Lemma padded_numbers_read_back :
  all_from padded_reads_back 9999 (DecimalNat.Unsigned.to_lu 0) = true.
Proof. vm_compute. reflexivity. Qed.

Lemma padded_number_reads_back m :
  (m <= 9999)%nat ->
  String.length (Sql.LPAD (Sql.int_text m) 4 "0") = 4%nat /\
  read_number (Sql.LPAD (Sql.int_text m) 4 "0") = Some m.
Proof.
  intros Hm.
  pose proof (all_from_spec _ _ 0%nat padded_numbers_read_back m Hm) as H.
  rewrite Nat.add_0_l in H. unfold padded_reads_back in H. cbv zeta in H.
  unfold Sql.int_text, read_number. rewrite DecimalNat.Unsigned.to_uint_alt.
  apply andb_true_iff in H as [H1 H2]. apply Nat.eqb_eq in H1. split; [exact H1|].
  destruct (NilEmpty.uint_of_string _) as [d|]; [|discriminate].
  apply Decimal.internal_uint_dec_bl in H2. simpl. f_equal.
  rewrite <- (DecimalNat.Unsigned.of_uint_norm d), H2,
    DecimalNat.Unsigned.of_uint_norm, <- DecimalNat.Unsigned.to_uint_alt.
  apply DecimalNat.Unsigned.of_to.
Qed.

Lemma append_cancel (a x y : string) : (a ++ x)%string = (a ++ y)%string -> x = y.
Proof. induction a as [|c a IH]; simpl; [auto|]. intros [= H]. auto. Qed.

(** X7: while the sequence number is at most 9999 the padding loses
    nothing.  The padded number has exactly four characters and reads
    back as the sequence number, so two different sequence numbers up to
    9999 never get the same synthesized plot code, with the dataset
    prefix of [enhanced_seed.py] or the fixed prefix of
    [seed_import.py]. *)
Theorem synthesized_codes_are_distinct_up_to_9999 :
  forall rn : nat, (rn <= 9999)%nat ->
  String.length (Sql.LPAD (Sql.int_text rn) 4 "0") = 4%nat /\
  read_number (Sql.LPAD (Sql.int_text rn) 4 "0") = Some rn /\
  (forall (ds : string) (rn' : nat), (rn' <= 9999)%nat ->
     EnhancedSeed.synthesized ds rn = EnhancedSeed.synthesized ds rn' -> rn = rn') /\
  (forall rn' : nat, (rn' <= 9999)%nat ->
     SeedImport.synthesized rn = SeedImport.synthesized rn' -> rn = rn').
Proof.
  pose proof padded_number_reads_back as Hback.
  assert (Hinj : forall m m', (m <= 9999)%nat -> (m' <= 9999)%nat ->
            Sql.LPAD (Sql.int_text m) 4 "0" = Sql.LPAD (Sql.int_text m') 4 "0" -> m = m').
  { intros m m' Hm Hm' E.
    pose proof (proj2 (Hback m Hm)) as H1. pose proof (proj2 (Hback m' Hm')) as H2.
    rewrite E in H1. congruence. }
  intros rn Hrn. destruct (Hback rn Hrn) as [H1 H2].
  split; [exact H1|]. split; [exact H2|]. split.
  - intros ds rn' Hrn' E. unfold EnhancedSeed.synthesized in E.
    apply append_cancel in E. apply (append_cancel "_") in E. auto.
  - intros rn' Hrn' E. unfold SeedImport.synthesized in E.
    apply (append_cancel "MBY-") in E. auto.
Qed.

End PaddedNumbers.

(** ** A bridge that loads rows *)
Section BridgeSuccess.

Import Store EnhancedSeed.
Context {pg : Postgres} {sh : Shapely pg}.

Lemma process_imported_data_events dataset district_ ward_ village_ now ext d ev :
  In ev (log (final_db (process_imported_data dataset district_ ward_ village_ now ext d))) ->
  In ev (log d) \/ ev = InfoAllWithinBounds \/ ev = WarnSomeOutsideBounds \/
  exists e, ev = ErrorLogged e.
Proof.
  unfold process_imported_data.
  assert (Hx : forall (l : list event) x, In ev (l ++ [x]) -> In ev l \/ ev = x).
  { intros l x H. apply in_app_or in H as [H|[H|[]]]; auto. }
  destruct (temp_table d) as [t|]; [|simpl; intros H; apply Hx in H as [H| ->]; eauto].
  destruct (Nat.eqb (staged_count t) 0); [simpl; intros H; apply Hx in H as [H| ->]; eauto|].
  destruct (insert_sql _ _ _ _ _ t (land_plots d));
    [|simpl; intros H; apply Hx in H as [H| ->]; eauto].
  destruct (Nat.eqb _ 0); simpl; intros H; apply Hx in H as [H| ->]; eauto.
  destruct (within_tanzania _); auto.
Qed.

(** X8: when GDAL is installed and the converter loads at least one
    row, the fallback reader plays no part.  The run ends the same way,
    with the same database and log, whatever fiona would have found in
    the shapefile, and the log gets no "Trying Python fallback" entry. *)
Theorem successful_bridge_never_runs_the_fallback :
  forall (bounds : shapely_geometry -> box) (ext : list geometry -> box)
         (w : world) (dataset district_ ward_ village_ : string) (now : Z) (d : db),
  bridge_succeeds w = true ->
  (forall src,
     process_shapefile bounds ext (with_fiona w src) dataset district_ ward_ village_ now d =
     process_shapefile bounds ext w dataset district_ ward_ village_ now d) /\
  (~ In InfoTryingFallback (log d) ->
   ~ In InfoTryingFallback
       (log (final_db (process_shapefile bounds ext w dataset district_ ward_ village_ now d)))).
Proof.
  intros bounds ext w dataset district_ ward_ village_ now d Hb.
  unfold bridge_succeeds in Hb. apply andb_true_iff in Hb as [Hg Hl].
  assert (Hfst : fst (Reader.import_with_ogr2ogr (ogr2ogr w) d) = true).
  { now rewrite import_with_ogr2ogr_loaded. }
  split.
  - intros src. unfold process_shapefile, with_fiona, create_import_record.
    cbn [files sha256 gdal_available ogrinfo ogr2ogr fiona].
    generalize (Validator.validate_shapefile_components (files w)). intros v.
    rewrite Hg, Hfst. reflexivity.
  - intros Hlog. unfold process_shapefile.
    generalize (Validator.validate_shapefile_components (files w)). intros v.
    destruct (negb (Validator.valid v)); [exact Hlog|].
    rewrite Hg. cbv iota. rewrite !Hfst. cbn [negb].
    assert (Hd : ~ In InfoTryingFallback (log (snd (Reader.import_with_ogr2ogr (ogr2ogr w) d)))).
    { now rewrite import_with_ogr2ogr_log. }
    assert (Hp : ~ In InfoTryingFallback
                   (log (final_db (process_imported_data dataset district_ ward_ village_ now ext
                                     (snd (Reader.import_with_ogr2ogr (ogr2ogr w) d)))))).
    { intros Hin. apply process_imported_data_events in Hin
        as [Hin|[Hin|[Hin|[e Hin]]]]; try discriminate. contradiction. }
    destruct (process_imported_data _ _ _ _ _ _ _); cbn [final_db] in *; [|exact Hp].
    now rewrite (proj2 (proj2 (create_import_record_frame _ _ _ _ _ _ _))).
Qed.

End BridgeSuccess.

(** ** Provenance keys *)
Section Provenance.

Import Store EnhancedSeed.
Context {pg : Postgres}.
Variables (dataset district_ ward_ village_ : string) (now : Z).

Lemma jsonb_lookup_app (a b : jsonb) k :
  jsonb_lookup (a ++ b) k =
  match jsonb_lookup a k with
  | Some v => Some v
  | None => jsonb_lookup b k
  end.
Proof.
  induction a as [|[k' v] a IH]; simpl; [reflexivity|].
  destruct (String.eqb k k'); [reflexivity|exact IH].
Qed.

Lemma jsonb_lookup_filter (a : jsonb) (keys : list string) k :
  jsonb_lookup (filter (fun kv => negb (Sql.mem (fst kv) keys)) a) k =
  if Sql.mem k keys then None else jsonb_lookup a k.
Proof.
  induction a as [|[k' v] a IH]; simpl; [now destruct (Sql.mem k keys)|].
  destruct (Sql.mem k' keys) eqn:M; simpl.
  - rewrite IH. destruct (String.eqb k k') eqn:E; [|reflexivity].
    apply String.eqb_eq in E. subst. now rewrite M.
  - destruct (String.eqb k k') eqn:E; [|exact IH].
    apply String.eqb_eq in E. subst. now rewrite M.
Qed.

Lemma jsonb_lookup_absent (b : jsonb) k :
  Sql.mem k (map fst b) = false -> jsonb_lookup b k = None.
Proof.
  induction b as [|[k' v] b IH]; simpl; [reflexivity|].
  unfold Sql.mem. simpl. intros H. apply orb_false_iff in H as [H1 H2].
  rewrite H1. now apply IH.
Qed.

(** [a || b]: a key of [b] has the value [b] gives it, any other key
    the value it has in [a]. *)
Lemma get_text_concat (a b : jsonb) k :
  get_text (jsonb_concat a b) k =
  if Sql.mem k (map fst b) then get_text b k else get_text a k.
Proof.
  unfold get_text, jsonb_concat. rewrite jsonb_lookup_app, jsonb_lookup_filter.
  destruct (Sql.mem k (map fst b)) eqn:M; [reflexivity|].
  rewrite (jsonb_lookup_absent b k M). now destruct (jsonb_lookup a k).
Qed.

(** Every row the statement inserted or updated has the attributes of
    a tuple of the SELECT. *)
Lemma upsert_attributes (P : jsonb -> Prop) proposed : forall seen store store' touched,
  insert_on_conflict_do_update now seen store proposed = Ok store' ->
  (forall p0, In (Ok p0) proposed -> P (attributes p0)) ->
  (forall r, In r store -> In (plot_code r) touched -> P (attributes r)) ->
  forall r, In r store' -> In (plot_code r) (touched ++ tuple_codes proposed) ->
            P (attributes r).
Proof.
  induction proposed as [|t rest IH]; intros seen store store' touched H HP Hinv;
    simpl in H.
  - injection H as <-. intros r Hr Hc. simpl in Hc. rewrite app_nil_r in Hc. auto.
  - destruct t as [p0|e]; simpl in H; [|discriminate].
    destruct (check_constraints p0) as [p|e] eqn:C; simpl in H; [|discriminate].
    destruct (Sql.mem (plot_code p) seen); [discriminate|].
    intros r Hr Hc.
    assert (Hc' : In (plot_code r) ((touched ++ [plot_code p0]) ++ tuple_codes rest)).
    { simpl in Hc. now rewrite <- app_assoc. }
    pose proof (check_constraints_code _ _ C) as Hpc.
    assert (Hattr : P (attributes p)).
    { apply check_constraints_ok in C as (_ & -> & _). apply HP. now left. }
    refine (IH _ _ _ _ H _ _ r Hr Hc').
    + intros q Hq. apply HP. now right.
    + intros r1 Hr1 Hc1. apply in_app_or in Hc1.
      destruct (has_code (plot_code p) store) eqn:Hh.
      * apply in_map_iff in Hr1 as (r0 & <- & Hr0).
        unfold do_update. destruct (String.eqb (plot_code r0) (plot_code p)) eqn:E.
        -- exact Hattr.
        -- rewrite do_update_code in Hc1. destruct Hc1 as [Hc1|[Hc1|[]]]; [auto|].
           rewrite Hpc, Hc1, String.eqb_refl in E. discriminate.
      * apply in_app_or in Hr1 as [Hr1|[<-|[]]].
        -- destruct Hc1 as [Hc1|[Hc1|[]]]; [auto|].
           rewrite has_code_mem in Hh.
           assert (Sql.mem (plot_code p) (map plot_code store) = true) as Hm.
           { apply mem_true_iff. rewrite Hpc, Hc1. now apply in_map. }
           congruence.
        -- exact Hattr.
Qed.

Lemma jsonb_tuple_attributes rn row p :
  jsonb_tuple dataset district_ ward_ village_ now rn row = Ok p ->
  attributes p =
    jsonb_concat (j_attributes row)
      [("import_method", JString "python_fallback");
       ("import_timestamp", JString (timestamptz_out now));
       ("original_fid", JNumber (Sql.int_text (original_fid row)))].
Proof.
  unfold jsonb_tuple. destruct (j_geometry row) as [g|]; [|discriminate].
  destruct (coalesce_area _ _ _); simpl; [|discriminate]. now intros [= <-].
Qed.

Lemma column_tuple_attributes cols rn row p :
  column_tuple dataset district_ ward_ village_ now cols rn row = Ok p ->
  attributes p =
    jsonb_concat (json_build cols row)
      [("import_method", JString "ogr2ogr");
       ("import_timestamp", JString (timestamptz_out now))].
Proof.
  unfold column_tuple. destruct (c_geometry row) as [g|]; [|discriminate].
  destruct (column_area _ _ _); simpl; [|discriminate]. now intros [= <-].
Qed.

(** X9: the provenance keys always win.  In a tuple built from a
    staged row the keys [import_method], [import_timestamp] and, on the
    JSONB path, [original_fid] have the values of the run even when the
    shapefile has attributes of these names, and every other key keeps
    the value of the source attribute.  After a committed INSERT every
    row of [land_plots] whose plot code was staged, whether it was
    inserted or updated on conflict, carries the import method of the
    staging table and the timestamp of the run. *)
Theorem stored_attributes_carry_the_provenance_keys :
  (forall rn (row : jsonb_row) p k,
     jsonb_tuple dataset district_ ward_ village_ now rn row = Ok p ->
     get_text (attributes p) k =
       if String.eqb k "import_method" then Some "python_fallback"
       else if String.eqb k "import_timestamp" then Some (timestamptz_out now)
       else if String.eqb k "original_fid" then Some (Sql.int_text (original_fid row))
       else get_text (j_attributes row) k) /\
  (forall cols rn (row : column_row) p k,
     column_tuple dataset district_ ward_ village_ now cols rn row = Ok p ->
     get_text (attributes p) k =
       if String.eqb k "import_method" then Some "ogr2ogr"
       else if String.eqb k "import_timestamp" then Some (timestamptz_out now)
       else get_text (json_build cols row) k) /\
  (forall t store store',
     insert_sql dataset district_ ward_ village_ now t store = Ok store' ->
     forall r, In r store' ->
       In (plot_code r) (tuple_codes (select dataset district_ ward_ village_ now t)) ->
       get_text (attributes r) "import_method" =
         Some (match t with
              | AttributesTable _ => "python_fallback"
              | ColumnsTable _ _ => "ogr2ogr"
              end) /\
       get_text (attributes r) "import_timestamp" = Some (timestamptz_out now)).
Proof.
  assert (H1 : forall rn (row : jsonb_row) p k,
     jsonb_tuple dataset district_ ward_ village_ now rn row = Ok p ->
     get_text (attributes p) k =
       if String.eqb k "import_method" then Some "python_fallback"
       else if String.eqb k "import_timestamp" then Some (timestamptz_out now)
       else if String.eqb k "original_fid" then Some (Sql.int_text (original_fid row))
       else get_text (j_attributes row) k).
  { intros rn row p k H. rewrite (jsonb_tuple_attributes _ _ _ H), get_text_concat.
    unfold Sql.mem, get_text. cbn [map fst existsb jsonb_lookup].
    destruct (String.eqb k "import_method"); [reflexivity|].
    destruct (String.eqb k "import_timestamp"); [reflexivity|].
    destruct (String.eqb k "original_fid"); reflexivity. }
  assert (H2 : forall cols rn (row : column_row) p k,
     column_tuple dataset district_ ward_ village_ now cols rn row = Ok p ->
     get_text (attributes p) k =
       if String.eqb k "import_method" then Some "ogr2ogr"
       else if String.eqb k "import_timestamp" then Some (timestamptz_out now)
       else get_text (json_build cols row) k).
  { intros cols rn row p k H. rewrite (column_tuple_attributes _ _ _ _ H), get_text_concat.
    unfold Sql.mem. cbn [map fst existsb].
    destruct (String.eqb k "import_method") eqn:E1.
    - apply String.eqb_eq in E1. subst k. reflexivity.
    - destruct (String.eqb k "import_timestamp") eqn:E2; [|reflexivity].
      apply String.eqb_eq in E2. subst k. reflexivity. }
  split; [exact H1|]. split; [exact H2|].
  intros t store store' H r Hr Hc.
  refine (upsert_attributes
            (fun a => get_text a "import_method" =
                        Some (match t with
                             | AttributesTable _ => "python_fallback"
                             | ColumnsTable _ _ => "ogr2ogr"
                             end) /\
                      get_text a "import_timestamp" = Some (timestamptz_out now))
            _ [] store store' [] H _ _ r Hr Hc).
  - intros p0 Hp0. apply select_source in Hp0.
    destruct t as [rows|columns rows]; destruct Hp0 as (rn & row & _ & Hp0).
    + split; [apply (H1 _ _ _ "import_method" Hp0)|apply (H1 _ _ _ "import_timestamp" Hp0)].
    + split; [apply (H2 _ _ _ _ "import_method" Hp0)|apply (H2 _ _ _ _ "import_timestamp" Hp0)].
  - intros r0 _ [].
Qed.

End Provenance.

(** ** The count a run returns *)
Section ReturnedCount.

Import Store EnhancedSeed.
Context {pg : Postgres}.
Variables (dataset district_ ward_ village_ : string) (now : Z).

Lemma source_labels t p :
  source_of dataset district_ ward_ village_ now t p ->
  district p = district_ /\ ward p = ward_ /\ village p = village_ /\
  dataset_name p = Some dataset /\ created_at p = now.
Proof.
  destruct t as [rows|columns rows]; intros (rn & row & _ & H).
  - unfold jsonb_tuple in H. destruct (j_geometry row); [|discriminate].
    destruct (coalesce_area _ _ _); simpl in H; [|discriminate].
    injection H as <-. simpl. auto.
  - unfold column_tuple in H. destruct (c_geometry row); [|discriminate].
    destruct (column_area _ _ _); simpl in H; [|discriminate].
    injection H as <-. simpl. auto.
Qed.

Lemma count_dataset_app ds (l1 l2 : list LandPlot) :
  count_dataset ds (l1 ++ l2) = (count_dataset ds l1 + count_dataset ds l2)%nat.
Proof. unfold count_dataset. now rewrite filter_app, length_app. Qed.

Lemma count_dataset_frame ds (l l' : list LandPlot) :
  Forall2 same_frame l l' -> count_dataset ds l' = count_dataset ds l.
Proof.
  unfold count_dataset. induction 1 as [|r r' l l' Hr _ IH]; [reflexivity|].
  destruct Hr as (_ & _ & _ & _ & _ & _ & Hd & _). simpl. rewrite Hd.
  destruct (dataset_name r) as [n|]; [|exact IH].
  destruct (String.eqb n ds); simpl; now rewrite IH.
Qed.

Lemma count_dataset_all ds (l : list LandPlot) :
  Forall (fun r => dataset_name r = Some ds) l -> count_dataset ds l = List.length l.
Proof.
  unfold count_dataset. induction 1 as [|r l Hr _ IH]; [reflexivity|].
  simpl. rewrite Hr, String.eqb_refl. simpl. now rewrite IH.
Qed.

(** X10: what the count returned by [process_imported_data] counts.
    The rows stored before the run are all still there, in their place
    and with their dataset name; the rows the run inserted follow them
    and carry the district, ward, village and dataset name of the run
    and its clock as [created_at]; the count returned is the number of
    rows the dataset had before the run plus the number of rows the run
    inserted.  Staged rows that met an existing plot code add nothing
    to it. *)
Theorem returned_count_is_earlier_rows_plus_inserted_rows :
  forall (ext : list geometry -> box) (d : db) (n : nat) (d' : db),
  process_imported_data dataset district_ ward_ village_ now ext d = Returned n d' ->
  exists old new,
    land_plots d' = old ++ new /\
    Forall2 same_frame (land_plots d) old /\
    Forall (fun r => district r = district_ /\ ward r = ward_ /\ village r = village_ /\
                     dataset_name r = Some dataset /\ created_at r = now) new /\
    n = (count_dataset dataset (land_plots d) + List.length new)%nat.
Proof.
  intros ext d n d' H.
  pose proof (process_imported_data_returns _ _ _ _ _ _ _ _ _ H) as Hn.
  revert H. unfold process_imported_data.
  destruct (temp_table d) as [t|]; [|discriminate].
  destruct (Nat.eqb (staged_count t) 0); [discriminate|].
  destruct (insert_sql _ _ _ _ _ t (land_plots d)) as [store|e] eqn:I; [|discriminate].
  destruct (Nat.eqb _ 0); [discriminate|]. intros [= _ <-].
  cbn [land_plots set_temp_table logging set_land_plots] in *.
  apply insert_sql_shape in I as (old & new & -> & Hold & Hnew).
  assert (Hlab : Forall (fun r => district r = district_ /\ ward r = ward_ /\
                                  village r = village_ /\ dataset_name r = Some dataset /\
                                  created_at r = now) new).
  { revert Hnew. apply Forall_impl. intros r (p0 & p & Hs & Hc & Hf).
    apply source_labels in Hs as (S1 & S2 & S3 & S4 & S5).
    apply check_constraints_ok in Hc as ((_ & _ & _ & C1 & C2 & C3 & C4 & _ & C5) & _).
    destruct Hf as (_ & _ & _ & F1 & F2 & F3 & F4 & _ & F5).
    cbn [district ward village dataset_name created_at] in *.
    repeat split; congruence. }
  exists old, new. repeat split; auto.
  rewrite Hn, count_dataset_app, (count_dataset_frame _ _ _ Hold). f_equal.
  apply count_dataset_all. revert Hlab. apply Forall_impl. tauto.
Qed.

End ReturnedCount.

(** ** The source SRS passed to the converter *)
Section ConverterCommand.

(** X11: the source SRS [import_with_ogr2ogr] passes to the converter
    is one of the two WGS 84 / UTM zones or none.  The branch for
    Arc 1960 is only reached when the projection text names neither UTM
    zone, so it adds nothing: a projection text that names Arc 1960 and
    UTM zone 37S or 36S is passed as EPSG:32737 or EPSG:32736, never as
    EPSG:21097 or EPSG:21096, and a text that names neither zone adds
    no source SRS at all.  An Arc 1960 code is an argument of the
    command only when the connection string, the path, the table name
    or the encoding is that very string. *)
Theorem source_srs_is_never_an_arc_1960_code :
  forall projection : option string,
  (Gdal.source_srs projection = [] \/
   Gdal.source_srs projection = ["-s_srs"; "EPSG:32737"] \/
   Gdal.source_srs projection = ["-s_srs"; "EPSG:32736"]) /\
  (forall p, projection = Some p -> Py.contains "UTM_Zone_37S" p = true ->
     Gdal.source_srs projection = ["-s_srs"; "EPSG:32737"]) /\
  (forall p, projection = Some p -> Py.contains "UTM_Zone_37S" p = false ->
     Py.contains "UTM_Zone_36S" p = true ->
     Gdal.source_srs projection = ["-s_srs"; "EPSG:32736"]) /\
  (forall p, projection = Some p -> Py.contains "UTM_Zone_37S" p = false ->
     Py.contains "UTM_Zone_36S" p = false ->
     Gdal.source_srs projection = []) /\
  (forall pg_conn shapefile_path temp_table v code,
     Validator.projection v = projection ->
     code = "EPSG:21097" \/ code = "EPSG:21096" ->
     In code (Gdal.ogr2ogr_command pg_conn shapefile_path temp_table v) ->
     code = pg_conn \/ code = shapefile_path \/ code = temp_table \/
     Validator.encoding v = Some code).
Proof.
  intros projection.
  assert (Hempty : forall p, Py.truthy (Some p) = false -> p = "").
  { intros p H. unfold Py.truthy in H. apply negb_false_iff in H.
    now apply String.eqb_eq in H. }
  assert (H3 : Gdal.source_srs projection = [] \/
               Gdal.source_srs projection = ["-s_srs"; "EPSG:32737"] \/
               Gdal.source_srs projection = ["-s_srs"; "EPSG:32736"]).
  { unfold Gdal.source_srs. destruct projection as [p|]; [|auto].
    destruct (negb (Py.truthy (Some p))); [auto|].
    destruct (Py.contains "UTM_Zone_37S" p); [auto|].
    destruct (Py.contains "UTM_Zone_36S" p); [auto|].
    destruct (Py.contains "Arc_1960" p); auto. }
  split; [exact H3|]. split; [|split; [|split]].
  - intros p -> H. unfold Gdal.source_srs. rewrite H.
    destruct (Py.truthy (Some p)) eqn:T; [reflexivity|].
    apply Hempty in T. subst p. discriminate.
  - intros p -> H1 H2. unfold Gdal.source_srs. rewrite H1, H2.
    destruct (Py.truthy (Some p)) eqn:T; [reflexivity|].
    apply Hempty in T. subst p. discriminate.
  - intros p -> H1 H2. unfold Gdal.source_srs. rewrite H1, H2.
    destruct (negb _); [reflexivity|]. now destruct (Py.contains "Arc_1960" p).
  - intros pg_conn shapefile_path temp_table v code Hv Hcode Hin.
    unfold Gdal.ogr2ogr_command in Hin. rewrite Hv in Hin.
    apply in_app_or in Hin as [Hin|Hin].
    + simpl in Hin.
      destruct Hcode as [-> | ->];
        repeat (destruct Hin as [Hin|Hin]; [try discriminate; subst; auto|]);
        contradiction.
    + apply in_app_or in Hin as [Hin|Hin].
      * unfold Gdal.shape_encoding in Hin.
        destruct (Validator.encoding v) as [enc|]; [|contradiction].
        destruct (Py.truthy (Some enc)); [|contradiction].
        destruct Hin as [Hin|[Hin|[Hin|[]]]];
          [destruct Hcode; subst; discriminate|destruct Hcode; subst; discriminate|].
        subst. auto.
      * destruct H3 as [H3|[H3|H3]]; rewrite H3 in Hin; simpl in Hin;
          destruct Hcode; subst; intuition discriminate.
Qed.

End ConverterCommand.

(** ** The first script without the converter *)
Section SeedWithoutConverter.

Import Store.
Context {pg : Postgres} {sh : Shapely pg}.



End SeedWithoutConverter.

(** ** The fallback reader of the first script *)
Section SeedFallback.

Import Store Reader.
Context {pg : Postgres} {sh : Shapely pg}.




End SeedFallback.

(** ** A staging table without an acceptable geometry *)
Section NothingAccepted.

Import Store EnhancedSeed.
Context {pg : Postgres}.

(** X14: a staging table that has rows, none of which has a valid
    geometry of positive area.  [process_imported_data] inserts and
    updates nothing and still commits; if the dataset has no row stored
    from an earlier run it then raises the formatting error of the
    statistics and leaves the staging table in place, otherwise it
    returns the number of rows the dataset already had. *)
Theorem run_without_acceptable_geometry_inserts_nothing :
  forall (dataset district_ ward_ village_ : string) (now : Z)
         (ext : list geometry -> box) (d : db) (t : staging),
  temp_table d = Some t -> staged_count t <> 0%nat ->
  match t with
  | AttributesTable rows => considered_jsonb rows = []
  | ColumnsTable _ rows => considered_columns rows = []
  end ->
  let out := process_imported_data dataset district_ ward_ village_ now ext d in
  land_plots (final_db out) = land_plots d /\
  (count_dataset dataset (land_plots d) = 0%nat ->
   out = Raised FormatTypeError (logging d (ErrorLogged FormatTypeError))) /\
  (count_dataset dataset (land_plots d) <> 0%nat ->
   exists d', out = Returned (count_dataset dataset (land_plots d)) d' /\
              temp_table d' = None).
Proof.
  intros dataset district_ ward_ village_ now ext d t Ht Hn Hnone out.
  assert (Hsel : select dataset district_ ward_ village_ now t = []).
  { destruct t as [rows|cols rows]; simpl; now rewrite Hnone. }
  unfold out, process_imported_data. rewrite Ht.
  apply Nat.eqb_neq in Hn. rewrite Hn. unfold insert_sql. rewrite Hsel.
  cbn [insert_on_conflict_do_update].
  destruct (Nat.eqb (count_dataset dataset (land_plots d)) 0) eqn:C.
  - apply Nat.eqb_eq in C. split; [reflexivity|]. split.
    + intros _. destruct d. reflexivity.
    + intros H. contradiction.
  - apply Nat.eqb_neq in C. split; [reflexivity|]. split.
    + intros H. contradiction.
    + intros _. eexists. split; reflexivity.
Qed.

End NothingAccepted.

(** ** Sizes reported by the validator *)
Section ValidatorSizes.

Import Validator.

(** The size a component adds to the report. *)
Lemma check_component_sizes fs r c :
  file_sizes (check_component fs r c) =
    file_sizes r ++ match fs c with Readable n _ => [(c, n)] | _ => [] end /\
  total_size (check_component fs r c) =
    (total_size r + match fs c with Readable n _ => n | _ => 0 end)%N.
Proof.
  unfold check_component.
  destruct (fs c); destruct (required c); simpl;
    rewrite ?app_nil_r, ?N.add_0_r; auto.
Qed.

Lemma fold_check_sizes fs l : forall r,
  file_sizes (fold_left (check_component fs) l r) =
    file_sizes r ++ flat_map (fun c => match fs c with Readable n _ => [(c, n)] | _ => [] end) l /\
  total_size (fold_left (check_component fs) l r) =
    (total_size r +
     fold_right N.add 0%N
       (map snd (flat_map (fun c => match fs c with Readable n _ => [(c, n)] | _ => [] end) l)))%N.
Proof.
  induction l as [|c l IH]; intros r; simpl.
  - now rewrite app_nil_r, N.add_0_r.
  - destruct (IH (check_component fs r c)) as [H1 H2].
    destruct (check_component_sizes fs r c) as [S1 S2].
    rewrite H1, H2, S1, S2, <- app_assoc. split; [reflexivity|].
    rewrite map_app, fold_right_app.
    destruct (fs c); simpl; lia.
Qed.

Lemma sizes_mkValidation a b c d e f :
  file_sizes (mkValidation a b c d e f) = c /\ total_size (mkValidation a b c d e f) = d.
Proof. split; reflexivity. Qed.

(** X15: the sizes in the validation report.  [file_sizes] has one
    entry for each of the five components that exists and can be read,
    in the order shp, shx, dbf, prj, cpg, with the size of the file;
    missing and unreadable files have none; [total_size] is the sum of
    the sizes listed.  A valid report lists the three mandatory
    components. *)
Theorem validation_sizes_cover_the_readable_components :
  forall fs : filesystem,
  let v := validate_shapefile_components fs in
  file_sizes v =
    flat_map (fun c => match fs c with Readable n _ => [(c, n)] | _ => [] end) components /\
  total_size v = fold_right N.add 0%N (map snd (file_sizes v)) /\
  (forall c n, In (c, n) (file_sizes v) <-> exists content, fs c = Readable n content) /\
  (valid v = true -> forall c, required c = true -> In c (map fst (file_sizes v))).
Proof.
  intros fs v.
  assert (Hs : file_sizes v =
               flat_map (fun c => match fs c with Readable n _ => [(c, n)] | _ => [] end)
                 components).
  { unfold v, validate_shapefile_components. cbv zeta.
    rewrite (proj1 (sizes_mkValidation _ _ _ _ _ _)).
    now rewrite (proj1 (fold_check_sizes fs components _)). }
  assert (Hin : forall c n, In (c, n) (file_sizes v) <-> exists content, fs c = Readable n content).
  { intros c n. rewrite Hs, in_flat_map. split.
    - intros (c' & _ & H). destruct (fs c') eqn:F; simpl in H; try contradiction.
      destruct H as [[= <- <-]|[]]. eauto.
    - intros (content & F). exists c. split; [apply every_component_listed|].
      rewrite F. now left. }
  split; [exact Hs|]. split; [|split; [exact Hin|]].
  - rewrite Hs. unfold v, validate_shapefile_components. cbv zeta.
    rewrite (proj2 (sizes_mkValidation _ _ _ _ _ _)).
    rewrite (proj2 (fold_check_sizes fs components _)). reflexivity.
  - intros Hv c Hc. unfold v in Hv. rewrite validate_valid in Hv.
    rewrite forallb_forall in Hv. specialize (Hv c (every_component_listed c)).
    unfold component_ok in Hv. rewrite Hc in Hv.
    destruct (fs c) as [|n|n content] eqn:F; try discriminate.
    apply in_map_iff. exists (c, n). split; [reflexivity|]. apply Hin. eauto.
Qed.

End ValidatorSizes.

(** ** Fields read from the [ogrinfo] report *)
Section ReportFields.

Variable python_int : string -> option Z.
Variable python_float : string -> option Q.

Lemma parse_line_fields m raw f :
  In f (Gdal.field_list (Gdal.parse_line python_int python_float m raw)) ->
  In f (Gdal.field_list m) \/
  (let line := Py.strip raw in
   Py.contains "Layer name:" line = false /\ Py.contains "Feature Count:" line = false /\
   Py.contains "Geometry:" line = false /\ Py.contains "Extent:" line = false /\
   Py.contains ":" line = true /\ Py.contains "(" line = true /\
   Py.contains ")" line = true /\ Py.startswith "Layer" line = false /\
   Gdal.fd_name f = Py.strip (Py.item (Py.split ":" line) 0) /\
   Gdal.fd_info f = Py.strip (Py.item (Py.split ":" line) 1) /\
   Gdal.fd_type f = Py.strip (Py.item (Py.split "(" (Gdal.fd_info f)) 0)) /\
  Gdal.fd_name f <> "" /\ Gdal.fd_type f <> "" /\
  Sql.lower (Gdal.fd_name f) <> "extent" /\ Sql.lower (Gdal.fd_name f) <> "fid".
Proof.
  unfold Gdal.parse_line. cbv zeta.
  set (line := Py.strip raw).
  destruct (Py.contains "Layer name:" line) eqn:C1; [now left|].
  destruct (Py.contains "Feature Count:" line) eqn:C2.
  { destruct (python_int _); now left. }
  destruct (Py.contains "Geometry:" line) eqn:C3; [now left|].
  destruct (Py.contains "Extent:" line) eqn:C4.
  { destruct (Gdal.parse_extent _ _); now left. }
  destruct (Py.contains ":" line) eqn:C5; [|now left].
  destruct (Py.contains "(" line) eqn:C6; [|now left].
  destruct (Py.contains ")" line) eqn:C7; [|now left].
  destruct (Py.startswith "Layer" line) eqn:C8; [now left|].
  cbn [andb negb].
  set (name := Py.strip (Py.item (Py.split ":" line) 0)).
  set (info := Py.strip (Py.item (Py.split ":" line) 1)).
  set (type := Py.strip (Py.item (Py.split "(" info) 0)).
  destruct (String.eqb name "") eqn:E1; [now left|].
  destruct (String.eqb type "") eqn:E2; [now left|].
  destruct (Sql.mem (Sql.lower name) ["extent"; "fid"]) eqn:E3; [now left|].
  cbn [andb negb Gdal.field_list]. intros H. apply in_app_or in H as [H|[<-|[]]]; [now left|].
  right. cbn [Gdal.fd_name Gdal.fd_info Gdal.fd_type].
  apply String.eqb_neq in E1. apply String.eqb_neq in E2.
  unfold Sql.mem in E3. cbn [existsb] in E3.
  apply orb_false_iff in E3 as [E3 E4]. apply orb_false_iff in E4 as [E4 _].
  apply String.eqb_neq in E3. apply String.eqb_neq in E4.
  repeat split; auto.
Qed.

Lemma parse_lines_fields lines : forall m f,
  In f (Gdal.field_list (fold_left (Gdal.parse_line python_int python_float) lines m)) ->
  In f (Gdal.field_list m) \/
  exists raw, In raw lines /\
    In f (Gdal.field_list (Gdal.parse_line python_int python_float Gdal.no_metadata raw)).
Proof.
  induction lines as [|raw rest IH]; intros m f H; simpl in H; [now left|].
  apply IH in H as [H|(raw' & Hin & H)].
  - assert (Hm : In f (Gdal.field_list m) \/
                 In f (Gdal.field_list
                         (Gdal.parse_line python_int python_float Gdal.no_metadata raw))).
    { revert H. unfold Gdal.parse_line. cbv zeta.
      repeat match goal with
             | |- context [if ?b then _ else _] => destruct b
             | |- context [match ?o with Some _ => _ | None => _ end] => destruct o
             end; cbn [Gdal.field_list Gdal.no_metadata app]; auto.
      intros H. apply in_app_or in H as [H|H]; auto. }
    destruct Hm as [Hm|Hm]; [now left|]. right. exists raw. split; [now left|exact Hm].
  - right. exists raw'. split; [now right|exact H].
Qed.

(** X16: the fields [get_shapefile_metadata] reads from the report of
    [ogrinfo].  Every field comes from a line of the report that has a
    colon and both parentheses, does not start with "Layer" and has
    none of the markers "Layer name:", "Feature Count:", "Geometry:",
    "Extent:"; its name is what stands before the first colon and its
    type what stands between that colon and the next parenthesis or
    colon, both without surrounding blanks and neither empty; the name
    is not "extent" or "fid" in any mix of upper and lower case.  The
    same holds of the field names and types the ledger gets as
    [dbf_schema]. *)
Theorem report_fields_are_named_typed_and_not_pseudo_fields :
  forall (stdout : option string) (f : Gdal.field_definition),
  In f (Gdal.field_list (Gdal.get_shapefile_metadata python_int python_float stdout)) ->
  (exists output raw,
     stdout = Some output /\ In raw (Py.split Py.newline output) /\
     let line := Py.strip raw in
     Py.contains "Layer name:" line = false /\ Py.contains "Feature Count:" line = false /\
     Py.contains "Geometry:" line = false /\ Py.contains "Extent:" line = false /\
     Py.contains ":" line = true /\ Py.contains "(" line = true /\
     Py.contains ")" line = true /\ Py.startswith "Layer" line = false /\
     Gdal.fd_name f = Py.strip (Py.item (Py.split ":" line) 0) /\
     Gdal.fd_info f = Py.strip (Py.item (Py.split ":" line) 1) /\
     Gdal.fd_type f = Py.strip (Py.item (Py.split "(" (Gdal.fd_info f)) 0)) /\
  Gdal.fd_name f <> "" /\ Gdal.fd_type f <> "" /\
  Sql.lower (Gdal.fd_name f) <> "extent" /\ Sql.lower (Gdal.fd_name f) <> "fid" /\
  In (Gdal.fd_name f, Gdal.fd_type f)
     (EnhancedSeed.md_fields
        (Gdal.ledger_metadata (Gdal.get_shapefile_metadata python_int python_float stdout))).
Proof.
  intros stdout f H.
  assert (Hl : In (Gdal.fd_name f, Gdal.fd_type f)
                 (EnhancedSeed.md_fields
                    (Gdal.ledger_metadata
                       (Gdal.get_shapefile_metadata python_int python_float stdout)))).
  { unfold Gdal.ledger_metadata. cbn [EnhancedSeed.md_fields].
    apply in_map_iff. exists f. split; [reflexivity|exact H]. }
  destruct stdout as [output|]; [|contradiction].
  unfold Gdal.get_shapefile_metadata in H.
  apply parse_lines_fields in H as [[]|(raw & Hin & H)].
  apply parse_line_fields in H as [[]|(Hline & N1 & N2 & N3 & N4)].
  split; [|auto]. exists output, raw. auto.
Qed.

End ReportFields.

(** ** What the first script inserts *)
Section SeedInsertsAll.

Import Store.
Context {pg : Postgres}.










End SeedInsertsAll.

(** ** The ledger record of a run that returns *)
Section LedgerRecord.

Import Store EnhancedSeed.
Context {pg : Postgres} {sh : Shapely pg}.




End LedgerRecord.

(** ** Area attributes of a committed INSERT *)
Section AreaAttributes.

Import Store EnhancedSeed.
Context {pg : Postgres}.
Variables (dataset district_ ward_ village_ : string) (now : Z).






End AreaAttributes.

(** * Closed instances of the further properties *)
Section FurtherWitnesses.

Import Store EnhancedSeed.

(** X1 at the parcel stored by the first run and upserted again. *)
Lemma plot_codes_unique_witness :
  NoDup (map plot_code (land_plots Sample.first_run)) /\
  NoDup (map plot_code (land_plots Sample.second_run)).
Proof.
  assert (H : NoDup (map plot_code
                       (land_plots (set_temp_table Sample.first_run
                                      (temp_table Sample.once_staged))))).
  { cbv. constructor; [intros []|constructor]. }
  split; [exact H|].
  exact (proj1 (plot_codes_stay_unique (pg := Sample.postgres) "survey1" "Mbuyuni"
                  "Mbuyuni Ward" "Mbuyuni Village" 200%Z Sample.parcels_extent _ H)).
Defined.

(** X2 at the staging table of two parcels and an empty store. *)
Lemma appended_codes_witness :
  NoDup (tuple_codes (select (pg := Sample.postgres) "survey1" "Mbuyuni" "Mbuyuni Ward"
                        "Mbuyuni Village" 100%Z Sample.one_staged)) /\
  map plot_code (Sample.stored_after 100 Sample.one_staged []) = ["A1"; "survey1_0002"].
Proof.
  pose proof (upsert_appends_the_codes_not_yet_stored (pg := Sample.postgres)
                "survey1" "Mbuyuni" "Mbuyuni Ward" "Mbuyuni Village" 100%Z
                Sample.one_staged [] (Sample.stored_after 100 Sample.one_staged [])
                eq_refl) as H.
  cbv zeta in H. destruct H as (_ & H2 & H3 & _).
  split; [exact H2|exact H3].
Defined.

(** X4 at a shapefile without features. *)
Lemma failed_run_witness :
  shapefile_imports (final_db Sample.run_no_features) = [] /\
  land_plots (final_db Sample.run_no_features) = [].
Proof.
  destruct (failed_run_writes_no_ledger_record (sh := Sample.shapely)
              Sample.parcel_bounds Sample.parcels_extent
              (Sample.without_gdal Sample.all_readable [])
              "survey1" "Mbuyuni" "Mbuyuni Ward" "Mbuyuni Village" 100%Z Sample.empty_db
              BothImportMethodsFailed (final_db Sample.run_no_features) eq_refl) as [H1 H2].
  split; [exact H1|]. apply H2. discriminate.
Defined.

(** X5 at a second run for a dataset that has a ledger record. *)
Lemma ledger_witness :
  NoDup (map si_dataset_name (shapefile_imports (final_db Sample.run_two_features))) /\
  NoDup (map si_dataset_name
           (shapefile_imports
              (final_db (process_shapefile (sh := Sample.shapely) Sample.parcel_bounds
                           Sample.parcels_extent Sample.two_features "survey1" "Mbuyuni"
                           "Mbuyuni Ward" "Mbuyuni Village" 200%Z
                           (final_db Sample.run_two_features))))).
Proof.
  assert (H : NoDup (map si_dataset_name
                       (shapefile_imports (final_db Sample.run_two_features)))).
  { cbv. constructor; [intros []|constructor]. }
  split; [exact H|].
  pose proof (ledger_keeps_one_record_per_dataset (sh := Sample.shapely)
                Sample.parcel_bounds Sample.parcels_extent Sample.two_features
                "survey1" "Mbuyuni" "Mbuyuni Ward" "Mbuyuni Village" 200%Z
                (final_db Sample.run_two_features) H) as H'.
  cbv zeta in H'. exact (proj1 (proj1 H')).
Defined.

(** X7 at the sequence number 42. *)
Lemma padded_number_witness :
  (42 <= 9999)%nat /\
  read_number (Sql.LPAD (Sql.int_text 42) 4 "0") = Some 42%nat.
Proof.
  assert (H : (42 <= 9999)%nat) by (apply Nat.leb_le; reflexivity).
  split; [exact H|].
  exact (proj1 (proj2 (synthesized_codes_are_distinct_up_to_9999 42 H))).
Defined.

(** X8 on a machine where the converter loads one row. *)
Lemma bridge_witness :
  bridge_succeeds (Sample.with_gdal [Sample.plot_17]) = true /\
  process_shapefile (sh := Sample.shapely) Sample.parcel_bounds Sample.parcels_extent
    (with_fiona (Sample.with_gdal [Sample.plot_17]) (Reader.Opened false Sample.three_features))
    "survey1" "Mbuyuni" "Mbuyuni Ward" "Mbuyuni Village" 100%Z Sample.empty_db =
  process_shapefile (sh := Sample.shapely) Sample.parcel_bounds Sample.parcels_extent
    (Sample.with_gdal [Sample.plot_17])
    "survey1" "Mbuyuni" "Mbuyuni Ward" "Mbuyuni Village" 100%Z Sample.empty_db.
Proof.
  split; [reflexivity|].
  exact (proj1 (successful_bridge_never_runs_the_fallback (sh := Sample.shapely)
                  Sample.parcel_bounds Sample.parcels_extent
                  (Sample.with_gdal [Sample.plot_17])
                  "survey1" "Mbuyuni" "Mbuyuni Ward" "Mbuyuni Village" 100%Z Sample.empty_db
                  eq_refl)
           (Reader.Opened false Sample.three_features)).
Defined.

(** X9 at a feature with an attribute named [import_method]. *)
Lemma provenance_witness :
  get_text (Sample.attributes_of Sample.relabelled) "import_method" = Some "python_fallback" /\
  get_text (Sample.attributes_of Sample.relabelled) "owner" = Some "Juma".
Proof.
  pose proof (proj1 (stored_attributes_carry_the_provenance_keys (pg := Sample.postgres)
                       "survey1" "Mbuyuni" "Mbuyuni Ward" "Mbuyuni Village" 100%Z)) as H.
  split.
  - exact (H 1%nat Sample.relabelled _ "import_method" eq_refl).
  - exact (H 1%nat Sample.relabelled _ "owner" eq_refl).
Defined.

(** X10 at the second run: the row of the first run is counted. *)
Lemma returned_count_witness :
  exists old new,
    land_plots Sample.second_run = old ++ new /\
    Forall2 same_frame (land_plots Sample.first_run) old /\
    1%nat = (count_dataset "survey1" (land_plots Sample.first_run) + List.length new)%nat.
Proof.
  destruct (returned_count_is_earlier_rows_plus_inserted_rows (pg := Sample.postgres)
              "survey1" "Mbuyuni" "Mbuyuni Ward" "Mbuyuni Village" 200%Z
              Sample.parcels_extent
              (set_temp_table Sample.first_run (temp_table Sample.once_staged))
              1%nat Sample.second_run eq_refl) as (old & new & H1 & H2 & _ & H4).
  exists old, new. split; [exact H1|]. split; [exact H2|exact H4].
Defined.


(** X14 at a staging table whose only geometry has no area. *)
Lemma nothing_accepted_witness :
  land_plots (final_db (Sample.upsert_one 100 Sample.only_slivers)) = [] /\
  Sample.upsert_one 100 Sample.only_slivers =
    Raised FormatTypeError (logging Sample.only_slivers (ErrorLogged FormatTypeError)).
Proof.
  assert (Hn : staged_count (AttributesTable [Sample.row_of Sample.sliver [] 0]) <> 0%nat)
    by discriminate.
  pose proof (run_without_acceptable_geometry_inserts_nothing (pg := Sample.postgres)
                "survey1" "Mbuyuni" "Mbuyuni Ward" "Mbuyuni Village" 100%Z
                Sample.parcels_extent Sample.only_slivers _ eq_refl Hn eq_refl) as H.
  cbv zeta in H. destruct H as (H1 & H2 & _).
  split; [exact H1|exact (H2 eq_refl)].
Defined.

(** X16 at a report with two fields and the pseudo-field FID. *)
Lemma report_fields_witness :
  In (Gdal.mkFieldDefinition "PLOT_NO" "String" "String (10.0)")
     (Gdal.field_list (Gdal.get_shapefile_metadata Sample.integer_in Sample.decimal_in
                         (Some Sample.report))) /\
  Sql.lower "PLOT_NO" <> "fid" /\
  In ("PLOT_NO", "String")
     (md_fields (Gdal.ledger_metadata
                   (Gdal.get_shapefile_metadata Sample.integer_in Sample.decimal_in
                      (Some Sample.report)))).
Proof.
  assert (H : In (Gdal.mkFieldDefinition "PLOT_NO" "String" "String (10.0)")
                (Gdal.field_list (Gdal.get_shapefile_metadata Sample.integer_in
                                    Sample.decimal_in (Some Sample.report)))).
  { vm_compute. left. reflexivity. }
  destruct (report_fields_are_named_typed_and_not_pseudo_fields Sample.integer_in
              Sample.decimal_in (Some Sample.report) _ H) as (_ & _ & _ & _ & H4 & H5).
  split; [exact H|]. split; [exact H4|exact H5].
Defined.




End FurtherWitnesses.

Section FurtherChecks.

Import Store.

(** The report of [ogrinfo] read line by line: the layer name, the
    count, the extent, and the two fields; FID is left out. *)
Example report_is_parsed :
  let m := Gdal.get_shapefile_metadata Sample.integer_in Sample.decimal_in
             (Some Sample.report) in
  Gdal.layer_name m = Some "test_mbuyuni" /\
  Gdal.geometry_type m = Some "Polygon" /\
  Gdal.md_feature_count m = 3%Z /\
  Gdal.md_spatial_extent m = Some (331 # 10, - (89 # 10), 332 # 10, - (88 # 10))%Q /\
  map (fun f => (Gdal.fd_name f, Gdal.fd_type f)) (Gdal.field_list m) =
    [("PLOT_NO", "String"); ("AREA_HA", "Real")].
Proof. vm_compute. repeat split. Qed.

(** An Arc 1960 projection on UTM zone 37S is passed as WGS 84. *)
Example arc_1960_is_passed_as_wgs84 :
  Gdal.source_srs (Some "PROJCS[Arc_1960_UTM_Zone_37S,GEOGCS[GCS_Arc_1960]]") =
  ["-s_srs"; "EPSG:32737"].
Proof. reflexivity. Qed.

(** The fallback reader skips the point and repairs the bow tie. *)
Example fallback_skips_and_repairs :
  map original_fid
    (staged_from (sh := Sample.shapely) false 0 Sample.three_features) = [0%nat; 2%nat].
Proof. reflexivity. Qed.

End FurtherChecks.
